(** * sds1004x_bode: the RPCBIND port mapper and the VXI-11 listener

    A shallow embedding of [sds1004x_bode/awg_server.py]: the byte-level
    helpers of [CommsObject], the two [Portmapper] request handlers, the
    VXI-11 request loop of [AwgServer] and the port rotation of its main
    loop, followed by the properties of the network protocol.

    Conventions.
    - A Python [bytes] value is a [list byte]; a Python [int] is a [Z].
    - A Python exception is a [Raise] result; what a handler does on its
      sockets is recorded as a trace of [event]s, in program order.
    - [print] calls only write to the console and are left out. *)

From Stdlib Require Import Strings.Byte String.
From Stdlib Require Import ZArith List Lia Bool.
Import ListNotations.
Local Open Scope Z_scope.

(** ** Python values and built-ins used by the server *)

Module Py.

Definition bytes := list byte.

(** A Python [str]: a sequence of Unicode code points. *)
Definition str := list Z.

Inductive exn : Type :=
| OverflowError        (* int.to_bytes: value does not fit *)
| ValueError           (* tuple unpacking: wrong number of values *)
| KeyError             (* dict lookup: missing key *)
| UnicodeDecodeError   (* bytes.decode('utf-8'): invalid input *)
| ParserError.         (* an exception leaving CommandParser *)

Inductive result (A : Type) : Type :=
| Ok (a : A)
| Raise (e : exn).
Arguments Ok {A} a.
Arguments Raise {A} e.

Definition rbind {A B} (r : result A) (k : A -> result B) : result B :=
  match r with
  | Ok a => k a
  | Raise e => Raise e
  end.

Definition byte_val (b : byte) : Z := Z.of_N (Byte.to_N b).

Definition byte_of_Z (z : Z) : byte :=
  match Byte.of_N (Z.to_N (z mod 256)) with
  | Some b => b
  | None => x00
  end.

(** [len(l)] *)
Definition len {A} (l : list A) : Z := Z.of_nat (length l).

(** [l[start:stop]] for non-negative indices (the only ones the server
    uses): both indices are clamped to [len(l)]. *)
Definition slice {A} (l : list A) (start stop : Z) : list A :=
  let lo := Z.min start (len l) in
  let hi := Z.min stop (len l) in
  firstn (Z.to_nat (hi - lo)) (skipn (Z.to_nat lo) l).

(** [l[start:]] for a non-negative index. *)
Definition slice_from {A} (l : list A) (start : Z) : list A :=
  skipn (Z.to_nat (Z.min start (len l))) l.

(** [int.from_bytes(bs, "big")] *)
Definition int_from_bytes (bs : bytes) : Z :=
  fold_left (fun acc b => acc * 256 + byte_val b) bs 0.

(** The [n] low base-256 digits of [num], most significant first. *)
Fixpoint be_digits (n : nat) (num : Z) : bytes :=
  match n with
  | O => []
  | S k => be_digits k (num / 256) ++ [byte_of_Z num]
  end.

(** [num.to_bytes(length, "big")]: unsigned, raises [OverflowError] on
    a negative number or one that needs more than [length] bytes. *)
Definition int_to_bytes (num : Z) (length : nat) : result bytes :=
  if (0 <=? num) && (num <? 256 ^ Z.of_nat length)
  then Ok (be_digits length num)
  else Raise OverflowError.

(** A [multiprocessing.Value('I', v)]: a C [unsigned int] in shared
    memory.  ctypes does no overflow checking: a stored value is
    reduced modulo [2^32]. *)
Record Value_I : Type := mkValue { value : Z }.

Definition new_Value_I (v : Z) : Value_I := mkValue (v mod 2 ^ 32).

Definition set_value (c : Value_I) (v : Z) : Value_I := mkValue (v mod 2 ^ 32).

End Py.
Import Py.

Notation "x <- r ;; k" := (rbind r (fun x => k))
  (at level 61, r at next level, right associativity).

(** ** Module constants *)

Definition RPCBIND_PORT : Z := 111.
Definition VXI11_PORTRANGE_START : Z := 9010.
Definition VXI11_PORTRANGE_END : Z := 9019.

Definition AWG_ID_STRING : bytes := list_byte_of_string "IDN-SGLT-PRI SDG0000X".

Definition GET_PORT : Z := 3.
Definition CREATE_LINK : Z := 10.
Definition DEVICE_WRITE : Z := 11.
Definition DEVICE_READ : Z := 12.
Definition DESTROY_LINK : Z := 23.

(** The dict [LXI_PROCEDURES]; [None] is a missing key. *)
Definition LXI_PROCEDURES (k : Z) : option string :=
  if k =? 10 then Some "CREATE_LINK"%string
  else if k =? 11 then Some "DEVICE_WRITE"%string
  else if k =? 12 then Some "DEVICE_READ"%string
  else if k =? 23 then Some "DESTROY_LINK"%string
  else None.

Definition VXI11_CORE_ID : Z := 395183.
Definition NOT_VXI11_ERROR : Z := -1.
Definition NOT_GET_PORT_ERROR : Z := -2.
Definition UNKNOWN_COMMAND_ERROR : Z := -4.
Definition OK : Z := 0.

(** ** CommsObject *)

Definition get_xid (rx_packet : bytes) : bytes := slice rx_packet 0x00 0x04.

Definition bytes_to_uint (bytes_seq : bytes) : Z := int_from_bytes bytes_seq.

Definition uint_to_bytes (num : Z) : result bytes := int_to_bytes num 4.

Definition generate_packet_size_header (size : Z) : result bytes :=
  let size := Z.lor size 0x80000000 in
  uint_to_bytes size.

Definition generate_rpc_header (xid : bytes) : bytes :=
  let hdr := [] in
  let hdr := hdr ++ xid in
  let hdr := hdr ++ [x00; x00; x00; x01] in
  let hdr := hdr ++ [x00; x00; x00; x00] in
  let hdr := hdr ++ [x00; x00; x00; x00] in
  let hdr := hdr ++ [x00; x00; x00; x00] in
  let hdr := hdr ++ [x00; x00; x00; x00] in
  hdr.

Definition generate_resp_data (xid resp : bytes) (on_udp : bool) : result bytes :=
  let rpc_hdr := generate_rpc_header xid in
  if on_udp then
    Ok (rpc_hdr ++ resp)
  else
    let data_size := len rpc_hdr + len resp in
    size_hdr <- generate_packet_size_header data_size ;;
    Ok (size_hdr ++ rpc_hdr ++ resp).

(** ** Text decoding *)

Definition is_cont (c : Z) : bool := (0x80 <=? c) && (c <=? 0xBF).

(** The strict UTF-8 decoder behind [bytes.decode('utf-8')]: shortest
    forms only, no surrogates, nothing above U+10FFFF.  [None] stands for
    the position at which Python raises. *)
Fixpoint utf8_decode (bs : bytes) : option str :=
  match bs with
  | [] => Some []
  | b0 :: t0 =>
    let c0 := byte_val b0 in
    if c0 <? 0x80 then
      option_map (cons c0) (utf8_decode t0)
    else if (0xC2 <=? c0) && (c0 <=? 0xDF) then
      match t0 with
      | b1 :: t1 =>
        let c1 := byte_val b1 in
        if is_cont c1
        then option_map (cons ((c0 - 0xC0) * 64 + (c1 - 0x80))) (utf8_decode t1)
        else None
      | _ => None
      end
    else if (0xE0 <=? c0) && (c0 <=? 0xEF) then
      match t0 with
      | b1 :: b2 :: t2 =>
        let c1 := byte_val b1 in
        let c2 := byte_val b2 in
        let lo := if c0 =? 0xE0 then 0xA0 else 0x80 in
        let hi := if c0 =? 0xED then 0x9F else 0xBF in
        if (lo <=? c1) && (c1 <=? hi) && is_cont c2
        then option_map
               (cons ((c0 - 0xE0) * 4096 + (c1 - 0x80) * 64 + (c2 - 0x80)))
               (utf8_decode t2)
        else None
      | _ => None
      end
    else if (0xF0 <=? c0) && (c0 <=? 0xF4) then
      match t0 with
      | b1 :: b2 :: b3 :: t3 =>
        let c1 := byte_val b1 in
        let c2 := byte_val b2 in
        let c3 := byte_val b3 in
        let lo := if c0 =? 0xF0 then 0x90 else 0x80 in
        let hi := if c0 =? 0xF4 then 0x8F else 0xBF in
        if (lo <=? c1) && (c1 <=? hi) && is_cont c2 && is_cont c3
        then option_map
               (cons ((c0 - 0xF0) * 262144 + (c1 - 0x80) * 4096
                      + (c2 - 0x80) * 64 + (c3 - 0x80)))
               (utf8_decode t3)
        else None
      | _ => None
      end
    else None
  end.

(** [bs.decode('utf-8')] *)
Definition decode_utf8 (bs : bytes) : result str :=
  match utf8_decode bs with
  | Some s => Ok s
  | None => Raise UnicodeDecodeError
  end.

(** [str.isspace] on one code point. *)
Definition isspace (c : Z) : bool :=
  ((0x09 <=? c) && (c <=? 0x0D)) || ((0x1C <=? c) && (c <=? 0x20))
  || (c =? 0x85) || (c =? 0xA0) || (c =? 0x1680)
  || ((0x2000 <=? c) && (c <=? 0x200A))
  || (c =? 0x2028) || (c =? 0x2029) || (c =? 0x202F) || (c =? 0x205F)
  || (c =? 0x3000).

Fixpoint lstrip (s : str) : str :=
  match s with
  | [] => []
  | c :: t => if isspace c then lstrip t else s
  end.

(** [s.strip()] *)
Definition strip (s : str) : str := rev (lstrip (rev (lstrip s))).

(** ** Socket effects *)

Inductive event : Type :=
| EvSend (data : bytes)      (* connection.send(data) *)
| EvSendTo (data : bytes)    (* rpcbind_socket.sendto(data, address) *)
| EvClose                    (* connection.close() *)
| EvCloseListener            (* lxi_socket.close() *)
| EvListen (port : Z).       (* create_socket(host, port, False, ...) *)

(** A computation that acts on sockets: the events it performed and the
    value it returned, or the exception that ended it. *)
Definition io (A : Type) : Type := (list event * result A)%type.

Definition io_ret {A} (a : A) : io A := ([], Ok a).

Definition io_bind {A B} (m : io A) (k : A -> io B) : io B :=
  match m with
  | (t, Ok a) => let '(t', r) := k a in (t ++ t', r)
  | (t, Raise e) => (t, Raise e)
  end.

Definition emit (e : event) : io unit := ([e], Ok tt).

Definition lift {A} (r : result A) : io A := ([], r).

Notation "x <~ m ;; k" := (io_bind m (fun x => k))
  (at level 61, m at next level, right associativity).
Notation "m ;;; k" := (io_bind m (fun _ => k))
  (at level 61, right associativity).

(** The replies a trace carries, on a connection or as datagrams. *)
Definition sent (t : list event) : list bytes :=
  flat_map (fun e => match e with
                     | EvSend d | EvSendTo d => [d]
                     | _ => []
                     end) t.

(** Whether [connection.close()] was called. *)
Definition closed (t : list event) : bool :=
  existsb (fun e => match e with EvClose => true | _ => false end) t.

(** ** Portmapper *)

Definition generate_rpcbind_response (vxi11_port : Value_I) : result bytes :=
  let myport := value vxi11_port in
  uint_to_bytes myport.

Definition get_procedure (rx_packet : bytes) : Z :=
  bytes_to_uint (slice rx_packet 0x14 0x18).

Definition get_program_id (rx_packet : bytes) : Z :=
  bytes_to_uint (slice rx_packet 0x28 0x2C).

(** [rx_data] is what [connection.recv(128)] returned on the accepted
    connection; the result is the function's return value. *)
Definition process_rpcbind_request_tcp (vxi11_port : Value_I) (rx_data : bytes)
  : io Z :=
  if len rx_data >? 4 then
    let rx_data := slice_from rx_data 0x04 in
    let procedure := get_procedure rx_data in
    if negb (procedure =? GET_PORT) then
      io_ret NOT_GET_PORT_ERROR
    else
      let program_id := get_program_id rx_data in
      if negb (program_id =? VXI11_CORE_ID) then
        io_ret NOT_VXI11_ERROR
      else
        resp <~ lift (generate_rpcbind_response vxi11_port) ;;
        let xid := get_xid rx_data in
        resp_data <~ lift (generate_resp_data xid resp false) ;;
        emit (EvSend resp_data) ;;;
        emit EvClose ;;;
        io_ret OK
  else
    emit EvClose ;;;
    io_ret OK.

(** [rx_data] is the datagram [rpcbind_socket.recvfrom(1024)] returned. *)
Definition process_rpcbind_request_udp (vxi11_port : Value_I) (rx_data : bytes)
  : io Z :=
  if len rx_data >? 0 then
    let procedure := get_procedure rx_data in
    if negb (procedure =? GET_PORT) then
      io_ret NOT_GET_PORT_ERROR
    else
      let program_id := get_program_id rx_data in
      if negb (program_id =? VXI11_CORE_ID) then
        io_ret NOT_VXI11_ERROR
      else
        resp <~ lift (generate_rpcbind_response vxi11_port) ;;
        let xid := get_xid rx_data in
        resp_data <~ lift (generate_resp_data xid resp true) ;;
        emit (EvSendTo resp_data) ;;;
        io_ret OK
  else
    io_ret OK.

(** ** AwgServer *)

(** What [parse_lxi_request] returns: the first [return] statement builds
    a tuple of three values, the last one a tuple of four. *)
Inductive parse_tuple : Type :=
| Tuple3 (status : Z)
    (* (status, None, None) *)
| Tuple4 (status vxi11_procedure : Z) (scpi_command : option str) (cmd_length : Z).
    (* (status, vxi11_procedure, scpi_command, cmd_length) *)

Definition parse_lxi_request (rx_data : bytes) : result parse_tuple :=
  let program_id := bytes_to_uint (slice rx_data 0x10 0x14) in
  if negb (program_id =? VXI11_CORE_ID) then
    Ok (Tuple3 NOT_VXI11_ERROR)
  else
    let vxi11_procedure := bytes_to_uint (slice rx_data 0x18 0x1c) in
    let '(status, scpi_command, cmd_length) :=
      if vxi11_procedure =? CREATE_LINK then
        let cmd_length := bytes_to_uint (slice rx_data 0x38 0x3C) in
        (OK, Some (slice rx_data 0x3C (0x3C + cmd_length)), cmd_length)
      else if vxi11_procedure =? DEVICE_WRITE then
        let cmd_length := bytes_to_uint (slice rx_data 0x3C 0x40) in
        (OK, Some (slice rx_data 0x40 (0x40 + cmd_length)), cmd_length)
      else if vxi11_procedure =? DEVICE_READ then
        (OK, None, 0)
      else if vxi11_procedure =? DESTROY_LINK then
        (OK, None, 0)
      else
        (UNKNOWN_COMMAND_ERROR, None, 0) in
    scpi_command <-
      match scpi_command with
      | Some raw => s <- decode_utf8 raw ;; Ok (Some (strip s))
      | None => Ok None
      end ;;
    Ok (Tuple4 status vxi11_procedure scpi_command cmd_length).

Definition generate_lxi_create_link_response : bytes :=
  let resp := [x00; x00; x00; x00] in
  let resp := resp ++ [x00; x00; x00; x00] in
  let resp := resp ++ [x00; x00; x00; x00] in
  let resp := resp ++ [x00; x80; x00; x00] in
  resp.

Definition generate_lxi_destroy_link_response : bytes :=
  let resp := [x00; x00; x00; x00] in
  resp.

Definition generate_lxi_device_write_response (cmd_length : Z) : result bytes :=
  let resp := [x00; x00; x00; x00] in
  size <- uint_to_bytes cmd_length ;;
  let resp := resp ++ size in
  Ok resp.

Definition generate_lxi_idn_response (id_string : bytes) : result bytes :=
  let resp := [x00; x00; x00; x00] in
  let resp := resp ++ [x00; x00; x00; x04] in
  let id_length := len id_string + 1 in
  id_size <- uint_to_bytes id_length ;;
  let resp := resp ++ id_size in
  let resp := resp ++ id_string in
  let resp := resp ++ [x0a; x00; x00] in
  Ok resp.

(** The rotation of the port cell in [main_loop]: the two statements
    after [close_lxi_sockets]. *)
Definition rotate_port (vxi11_portrange_start vxi11_portrange_end : Z)
  (vxi11_port : Value_I) : Value_I :=
  let vxi11_port := set_value vxi11_port (value vxi11_port + 1) in
  if value vxi11_port >? vxi11_portrange_end
  then set_value vxi11_port vxi11_portrange_start
  else vxi11_port.

(** [break] or fall through to the next iteration of a [while True]. *)
Inductive loop_ctl : Type := Continue | Break.

(** How far a run of the request loop got on the data it was given. *)
Inductive loop_end (S : Type) : Type :=
| Left_loop (s : S)     (* the loop was left by [break] *)
| In_recv (s : S).      (* the loop is waiting in [connection.recv] *)
Arguments Left_loop {S} s.
Arguments In_recv {S} s.

Section AwgServer.

(** [CommandParser] (module [command_parser]) and the AWG driver behind it
    are not among the sources: the parser is a parameter, a function of
    the command it is handed and of the state [Awg] of parser and driver,
    that returns the new state or raises. *)
Variable Awg : Type.
Variable parse_scpi_command : option str -> Awg -> result Awg.

(** One pass through the body of the [while True] of
    [process_lxi_requests], for the buffer [connection.recv(255)]
    returned. *)
Definition lxi_request (rx_buf : bytes) (awg : Awg) : io (loop_ctl * Awg) :=
  if len rx_buf >? 0 then
    let resp : bytes := [] in
    parsed <~ lift (parse_lxi_request rx_buf) ;;
    match parsed with
    | Tuple3 _ =>
      (* four targets, three values *)
      lift (Raise ValueError)
    | Tuple4 status vxi11_procedure scpi_command cmd_length =>
      if status =? NOT_VXI11_ERROR then
        io_ret (Break, awg)
      else if status =? UNKNOWN_COMMAND_ERROR then
        io_ret (Break, awg)
      else
        lift (match LXI_PROCEDURES vxi11_procedure with
              | Some name => Ok name
              | None => Raise KeyError
              end) ;;;
        dispatched <~
          (if vxi11_procedure =? CREATE_LINK then
             io_ret (Some (generate_lxi_create_link_response, awg))
           else if vxi11_procedure =? DEVICE_WRITE then
             awg <~ lift (parse_scpi_command scpi_command awg) ;;
             resp <~ lift (generate_lxi_device_write_response cmd_length) ;;
             io_ret (Some (resp, awg))
           else if vxi11_procedure =? DEVICE_READ then
             resp <~ lift (generate_lxi_idn_response AWG_ID_STRING) ;;
             io_ret (Some (resp, awg))
           else if vxi11_procedure =? DESTROY_LINK then
             io_ret (Some (generate_lxi_destroy_link_response, awg))
           else
             io_ret None) ;;
        match dispatched with
        | None => io_ret (Break, awg)
        | Some (resp, awg) =>
          let xid := get_xid (slice_from rx_buf 0x04) in
          resp_data <~ lift (generate_resp_data xid resp false) ;;
          emit (EvSend resp_data) ;;;
          if vxi11_procedure =? DESTROY_LINK then
            io_ret (Break, awg)
          else
            io_ret (Continue, awg)
        end
    end
  else
    io_ret (Continue, awg).

(** The [while True] of [process_lxi_requests]; [recvs] lists what the
    successive calls of [connection.recv(255)] return. *)
Fixpoint lxi_loop (recvs : list bytes) (awg : Awg) : io (loop_end Awg) :=
  match recvs with
  | [] => io_ret (In_recv awg)
  | rx_buf :: recvs =>
    r <~ lxi_request rx_buf awg ;;
    match r with
    | (Break, awg) => io_ret (Left_loop awg)
    | (Continue, awg) => lxi_loop recvs awg
    end
  end.

Definition process_lxi_requests (recvs : list bytes) (awg : Awg)
  : io (loop_end Awg) :=
  r <~ lxi_loop recvs awg ;;
  match r with
  | Left_loop awg => emit EvClose ;;; io_ret (Left_loop awg)
  | In_recv awg => io_ret (In_recv awg)
  end.

(** [main_loop]; [sessions] lists, for each accepted connection in turn,
    what its calls of [recv] return.  The result is the port cell and the
    parser state when the data runs out. *)
Fixpoint main_loop (vxi11_portrange_start vxi11_portrange_end : Z)
  (sessions : list (list bytes)) (vxi11_port : Value_I) (awg : Awg)
  : io (Value_I * Awg) :=
  match sessions with
  | [] => io_ret (vxi11_port, awg)
  | recvs :: sessions =>
    r <~ process_lxi_requests recvs awg ;;
    match r with
    | In_recv awg => io_ret (vxi11_port, awg)
    | Left_loop awg =>
      emit EvCloseListener ;;;
      let vxi11_port :=
        rotate_port vxi11_portrange_start vxi11_portrange_end vxi11_port in
      emit (EvListen (value vxi11_port)) ;;;
      main_loop vxi11_portrange_start vxi11_portrange_end sessions vxi11_port awg
    end
  end.

End AwgServer.

Arguments lxi_request {Awg} parse_scpi_command rx_buf awg.
Arguments lxi_loop {Awg} parse_scpi_command recvs awg.
Arguments process_lxi_requests {Awg} parse_scpi_command recvs awg.
Arguments main_loop {Awg} parse_scpi_command _ _ sessions vxi11_port awg.

(** ** Outcomes of one request *)

(** The possible outcomes of [lxi_request] on a buffer, by the fields of
    the buffer that decide them (a view for case analysis; that it is
    exhaustive is [lxi_request_outcome] below). *)
Inductive lxi_outcome {Awg : Type} (rx_buf : bytes) (awg : Awg)
  : io (loop_ctl * Awg) -> Prop :=
| Lxi_skipped :
    len rx_buf = 0 ->
    lxi_outcome rx_buf awg ([], Ok (Continue, awg))
| Lxi_not_vxi11 :
    len rx_buf > 0 ->
    bytes_to_uint (slice rx_buf 0x10 0x14) <> VXI11_CORE_ID ->
    lxi_outcome rx_buf awg ([], Raise ValueError)
| Lxi_unknown :
    bytes_to_uint (slice rx_buf 0x10 0x14) = VXI11_CORE_ID ->
    ~ In (bytes_to_uint (slice rx_buf 0x18 0x1c))
         [CREATE_LINK; DEVICE_WRITE; DEVICE_READ; DESTROY_LINK] ->
    lxi_outcome rx_buf awg ([], Ok (Break, awg))
| Lxi_raised (e : exn) :
    bytes_to_uint (slice rx_buf 0x10 0x14) = VXI11_CORE_ID ->
    In (bytes_to_uint (slice rx_buf 0x18 0x1c)) [CREATE_LINK; DEVICE_WRITE] ->
    lxi_outcome rx_buf awg ([], Raise e)
| Lxi_replied (mark body : bytes) (awg' : Awg) :
    bytes_to_uint (slice rx_buf 0x10 0x14) = VXI11_CORE_ID ->
    In (bytes_to_uint (slice rx_buf 0x18 0x1c))
       [CREATE_LINK; DEVICE_WRITE; DEVICE_READ] ->
    length mark = 4%nat ->
    lxi_outcome rx_buf awg
      ([EvSend (mark ++ generate_rpc_header (slice rx_buf 4 8) ++ body)],
       Ok (Continue, awg'))
| Lxi_destroyed (mark body : bytes) :
    bytes_to_uint (slice rx_buf 0x10 0x14) = VXI11_CORE_ID ->
    bytes_to_uint (slice rx_buf 0x18 0x1c) = DESTROY_LINK ->
    length mark = 4%nat ->
    lxi_outcome rx_buf awg
      ([EvSend (mark ++ generate_rpc_header (slice rx_buf 4 8) ++ body)],
       Ok (Break, awg)).

(** Number of listener teardowns in a trace of [main_loop]. *)
Fixpoint teardowns (t : list event) : nat :=
  match t with
  | [] => O
  | EvCloseListener :: t => S (teardowns t)
  | _ :: t => teardowns t
  end.

(** [prefix] is an initial segment of [s]: [s.startswith(prefix)]. *)
Fixpoint startswith (s prefix : bytes) : bool :=
  match prefix, s with
  | [], _ => true
  | p :: prefix, c :: s => Byte.eqb p c && startswith s prefix
  | _ :: _, [] => false
  end.

(** The reply message as the specification lays it out (section 3, "RPC
    message"), to compare with what [generate_rpc_header] builds: the
    caller's XID, then five 4-byte big-endian words, then the body. *)
Definition spec_rpc_reply (xid body : bytes) : bytes :=
  xid
  ++ [x00; x00; x00; x01]    (* message type: reply (1) *)
  ++ [x00; x00; x00; x00]    (* reply state: accepted (0) *)
  ++ [x00; x00; x00; x00]    (* verifier flavor: AUTH_NULL (0) *)
  ++ [x00; x00; x00; x00]    (* verifier length: 0 *)
  ++ [x00; x00; x00; x00]    (* accept state: success (0) *)
  ++ body.

(** ** Sample requests

    ONC-RPC calls with AUTH_NULL credentials as the oscilloscope sends
    them, used to run the handlers on concrete input. *)

Definition rpc_call (xid : bytes) (program version procedure : Z) (args : bytes)
  : bytes :=
  xid ++ be_digits 4 0 ++ be_digits 4 2
  ++ be_digits 4 program ++ be_digits 4 version ++ be_digits 4 procedure
  ++ repeat x00 16 ++ args.

Definition record_marked (record : bytes) : bytes :=
  be_digits 4 (Z.lor (len record) 0x80000000) ++ record.

Definition sample_xid : bytes := [x5e; xa1; x07; x2c].

(** PMAPPROC_GETPORT for VXI-11 Core version 1 over TCP (protocol 6). *)
Definition sample_getport : bytes :=
  rpc_call sample_xid 100000 2 3
    (be_digits 4 395183 ++ be_digits 4 1 ++ be_digits 4 6 ++ be_digits 4 0).

(** PMAPPROC_GETPORT for another program (NFS, 100003). *)
Definition sample_getport_nfs : bytes :=
  rpc_call sample_xid 100000 2 3
    (be_digits 4 100003 ++ be_digits 4 3 ++ be_digits 4 6 ++ be_digits 4 0).

(** PMAPPROC_NULL, the usual probe of an RPC service. *)
Definition sample_pmap_null : bytes := rpc_call sample_xid 100000 2 0 [].

Definition sample_create_link : bytes :=
  record_marked
    (rpc_call sample_xid 395183 1 10
       (be_digits 4 0 ++ be_digits 4 0 ++ be_digits 4 0
        ++ be_digits 4 5 ++ list_byte_of_string "inst0" ++ [x00; x00; x00])).

Definition sample_command : bytes := list_byte_of_string "C1:BSWV FRQ,1000".

Definition sample_device_write : bytes :=
  record_marked
    (rpc_call sample_xid 395183 1 11
       (be_digits 4 0 ++ be_digits 4 2000 ++ be_digits 4 0 ++ be_digits 4 8
        ++ be_digits 4 (len sample_command) ++ sample_command)).

Definition sample_device_read : bytes :=
  record_marked
    (rpc_call sample_xid 395183 1 12
       (be_digits 4 0 ++ be_digits 4 1024 ++ be_digits 4 2000
        ++ be_digits 4 0 ++ be_digits 4 0 ++ be_digits 4 0)).

Definition sample_destroy_link : bytes :=
  record_marked (rpc_call sample_xid 395183 1 23 (be_digits 4 0)).

(** A call to another program (the port mapper's own, 100000) arriving on
    the VXI-11 port. *)
Definition sample_foreign_call : bytes :=
  record_marked (rpc_call sample_xid 100000 2 0 []).

(** VXI-11 [device_abort] (procedure 1), which the server does not know. *)
Definition sample_unknown_procedure : bytes :=
  record_marked (rpc_call sample_xid 395183 1 1 (be_digits 4 0)).

(** A stand-in for the command parser that accepts every command and keeps
    the last one. *)
Definition sample_parser (cmd : option str) (awg : option str) : result (option str) :=
  Ok cmd.

(** ** Portmapper.run *)

(** The requests the port mapper answers: PMAPPROC_GETPORT asked about
    VXI-11 Core (a view of the two tests of the handlers). *)
Definition is_vxi11_getport (rx_packet : bytes) : bool :=
  (get_procedure rx_packet =? GET_PORT)
  && (get_program_id rx_packet =? VXI11_CORE_ID).

(** The loop of [run]: [requests] lists, for each pass through the loop,
    the value the shared port cell holds at that moment and the data the
    handler receives.  The end of the list is the loop waiting for the
    next request (or [exit] being set). *)
Fixpoint run (on_udp : bool) (requests : list (Value_I * bytes)) : io unit :=
  match requests with
  | [] => io_ret tt
  | (vxi11_port, rx_data) :: requests =>
    res <~ (if on_udp
            then process_rpcbind_request_udp vxi11_port rx_data
            else process_rpcbind_request_tcp vxi11_port rx_data) ;;
    (* if res != OK: print("Incompatible RPCBIND request.") *)
    run on_udp requests
  end.

(** The ports [main_loop] opened a listener on, in order. *)
Fixpoint listened (t : list event) : list Z :=
  match t with
  | [] => []
  | EvListen port :: t => port :: listened t
  | _ :: t => listened t
  end.

(** ** AwgFactory (awg_factory.py) *)

(** A Python [dict] with [str] keys, as the list of its items in
    insertion order: assigning to a key that is present replaces its
    value in place, assigning to a new key appends the item. *)
Fixpoint dict_setitem {V} (d : list (string * V)) (k : string) (v : V)
  : list (string * V) :=
  match d with
  | [] => [(k, v)]
  | (k', v') :: d' =>
    if String.eqb k' k then (k', v) :: d' else (k', v') :: dict_setitem d' k v
  end.

(** [d[k]]: raises [KeyError] when the key is missing. *)
Fixpoint dict_getitem {V} (d : list (string * V)) (k : string) : result V :=
  match d with
  | [] => Raise KeyError
  | (k', v') :: d' => if String.eqb k' k then Ok v' else dict_getitem d' k
  end.

Section AwgFactory.

(** The driver classes the factory holds. *)
Variable AwgClass : Type.

(** An [AwgFactory] object is its attribute [awgs]. *)
Definition AwgFactory : Type := list (string * AwgClass).

(** [AwgFactory.__init__] *)
Definition AwgFactory_init : AwgFactory := [].

Definition add_awg (self : AwgFactory) (short_name : string) (awg_class : AwgClass)
  : AwgFactory :=
  dict_setitem self short_name awg_class.

Definition get_class_by_name (self : AwgFactory) (short_name : string)
  : result AwgClass :=
  dict_getitem self short_name.

Definition get_names (self : AwgFactory) : list string :=
  let out := [] in
  fold_left (fun out a => out ++ [a]) (map fst self) out.

End AwgFactory.

Arguments AwgFactory_init {AwgClass}.
Arguments add_awg {AwgClass} self short_name awg_class.
Arguments get_class_by_name {AwgClass} self short_name.
Arguments get_names {AwgClass} self.

(** ** The accepted connection after the handler *)



(** ** Sub-sequences *)

(** [subseq s l]: [s] is [l] with some elements left out, the order
    kept. *)
Inductive subseq {A : Type} : list A -> list A -> Prop :=
| subseq_nil (l : list A) : subseq [] l
| subseq_skip (x : A) (s l : list A) : subseq s l -> subseq s (x :: l)
| subseq_take (x : A) (s l : list A) : subseq s l -> subseq (x :: s) (x :: l).

(** ** Sample requests with text that is not UTF-8 *)

(** DEVICE_WRITE of the two bytes C3 28 (a lead byte followed by a byte
    that cannot continue it). *)
Definition sample_undecodable_write : bytes :=
  record_marked
    (rpc_call sample_xid 395183 1 11
       (be_digits 4 0 ++ be_digits 4 2000 ++ be_digits 4 0 ++ be_digits 4 8
        ++ be_digits 4 2 ++ [xc3; x28; x00; x00])).

(** CREATE_LINK with the one-byte device name FF. *)
Definition sample_undecodable_link : bytes :=
  record_marked
    (rpc_call sample_xid 395183 1 10
       (be_digits 4 0 ++ be_digits 4 0 ++ be_digits 4 0
        ++ be_digits 4 1 ++ [xff; x00; x00; x00])).

(** * Properties *)

(** ** Bytes and integers *)

Lemma byte_val_range (b : byte) : 0 <= byte_val b < 256.
Proof.
  unfold byte_val. pose proof (Byte.to_N_bounded b). lia.
Qed.

Lemma byte_val_of_Z (z : Z) : byte_val (byte_of_Z z) = z mod 256.
Proof.
  unfold byte_val, byte_of_Z.
  pose proof (Z.mod_pos_bound z 256 ltac:(lia)) as Hm.
  destruct (Byte.of_N (Z.to_N (z mod 256))) as [b|] eqn:E.
  - apply Byte.to_of_N in E. rewrite E. lia.
  - apply Byte.of_N_None_iff in E. lia.
Qed.

Lemma int_from_bytes_snoc (bs : bytes) (b : byte) :
  int_from_bytes (bs ++ [b]) = int_from_bytes bs * 256 + byte_val b.
Proof.
  unfold int_from_bytes. rewrite fold_left_app. reflexivity.
Qed.

Lemma int_from_bytes_range (bs : bytes) :
  0 <= int_from_bytes bs < 256 ^ len bs.
Proof.
  induction bs as [|b bs IH] using rev_ind.
  - cbn. lia.
  - rewrite int_from_bytes_snoc. unfold len in *.
    rewrite length_app, Nat2Z.inj_add, Z.pow_add_r by lia.
    change (256 ^ Z.of_nat (length [b])) with 256.
    pose proof (byte_val_range b). nia.
Qed.

Lemma length_be_digits (n : nat) (z : Z) : length (be_digits n z) = n.
Proof.
  revert z. induction n as [|n IH]; intros z; cbn [be_digits].
  - reflexivity.
  - rewrite length_app, IH. cbn. lia.
Qed.

Lemma int_from_be_digits (n : nat) (z : Z) :
  int_from_bytes (be_digits n z) = z mod 256 ^ Z.of_nat n.
Proof.
  revert z. induction n as [|n IH]; intros z.
  - cbn. now rewrite Z.mod_1_r.
  - cbn [be_digits]. rewrite int_from_bytes_snoc, IH, byte_val_of_Z.
    rewrite Nat2Z.inj_succ, Z.pow_succ_r by lia.
    rewrite (Z.rem_mul_r z 256 (256 ^ Z.of_nat n)) by lia. lia.
Qed.

Lemma uint_to_bytes_ok (num : Z) :
  0 <= num < 2 ^ 32 -> uint_to_bytes num = Ok (be_digits 4 num).
Proof.
  intros H. unfold uint_to_bytes, int_to_bytes.
  change (256 ^ Z.of_nat 4) with (2 ^ 32).
  destruct (Z.leb_spec 0 num); [|lia].
  destruct (Z.ltb_spec num (2 ^ 32)); [|lia].
  reflexivity.
Qed.

Lemma uint_to_bytes_overflow (num : Z) :
  ~ 0 <= num < 2 ^ 32 -> uint_to_bytes num = Raise OverflowError.
Proof.
  intros H. unfold uint_to_bytes, int_to_bytes.
  change (256 ^ Z.of_nat 4) with (2 ^ 32).
  destruct (Z.leb_spec 0 num); destruct (Z.ltb_spec num (2 ^ 32));
    cbn; try reflexivity; lia.
Qed.

Lemma bytes_to_uint_be_digits (num : Z) :
  0 <= num < 2 ^ 32 -> bytes_to_uint (be_digits 4 num) = num.
Proof.
  intros H. unfold bytes_to_uint. rewrite int_from_be_digits.
  change (256 ^ Z.of_nat 4) with (2 ^ 32). now apply Z.mod_small.
Qed.

(** ** Slices *)

Lemma slice_spec {A} (l : list A) (start stop : Z) :
  0 <= start <= stop ->
  slice l start stop = firstn (Z.to_nat (stop - start)) (skipn (Z.to_nat start) l).
Proof.
  intros H. unfold slice, len.
  destruct (Z.le_gt_cases stop (Z.of_nat (length l))) as [Hs|Hs].
  - rewrite !Z.min_l by lia. reflexivity.
  - rewrite (Z.min_r stop) by lia.
    destruct (Z.le_gt_cases start (Z.of_nat (length l))) as [Ha|Ha].
    + rewrite Z.min_l by lia.
      rewrite !firstn_all2; try reflexivity; rewrite length_skipn; lia.
    + rewrite Z.min_r by lia.
      rewrite !skipn_all2 by lia. now rewrite !firstn_nil.
Qed.

Lemma slice_length {A} (l : list A) (start stop : Z) :
  0 <= start <= stop -> stop <= len l ->
  length (slice l start stop) = Z.to_nat (stop - start).
Proof.
  intros H Hl. rewrite slice_spec by assumption. unfold len in Hl.
  rewrite length_firstn, length_skipn. lia.
Qed.

Lemma slice_length_le {A} (l : list A) (start stop : Z) :
  len (slice l start stop) <= Z.max 0 (stop - start).
Proof.
  unfold slice, len. rewrite length_firstn. lia.
Qed.

Lemma slice_beyond {A} (l : list A) (start stop : Z) :
  len l <= start -> slice l start stop = [].
Proof.
  intros H. unfold slice, len in *. rewrite (Z.min_r start) by lia.
  rewrite skipn_all2 by lia. apply firstn_nil.
Qed.

Lemma slice_from_app {A} (p l : list A) :
  slice_from (p ++ l) (len p) = l.
Proof.
  unfold slice_from, len. rewrite length_app, Z.min_l by lia.
  rewrite Nat2Z.id, skipn_app, skipn_all, Nat.sub_diag. reflexivity.
Qed.

Lemma slice_slice_from {A} (l : list A) (k start stop : Z) :
  0 <= k -> 0 <= start <= stop ->
  slice (slice_from l k) start stop = slice l (k + start) (k + stop).
Proof.
  intros Hk H. rewrite !slice_spec by lia. unfold slice_from, len.
  destruct (Z.le_gt_cases k (Z.of_nat (length l))) as [Hl|Hl].
  - rewrite Z.min_l by lia. rewrite skipn_skipn.
    f_equal; [f_equal; lia | f_equal; lia].
  - rewrite Z.min_r by lia. rewrite Nat2Z.id, skipn_all.
    rewrite skipn_nil, firstn_nil, skipn_all2 by lia. now rewrite firstn_nil.
Qed.

(** A field that reads as a non-zero number lies inside the buffer. *)
Lemma field_inside (l : bytes) (start stop : Z) :
  bytes_to_uint (slice l start stop) <> 0 -> start < len l.
Proof.
  intros H. destruct (Z.lt_ge_cases start (len l)) as [|Hge]; [assumption|].
  rewrite slice_beyond in H by lia. now contradiction H.
Qed.

Lemma field_range (l : bytes) (start : Z) :
  0 <= bytes_to_uint (slice l start (start + 4)) < 2 ^ 32.
Proof.
  unfold bytes_to_uint.
  pose proof (int_from_bytes_range (slice l start (start + 4))) as Hr.
  pose proof (slice_length_le l start (start + 4)) as Hl.
  replace (start + 4 - start) with 4 in Hl by lia.
  assert (0 <= len (slice l start (start + 4))) by (unfold len; lia).
  assert (256 ^ len (slice l start (start + 4)) <= 256 ^ 4)
    by (apply Z.pow_le_mono_r; lia).
  change (256 ^ 4) with (2 ^ 32) in *. lia.
Qed.

(** ** Record marking and the reply header *)

Lemma last_fragment_word (size : Z) :
  0 <= size < 2 ^ 31 ->
  0 <= Z.lor size 0x80000000 < 2 ^ 32
  /\ Z.testbit (Z.lor size 0x80000000) 31 = true
  /\ Z.land (Z.lor size 0x80000000) 0x7FFFFFFF = size.
Proof.
  intros H. change 0x80000000 with (2 ^ 31).
  change 0x7FFFFFFF with (Z.ones 31).
  split; [|split].
  - pose proof (Z.add_lor_land size (2 ^ 31)) as Hadd.
    assert (0 <= Z.land size (2 ^ 31)) by (apply Z.land_nonneg; lia).
    assert (0 <= Z.lor size (2 ^ 31)) by (apply Z.lor_nonneg; lia).
    lia.
  - rewrite Z.lor_spec, Z.pow2_bits_true by lia. apply orb_true_r.
  - rewrite Z.land_lor_distr_l, !Z.land_ones by lia.
    rewrite Z.mod_small by lia.
    change (2 ^ 31 mod 2 ^ 31) with 0. apply Z.lor_0_r.
Qed.

Lemma generate_packet_size_header_ok (size : Z) :
  0 <= size < 2 ^ 31 ->
  generate_packet_size_header size = Ok (be_digits 4 (Z.lor size 0x80000000)).
Proof.
  intros H. unfold generate_packet_size_header.
  apply uint_to_bytes_ok. now apply last_fragment_word.
Qed.

Lemma size_header_fields (size : Z) :
  0 <= size < 2 ^ 31 ->
  let hdr := be_digits 4 (Z.lor size 0x80000000) in
  length hdr = 4%nat
  /\ Z.testbit (bytes_to_uint hdr) 31 = true
  /\ Z.land (bytes_to_uint hdr) 0x7FFFFFFF = size.
Proof.
  intros H hdr. subst hdr.
  destruct (last_fragment_word size H) as (Hr & Hb & Hl).
  rewrite bytes_to_uint_be_digits by assumption.
  split; [apply length_be_digits | now split].
Qed.

Lemma generate_rpc_header_eq (xid : bytes) :
  generate_rpc_header xid =
  xid ++ [x00; x00; x00; x01; x00; x00; x00; x00; x00; x00; x00; x00;
          x00; x00; x00; x00; x00; x00; x00; x00].
Proof.
  unfold generate_rpc_header. cbn [app]. now rewrite <- !app_assoc.
Qed.

Lemma len_app {A} (l1 l2 : list A) : len (l1 ++ l2) = len l1 + len l2.
Proof. unfold len. rewrite length_app. lia. Qed.

Lemma len_nonneg {A} (l : list A) : 0 <= len l.
Proof. unfold len. lia. Qed.

Lemma len_generate_rpc_header (xid : bytes) :
  len (generate_rpc_header xid) = len xid + 20.
Proof. rewrite generate_rpc_header_eq, len_app. reflexivity. Qed.

Lemma generate_resp_data_tcp (xid resp : bytes) :
  len (generate_rpc_header xid ++ resp) < 2 ^ 31 ->
  generate_resp_data xid resp false =
  Ok (be_digits 4 (Z.lor (len (generate_rpc_header xid ++ resp)) 0x80000000)
      ++ generate_rpc_header xid ++ resp).
Proof.
  intros H. unfold generate_resp_data. rewrite <- len_app.
  rewrite generate_packet_size_header_ok; [reflexivity|].
  split; [apply len_nonneg | assumption].
Qed.

Lemma len_get_xid (rx_packet : bytes) : len (get_xid rx_packet) <= 4.
Proof.
  unfold get_xid. pose proof (slice_length_le rx_packet 0 4). lia.
Qed.

(** Framing never overflows on the replies the server builds: a reply of
    at most [2^30] bytes behind a header of at most 24. *)
Lemma generate_resp_data_reply (rx_packet resp : bytes) :
  len resp < 2 ^ 30 ->
  let payload := generate_rpc_header (get_xid rx_packet) ++ resp in
  generate_resp_data (get_xid rx_packet) resp false =
  Ok (be_digits 4 (Z.lor (len payload) 0x80000000) ++ payload).
Proof.
  intros H payload. apply generate_resp_data_tcp.
  rewrite len_app, len_generate_rpc_header.
  pose proof (len_get_xid rx_packet). lia.
Qed.

(** ** C8: record marking of replies on TCP *)

(** C8. For every payload of 0 to 8192 bytes the size header made for it
    is a 4-byte big-endian word with bit 31 set and the payload length in
    its low 31 bits, and the framed reply [generate_resp_data] returns on
    TCP for a payload (RPC header then body) is that header followed by
    the payload as it is. *)
Theorem C8_tcp_framing :
  forall payload : bytes,
    0 <= len payload <= 8192 ->
    exists size_hdr : bytes,
      generate_packet_size_header (len payload) = Ok size_hdr
      /\ length size_hdr = 4%nat
      /\ Z.testbit (bytes_to_uint size_hdr) 31 = true
      /\ Z.land (bytes_to_uint size_hdr) 0x7FFFFFFF = len payload
      /\ forall xid resp : bytes,
           generate_rpc_header xid ++ resp = payload ->
           generate_resp_data xid resp false = Ok (size_hdr ++ payload)
           /\ slice_from (size_hdr ++ payload) 4 = payload.
Proof.
  intros payload H.
  assert (Hs : 0 <= len payload < 2 ^ 31) by lia.
  exists (be_digits 4 (Z.lor (len payload) 0x80000000)).
  destruct (size_header_fields _ Hs) as (Hlen & Hbit & Hlow).
  split; [now apply generate_packet_size_header_ok|].
  repeat split; try assumption.
  - subst payload. apply generate_resp_data_tcp. lia.
  - change 4 with (Z.of_nat 4). rewrite <- Hlen. apply slice_from_app.
Qed.

Lemma C8_tcp_framing_witness :
  let payload := generate_rpc_header [x12; x34; x56; x78] ++ [x00; x00; x23; x32] in
  0 <= len payload <= 8192
  /\ exists size_hdr : bytes,
       generate_packet_size_header (len payload) = Ok size_hdr
       /\ length size_hdr = 4%nat
       /\ Z.testbit (bytes_to_uint size_hdr) 31 = true
       /\ Z.land (bytes_to_uint size_hdr) 0x7FFFFFFF = len payload
       /\ forall xid resp : bytes,
            generate_rpc_header xid ++ resp = payload ->
            generate_resp_data xid resp false = Ok (size_hdr ++ payload)
            /\ slice_from (size_hdr ++ payload) 4 = payload.
Proof.
  intros payload.
  assert (H : 0 <= len payload <= 8192) by (vm_compute; split; discriminate).
  split; [exact H | exact (C8_tcp_framing payload H)].
Defined.

(** ** The port mapper on an accepted and on a refused request *)

(** Every store into the cell leaves it as a fresh cell of the stored
    value would be, so the cells of the program are the [new_Value_I v]. *)
Lemma set_value_new (vxi11_port : Value_I) (v : Z) :
  set_value vxi11_port v = new_Value_I v.
Proof. reflexivity. Qed.

Lemma value_new_Value_I_range (v : Z) : 0 <= value (new_Value_I v) < 2 ^ 32.
Proof. cbn. apply Z.mod_pos_bound. lia. Qed.

Lemma process_rpcbind_request_udp_getport (vxi11_port : Value_I) (rx_data : bytes) :
  0 <= value vxi11_port < 2 ^ 32 ->
  get_procedure rx_data = GET_PORT ->
  get_program_id rx_data = VXI11_CORE_ID ->
  process_rpcbind_request_udp vxi11_port rx_data =
  ([EvSendTo (generate_rpc_header (get_xid rx_data)
              ++ be_digits 4 (value vxi11_port))], Ok OK).
Proof.
  intros Hv Hproc Hprog.
  assert (Hlen : 0x28 < len rx_data).
  { apply (field_inside rx_data 0x28 0x2C). fold (get_program_id rx_data).
    rewrite Hprog. discriminate. }
  unfold process_rpcbind_request_udp.
  destruct (Z.gtb_spec (len rx_data) 0) as [_|]; [|lia].
  rewrite Hproc, Hprog. cbn [Z.eqb negb Pos.eqb GET_PORT VXI11_CORE_ID].
  unfold generate_rpcbind_response. rewrite uint_to_bytes_ok by assumption.
  reflexivity.
Qed.

Lemma process_rpcbind_request_tcp_getport (vxi11_port : Value_I) (rx_data : bytes) :
  0 <= value vxi11_port < 2 ^ 32 ->
  get_procedure (slice_from rx_data 0x04) = GET_PORT ->
  get_program_id (slice_from rx_data 0x04) = VXI11_CORE_ID ->
  let payload := generate_rpc_header (get_xid (slice_from rx_data 0x04))
                 ++ be_digits 4 (value vxi11_port) in
  process_rpcbind_request_tcp vxi11_port rx_data =
  ([EvSend (be_digits 4 (Z.lor (len payload) 0x80000000) ++ payload); EvClose],
   Ok OK).
Proof.
  intros Hv Hproc Hprog payload.
  assert (Hlen : 0x28 < len (slice_from rx_data 0x04)).
  { apply (field_inside _ 0x28 0x2C). fold (get_program_id (slice_from rx_data 4)).
    rewrite Hprog. discriminate. }
  assert (Hrx : 4 < len rx_data).
  { unfold slice_from, len in Hlen. rewrite length_skipn in Hlen.
    unfold len. lia. }
  unfold process_rpcbind_request_tcp.
  destruct (Z.gtb_spec (len rx_data) 4) as [_|]; [|lia].
  rewrite Hproc, Hprog. cbn [Z.eqb negb Pos.eqb GET_PORT VXI11_CORE_ID].
  unfold generate_rpcbind_response. rewrite uint_to_bytes_ok by assumption.
  cbn [lift io_bind app].
  rewrite generate_resp_data_reply.
  - reflexivity.
  - unfold len. rewrite length_be_digits. cbn. lia.
Qed.




(** ** The VXI-11 request loop, one request at a time *)

Section LxiRequest.

Variable Awg : Type.
Variable parse_scpi_command : option str -> Awg -> result Awg.

Abbreviation program_of rx := (bytes_to_uint (slice rx 0x10 0x14)).
Abbreviation procedure_of rx := (bytes_to_uint (slice rx 0x18 0x1c)).

Lemma vxi11_record_nonempty (rx_buf : bytes) :
  program_of rx_buf = VXI11_CORE_ID -> 0x10 < len rx_buf.
Proof.
  intros H. apply (field_inside rx_buf 0x10 0x14). rewrite H. discriminate.
Qed.

Lemma vxi11_record_xid (rx_buf : bytes) :
  program_of rx_buf = VXI11_CORE_ID ->
  get_xid (slice_from rx_buf 0x04) = slice rx_buf 4 8
  /\ length (slice rx_buf 4 8) = 4%nat.
Proof.
  intros H. apply vxi11_record_nonempty in H. unfold get_xid.
  rewrite slice_slice_from by lia. split; [reflexivity|].
  rewrite slice_length by lia. reflexivity.
Qed.

Lemma lxi_request_empty (rx_buf : bytes) (awg : Awg) :
  len rx_buf = 0 ->
  lxi_request parse_scpi_command rx_buf awg = ([], Ok (Continue, awg)).
Proof.
  intros H. unfold lxi_request. rewrite H. reflexivity.
Qed.

Lemma lxi_request_not_vxi11 (rx_buf : bytes) (awg : Awg) :
  len rx_buf > 0 ->
  program_of rx_buf <> VXI11_CORE_ID ->
  lxi_request parse_scpi_command rx_buf awg = ([], Raise ValueError).
Proof.
  intros Hlen Hprog. unfold lxi_request, parse_lxi_request.
  destruct (Z.gtb_spec (len rx_buf) 0) as [_|]; [|lia].
  destruct (Z.eqb_spec (program_of rx_buf) VXI11_CORE_ID); [contradiction|].
  reflexivity.
Qed.

Lemma lxi_request_device_read (rx_buf : bytes) (awg : Awg) :
  program_of rx_buf = VXI11_CORE_ID ->
  procedure_of rx_buf = DEVICE_READ ->
  let payload :=
    generate_rpc_header (slice rx_buf 4 8)
    ++ [x00; x00; x00; x00] ++ [x00; x00; x00; x04]
    ++ be_digits 4 (len AWG_ID_STRING + 1) ++ AWG_ID_STRING ++ [x0a; x00; x00] in
  lxi_request parse_scpi_command rx_buf awg =
  ([EvSend (be_digits 4 (Z.lor (len payload) 0x80000000) ++ payload)],
   Ok (Continue, awg)).
Proof.
  intros Hprog Hproc payload.
  pose proof (vxi11_record_nonempty _ Hprog) as Hlen.
  destruct (vxi11_record_xid _ Hprog) as [Hxid _].
  unfold lxi_request, parse_lxi_request.
  destruct (Z.gtb_spec (len rx_buf) 0) as [_|]; [|lia].
  rewrite Hprog, Hproc. cbn -[generate_resp_data get_xid slice_from be_digits].
  rewrite generate_resp_data_reply, Hxid.
  - reflexivity.
  - vm_compute. reflexivity.
Qed.

Lemma lxi_request_destroy_link (rx_buf : bytes) (awg : Awg) :
  program_of rx_buf = VXI11_CORE_ID ->
  procedure_of rx_buf = DESTROY_LINK ->
  let payload := generate_rpc_header (slice rx_buf 4 8) ++ [x00; x00; x00; x00] in
  lxi_request parse_scpi_command rx_buf awg =
  ([EvSend (be_digits 4 (Z.lor (len payload) 0x80000000) ++ payload)],
   Ok (Break, awg)).
Proof.
  intros Hprog Hproc payload.
  pose proof (vxi11_record_nonempty _ Hprog) as Hlen.
  destruct (vxi11_record_xid _ Hprog) as [Hxid _].
  unfold lxi_request, parse_lxi_request.
  destruct (Z.gtb_spec (len rx_buf) 0) as [_|]; [|lia].
  rewrite Hprog, Hproc. cbn -[generate_resp_data get_xid slice_from be_digits].
  rewrite generate_resp_data_reply, Hxid.
  - reflexivity.
  - vm_compute. reflexivity.
Qed.

Lemma lxi_request_unknown (rx_buf : bytes) (awg : Awg) :
  program_of rx_buf = VXI11_CORE_ID ->
  procedure_of rx_buf <> CREATE_LINK ->
  procedure_of rx_buf <> DEVICE_WRITE ->
  procedure_of rx_buf <> DEVICE_READ ->
  procedure_of rx_buf <> DESTROY_LINK ->
  lxi_request parse_scpi_command rx_buf awg = ([], Ok (Break, awg)).
Proof.
  intros Hprog H10 H11 H12 H23.
  pose proof (vxi11_record_nonempty _ Hprog) as Hlen.
  unfold lxi_request, parse_lxi_request.
  destruct (Z.gtb_spec (len rx_buf) 0) as [_|]; [|lia].
  rewrite Hprog. cbn [Z.eqb Pos.eqb negb VXI11_CORE_ID].
  destruct (Z.eqb_spec (procedure_of rx_buf) CREATE_LINK); [contradiction|].
  destruct (Z.eqb_spec (procedure_of rx_buf) DEVICE_WRITE); [contradiction|].
  destruct (Z.eqb_spec (procedure_of rx_buf) DEVICE_READ); [contradiction|].
  destruct (Z.eqb_spec (procedure_of rx_buf) DESTROY_LINK); [contradiction|].
  reflexivity.
Qed.

Lemma lxi_request_create_link (rx_buf : bytes) (awg : Awg) :
  program_of rx_buf = VXI11_CORE_ID ->
  procedure_of rx_buf = CREATE_LINK ->
  let cmd_length := bytes_to_uint (slice rx_buf 0x38 0x3C) in
  let payload :=
    generate_rpc_header (slice rx_buf 4 8) ++ generate_lxi_create_link_response in
  lxi_request parse_scpi_command rx_buf awg =
  match utf8_decode (slice rx_buf 0x3C (0x3C + cmd_length)) with
  | Some _ =>
    ([EvSend (be_digits 4 (Z.lor (len payload) 0x80000000) ++ payload)],
     Ok (Continue, awg))
  | None => ([], Raise UnicodeDecodeError)
  end.
Proof.
  intros Hprog Hproc cmd_length payload.
  pose proof (vxi11_record_nonempty _ Hprog) as Hlen.
  destruct (vxi11_record_xid _ Hprog) as [Hxid _].
  unfold lxi_request, parse_lxi_request.
  destruct (Z.gtb_spec (len rx_buf) 0) as [_|]; [|lia].
  rewrite Hprog, Hproc.
  cbn -[generate_resp_data get_xid slice_from be_digits utf8_decode strip
        generate_lxi_create_link_response Z.add].
  fold cmd_length. unfold decode_utf8.
  destruct (utf8_decode (slice rx_buf 60 (60 + cmd_length))) as [s|].
  - cbn -[generate_resp_data get_xid slice_from be_digits strip
          generate_lxi_create_link_response].
    rewrite generate_resp_data_reply, Hxid.
    + reflexivity.
    + vm_compute. reflexivity.
  - reflexivity.
Qed.

Lemma lxi_request_device_write (rx_buf : bytes) (awg : Awg) :
  program_of rx_buf = VXI11_CORE_ID ->
  procedure_of rx_buf = DEVICE_WRITE ->
  let cmd_length := bytes_to_uint (slice rx_buf 0x3C 0x40) in
  let payload :=
    generate_rpc_header (slice rx_buf 4 8)
    ++ [x00; x00; x00; x00] ++ be_digits 4 cmd_length in
  lxi_request parse_scpi_command rx_buf awg =
  match utf8_decode (slice rx_buf 0x40 (0x40 + cmd_length)) with
  | Some cmd =>
    match parse_scpi_command (Some (strip cmd)) awg with
    | Ok awg' =>
      ([EvSend (be_digits 4 (Z.lor (len payload) 0x80000000) ++ payload)],
       Ok (Continue, awg'))
    | Raise e => ([], Raise e)
    end
  | None => ([], Raise UnicodeDecodeError)
  end.
Proof.
  intros Hprog Hproc cmd_length payload.
  pose proof (vxi11_record_nonempty _ Hprog) as Hlen.
  destruct (vxi11_record_xid _ Hprog) as [Hxid _].
  pose proof (field_range rx_buf 0x3C) as Hrange.
  change (0x3C + 4) with 0x40 in Hrange. fold cmd_length in Hrange.
  unfold lxi_request, parse_lxi_request.
  destruct (Z.gtb_spec (len rx_buf) 0) as [_|]; [|lia].
  rewrite Hprog, Hproc.
  cbn -[generate_resp_data get_xid slice_from be_digits utf8_decode strip
        generate_lxi_device_write_response Z.add].
  fold cmd_length. unfold decode_utf8.
  destruct (utf8_decode (slice rx_buf 64 (64 + cmd_length))) as [cmd|];
    [|reflexivity].
  cbn -[generate_resp_data get_xid slice_from be_digits strip
        generate_lxi_device_write_response].
  destruct (parse_scpi_command (Some (strip cmd)) awg) as [awg'|e];
    [|reflexivity].
  unfold generate_lxi_device_write_response.
  rewrite uint_to_bytes_ok by assumption.
  cbn -[generate_resp_data get_xid slice_from be_digits].
  rewrite generate_resp_data_reply, Hxid.
  - reflexivity.
  - unfold len. cbn [app length]. rewrite length_be_digits. cbn. lia.
Qed.

Lemma lxi_request_outcome (rx_buf : bytes) (awg : Awg) :
  lxi_outcome rx_buf awg (lxi_request parse_scpi_command rx_buf awg).
Proof.
  destruct (Z.eq_dec (len rx_buf) 0) as [Hz|Hz].
  { rewrite lxi_request_empty by assumption. now constructor. }
  assert (Hpos : len rx_buf > 0) by (pose proof (len_nonneg rx_buf); lia).
  destruct (Z.eq_dec (program_of rx_buf) VXI11_CORE_ID) as [Hprog|Hprog].
  2: { rewrite lxi_request_not_vxi11 by assumption. now constructor. }
  destruct (Z.eq_dec (procedure_of rx_buf) CREATE_LINK) as [H10|H10].
  { rewrite lxi_request_create_link by assumption. cbv zeta.
    destruct (utf8_decode _).
    - apply Lxi_replied; [assumption | rewrite H10; now left
                         | apply length_be_digits].
    - apply Lxi_raised; [assumption | rewrite H10; now left]. }
  destruct (Z.eq_dec (procedure_of rx_buf) DEVICE_WRITE) as [H11|H11].
  { rewrite lxi_request_device_write by assumption. cbv zeta.
    destruct (utf8_decode _) as [cmd|].
    - destruct (parse_scpi_command _ awg).
      + apply Lxi_replied; [assumption | rewrite H11; right; now left
                           | apply length_be_digits].
      + apply Lxi_raised; [assumption | rewrite H11; right; now left].
    - apply Lxi_raised; [assumption | rewrite H11; right; now left]. }
  destruct (Z.eq_dec (procedure_of rx_buf) DEVICE_READ) as [H12|H12].
  { rewrite lxi_request_device_read by assumption. cbv zeta.
    apply Lxi_replied; [assumption | rewrite H12; right; right; now left
                       | apply length_be_digits]. }
  destruct (Z.eq_dec (procedure_of rx_buf) DESTROY_LINK) as [H23|H23].
  { rewrite lxi_request_destroy_link by assumption. cbv zeta.
    apply Lxi_destroyed; [assumption | assumption | apply length_be_digits]. }
  rewrite lxi_request_unknown by assumption.
  apply Lxi_unknown; [assumption|].
  intros [H|[H|[H|[H|[]]]]]; congruence.
Qed.

(** *** The loop *)

Lemma sent_app (t1 t2 : list event) : sent (t1 ++ t2) = sent t1 ++ sent t2.
Proof. unfold sent. apply flat_map_app. Qed.

Lemma lxi_loop_cons (rx_buf : bytes) (recvs : list bytes) (awg : Awg) :
  lxi_loop parse_scpi_command (rx_buf :: recvs) awg =
  r <~ lxi_request parse_scpi_command rx_buf awg ;;
  match r with
  | (Break, awg) => io_ret (Left_loop awg)
  | (Continue, awg) => lxi_loop parse_scpi_command recvs awg
  end.
Proof. reflexivity. Qed.

(** A receive of zero bytes leaves the loop where it was. *)
Lemma lxi_loop_skip (recvs : list bytes) (awg : Awg) :
  lxi_loop parse_scpi_command ([] :: recvs) awg =
  lxi_loop parse_scpi_command recvs awg.
Proof.
  rewrite lxi_loop_cons, lxi_request_empty by reflexivity.
  cbn [io_bind app]. now destruct (lxi_loop parse_scpi_command recvs awg).
Qed.

Lemma lxi_loop_all_empty (n : nat) (awg : Awg) :
  lxi_loop parse_scpi_command (repeat [] n) awg = ([], Ok (In_recv awg)).
Proof.
  induction n as [|n IH]; [reflexivity|].
  cbn [repeat]. now rewrite lxi_loop_skip.
Qed.

(** Every reply of a session answers one of the received records, under
    its transaction id. *)
Lemma lxi_loop_sent (recvs : list bytes) (awg : Awg) (d : bytes) :
  In d (sent (fst (lxi_loop parse_scpi_command recvs awg))) ->
  exists rx_buf mark body,
    In rx_buf recvs
    /\ program_of rx_buf = VXI11_CORE_ID
    /\ length mark = 4%nat
    /\ d = mark ++ generate_rpc_header (slice rx_buf 4 8) ++ body.
Proof.
  revert awg. induction recvs as [|rx_buf recvs IH]; intros awg Hin.
  - contradiction.
  - rewrite lxi_loop_cons in Hin.
    destruct (lxi_request_outcome rx_buf awg) as
      [Hz | Hpos Hprog | Hprog Hproc | e Hprog Hproc
       | mark body awg' Hprog Hproc Hmark | mark body Hprog Hproc Hmark];
      cbn [io_bind io_ret fst app] in Hin; try contradiction.
    + destruct (lxi_loop parse_scpi_command recvs awg) as [t r] eqn:E.
      cbn [fst app] in Hin.
      destruct (IH awg) as (rx & m & b & Hrx & H); [now rewrite E|].
      exists rx, m, b. split; [now right | exact H].
    + destruct (lxi_loop parse_scpi_command recvs awg') as [t r] eqn:E.
      cbn [fst] in Hin.
      change (In d ((mark ++ generate_rpc_header (slice rx_buf 4 8) ++ body)
                    :: sent t)) in Hin.
      destruct Hin as [Hd|Hin].
      * exists rx_buf, mark, body.
        split; [now left | now repeat split].
      * destruct (IH awg') as (rx & m & b & Hrx & H); [now rewrite E|].
        exists rx, m, b. split; [now right | exact H].
    + destruct Hin as [Hd|[]]. exists rx_buf, mark, body.
      split; [now left | now repeat split].
Qed.

(** The loop is left by [break] only on a record of an unknown procedure
    or after the reply to DESTROY_LINK has been sent; up to that record
    the loop was receiving. *)
Lemma lxi_loop_left (recvs : list bytes) (awg awg' : Awg) (t : list event) :
  lxi_loop parse_scpi_command recvs awg = (t, Ok (Left_loop awg')) ->
  exists before rx_buf after tb awgb,
    recvs = before ++ rx_buf :: after
    /\ lxi_loop parse_scpi_command before awg = (tb, Ok (In_recv awgb))
    /\ len rx_buf > 0
    /\ program_of rx_buf = VXI11_CORE_ID
    /\ (~ In (procedure_of rx_buf)
            [CREATE_LINK; DEVICE_WRITE; DEVICE_READ; DESTROY_LINK]
        \/ procedure_of rx_buf = DESTROY_LINK
           /\ exists t0 d, t = t0 ++ [EvSend d]).
Proof.
  revert awg t. induction recvs as [|rx_buf recvs IH]; intros awg t Hrun.
  - discriminate.
  - rewrite lxi_loop_cons in Hrun.
    pose proof (lxi_request_outcome rx_buf awg) as Hout.
    destruct (lxi_request parse_scpi_command rx_buf awg) as [t1 r1] eqn:Ereq.
    inversion Hout as
      [Hz Et | Hpos Hprog Et | Hprog Hproc Et | e Hprog Hproc Et
       | mark body awg1 Hprog Hproc Hmark Et | mark body Hprog Hproc Hmark Et];
      subst t1 r1; cbn [io_bind io_ret app] in Hrun; try discriminate.
    + destruct (lxi_loop parse_scpi_command recvs awg) as [t1 r] eqn:E.
      injection Hrun as <- ->.
      destruct (IH _ _ E) as (b & rx & a & tb & awgb & -> & Hb & H).
      exists (rx_buf :: b), rx, a, tb, awgb.
      split; [reflexivity|]. split; [|exact H].
      rewrite lxi_loop_cons, Ereq. cbn [io_bind app]. now rewrite Hb.
    + injection Hrun as <- <-.
      exists [], rx_buf, recvs, [], awg.
      pose proof (vxi11_record_nonempty _ Hprog).
      repeat split; [lia | assumption | now left].
    + destruct (lxi_loop parse_scpi_command recvs awg1) as [t1 r] eqn:E.
      injection Hrun as <- ->.
      destruct (IH _ _ E)
        as (b & rx & a & tb & awgb & -> & Hb & Hlen & Hp & Hcase).
      exists (rx_buf :: b), rx, a,
        (EvSend (mark ++ generate_rpc_header (slice rx_buf 4 8) ++ body) :: tb),
        awgb.
      split; [reflexivity|]. split.
      { rewrite lxi_loop_cons, Ereq. cbn [io_bind app]. now rewrite Hb. }
      repeat split; try assumption.
      destruct Hcase as [Hu|[Hd (t0 & d & ->)]]; [now left|].
      right. split; [assumption|].
      exists (EvSend (mark ++ generate_rpc_header (slice rx_buf 4 8) ++ body) :: t0), d.
      reflexivity.
    + injection Hrun as <- <-.
      exists [], rx_buf, recvs, [], awg.
      pose proof (vxi11_record_nonempty _ Hprog).
      repeat split; [lia | assumption |].
      right. split; [assumption|].
      now exists [], (mark ++ generate_rpc_header (slice rx_buf 4 8) ++ body).
Qed.

(** The loop is left by an exception only at a record that is not empty:
    one of another program (the unpacking fails), or a CREATE_LINK or
    DEVICE_WRITE whose text does not decode or whose command the parser
    rejects. *)
Lemma lxi_loop_raised (recvs : list bytes) (awg : Awg) (t : list event) (e : exn) :
  lxi_loop parse_scpi_command recvs awg = (t, Raise e) ->
  exists before rx_buf after tb awgb,
    recvs = before ++ rx_buf :: after
    /\ lxi_loop parse_scpi_command before awg = (tb, Ok (In_recv awgb))
    /\ len rx_buf > 0
    /\ (program_of rx_buf <> VXI11_CORE_ID /\ e = ValueError
        \/ program_of rx_buf = VXI11_CORE_ID
           /\ In (procedure_of rx_buf) [CREATE_LINK; DEVICE_WRITE]).
Proof.
  revert awg t. induction recvs as [|rx_buf recvs IH]; intros awg t Hrun.
  - discriminate.
  - rewrite lxi_loop_cons in Hrun.
    pose proof (lxi_request_outcome rx_buf awg) as Hout.
    destruct (lxi_request parse_scpi_command rx_buf awg) as [t1 r1] eqn:Ereq.
    inversion Hout as
      [Hz Et | Hpos Hprog Et | Hprog Hproc Et | e' Hprog Hproc Et
       | mark body awg1 Hprog Hproc Hmark Et | mark body Hprog Hproc Hmark Et];
      subst t1 r1; cbn [io_bind io_ret app] in Hrun; try discriminate.
    + destruct (lxi_loop parse_scpi_command recvs awg) as [t1 r] eqn:E.
      injection Hrun as <- ->.
      destruct (IH _ _ E) as (b & rx & a & tb & awgb & -> & Hb & H).
      exists (rx_buf :: b), rx, a, tb, awgb.
      split; [reflexivity|]. split; [|exact H].
      rewrite lxi_loop_cons, Ereq. cbn [io_bind app]. now rewrite Hb.
    + injection Hrun as <- <-.
      exists [], rx_buf, recvs, [], awg.
      repeat split; [assumption | now left].
    + injection Hrun as <- <-.
      exists [], rx_buf, recvs, [], awg.
      pose proof (vxi11_record_nonempty _ Hprog).
      repeat split; [lia | now right].
    + destruct (lxi_loop parse_scpi_command recvs awg1) as [t1 r] eqn:E.
      injection Hrun as <- ->.
      destruct (IH _ _ E) as (b & rx & a & tb & awgb & -> & Hb & H).
      exists (rx_buf :: b), rx, a,
        (EvSend (mark ++ generate_rpc_header (slice rx_buf 4 8) ++ body) :: tb),
        awgb.
      split; [reflexivity|]. split; [|exact H].
      rewrite lxi_loop_cons, Ereq. cbn [io_bind app]. now rewrite Hb.
Qed.

End LxiRequest.

(** ** C1, C2: the port mapper *)

Lemma firstn_app_exact {A} (l1 l2 : list A) (n : nat) :
  length l1 = n -> firstn n (l1 ++ l2) = l1.
Proof.
  intros <-. rewrite firstn_app, Nat.sub_diag, firstn_all, firstn_O.
  apply app_nil_r.
Qed.

Lemma reply_xid (xid body : bytes) :
  length xid = 4%nat -> slice (generate_rpc_header xid ++ body) 0x00 0x04 = xid.
Proof.
  intros H. rewrite slice_spec by lia. cbn [Z.sub Z.to_nat Pos.to_nat
    Pos.iter_op Nat.add skipn Z.opp Z.add Z.pos_sub].
  rewrite generate_rpc_header_eq, <- app_assoc.
  now apply firstn_app_exact.
Qed.

(** C1. A GETPORT request (procedure 3) for program 395183 is answered, on
    UDP and on TCP, with the reply header under the request's XID (bytes
    0..4 of the RPC message) and a 4-byte big-endian body holding the
    value of the port cell; on TCP (where the request follows a 4-byte
    record mark) the reply follows a 4-byte mark with bit 31 set and the
    size of header plus body in the low 31 bits, and the connection is
    closed after the reply. *)
Theorem C1_getport_reply :
  forall (v : Z) (msg : bytes),
    get_procedure msg = GET_PORT ->
    get_program_id msg = VXI11_CORE_ID ->
    let vxi11_port := new_Value_I v in
    let xid := slice msg 0x00 0x04 in
    exists body : bytes,
      length xid = 4%nat
      /\ length body = 4%nat
      /\ bytes_to_uint body = value vxi11_port
      /\ slice (generate_rpc_header xid ++ body) 0x00 0x04 = xid
      /\ process_rpcbind_request_udp vxi11_port msg
         = ([EvSendTo (generate_rpc_header xid ++ body)], Ok OK)
      /\ forall mark : bytes,
           length mark = 4%nat ->
           exists size_hdr : bytes,
             length size_hdr = 4%nat
             /\ Z.testbit (bytes_to_uint size_hdr) 31 = true
             /\ Z.land (bytes_to_uint size_hdr) 0x7FFFFFFF
                = len (generate_rpc_header xid ++ body)
             /\ process_rpcbind_request_tcp vxi11_port (mark ++ msg)
                = ([EvSend (size_hdr ++ generate_rpc_header xid ++ body);
                    EvClose], Ok OK).
Proof.
  intros v msg Hproc Hprog vxi11_port xid.
  pose proof (value_new_Value_I_range v) as Hv. fold vxi11_port in Hv.
  assert (Hlen : 0x28 < len msg).
  { apply (field_inside msg 0x28 0x2C). fold (get_program_id msg).
    rewrite Hprog. discriminate. }
  assert (Hxid : length xid = 4%nat).
  { unfold xid. rewrite slice_length by lia. reflexivity. }
  exists (be_digits 4 (value vxi11_port)).
  split; [exact Hxid|].
  split; [apply length_be_digits|].
  split; [now apply bytes_to_uint_be_digits|].
  split; [now apply reply_xid|].
  split; [now apply process_rpcbind_request_udp_getport|].
  intros mark Hmark.
  assert (Hrx : slice_from (mark ++ msg) 0x04 = msg).
  { change 0x04 with (Z.of_nat 4). rewrite <- Hmark. apply slice_from_app. }
  set (payload := generate_rpc_header xid ++ be_digits 4 (value vxi11_port)).
  assert (Hsize : 0 <= len payload < 2 ^ 31).
  { unfold payload. rewrite len_app, len_generate_rpc_header.
    unfold len. rewrite Hxid, length_be_digits. cbn. lia. }
  exists (be_digits 4 (Z.lor (len payload) 0x80000000)).
  destruct (size_header_fields _ Hsize) as (Hl & Hb & Hs).
  repeat split; try assumption.
  rewrite process_rpcbind_request_tcp_getport; rewrite ?Hrx; auto.
Qed.

Lemma C1_getport_reply_witness :
  get_procedure sample_getport = GET_PORT
  /\ get_program_id sample_getport = VXI11_CORE_ID
  /\ exists body : bytes,
       bytes_to_uint body = 9013
       /\ process_rpcbind_request_udp (new_Value_I 9013) sample_getport
          = ([EvSendTo (generate_rpc_header (slice sample_getport 0 4) ++ body)],
             Ok OK)
       /\ exists size_hdr : bytes,
            Z.land (bytes_to_uint size_hdr) 0x7FFFFFFF = 28
            /\ process_rpcbind_request_tcp (new_Value_I 9013)
                 (record_marked sample_getport)
               = ([EvSend (size_hdr ++ generate_rpc_header
                                        (slice sample_getport 0 4) ++ body);
                   EvClose], Ok OK).
Proof.
  assert (Hproc : get_procedure sample_getport = GET_PORT) by reflexivity.
  assert (Hprog : get_program_id sample_getport = VXI11_CORE_ID) by reflexivity.
  split; [exact Hproc | split; [exact Hprog|]].
  destruct (C1_getport_reply 9013 sample_getport Hproc Hprog)
    as (body & Hxid & Hlen & Hval & _ & Hudp & Htcp).
  exists body. split; [exact Hval | split; [exact Hudp|]].
  destruct (Htcp (be_digits 4 (Z.lor (len sample_getport) 0x80000000))
              eq_refl) as (size_hdr & _ & _ & Hlow & Hrun).
  exists size_hdr. split; [|exact Hrun].
  rewrite Hlow, len_app, len_generate_rpc_header. unfold len.
  rewrite Hxid, Hlen. reflexivity.
Defined.

(** The body of the connection handler on a refused request (here a call
    of procedure 0, and a GETPORT for program 100003): no reply, and the
    function returns its error code from inside the [if], without
    calling [connection.close()] as its two other paths do
    ([process_rpcbind_request_tcp_short],
    [process_rpcbind_request_tcp_getport]). *)
Lemma tcp_refusal_returns_before_close :
  let null_call := process_rpcbind_request_tcp (new_Value_I 9010)
                     (record_marked sample_pmap_null) in
  let other_program := process_rpcbind_request_tcp (new_Value_I 9010)
                         (record_marked sample_getport_nfs) in
  get_procedure sample_pmap_null <> GET_PORT
  /\ get_program_id sample_getport_nfs <> VXI11_CORE_ID
  /\ null_call = ([], Ok NOT_GET_PORT_ERROR)
  /\ other_program = ([], Ok NOT_VXI11_ERROR)
  /\ sent (fst null_call) = [] /\ closed (fst null_call) = false
  /\ sent (fst other_program) = [] /\ closed (fst other_program) = false.
Proof.
  cbv zeta. repeat split; try reflexivity; vm_compute; discriminate.
Qed.



(** ** C9: the reply header *)

Lemma generate_rpc_header_spec (xid body : bytes) :
  generate_rpc_header xid ++ body = spec_rpc_reply xid body.
Proof.
  rewrite generate_rpc_header_eq, <- app_assoc. reflexivity.
Qed.

Lemma process_rpcbind_request_udp_sent (vxi11_port : Value_I) (rx_data d : bytes) :
  In d (sent (fst (process_rpcbind_request_udp vxi11_port rx_data))) ->
  length (slice rx_data 0 4) = 4%nat
  /\ exists body, d = generate_rpc_header (slice rx_data 0 4) ++ body.
Proof.
  unfold process_rpcbind_request_udp.
  destruct (len rx_data >? 0); [|contradiction].
  destruct (Z.eqb_spec (get_procedure rx_data) GET_PORT) as [Hp|]; [|contradiction].
  destruct (Z.eqb_spec (get_program_id rx_data) VXI11_CORE_ID) as [Hq|];
    [|contradiction].
  cbn [negb]. unfold generate_rpcbind_response.
  destruct (uint_to_bytes (value vxi11_port)) as [resp|]; [|contradiction].
  cbn. intros [<-|[]].
  assert (Hlen : 0x28 < len rx_data).
  { apply (field_inside rx_data 0x28 0x2C). fold (get_program_id rx_data).
    rewrite Hq. discriminate. }
  split; [rewrite slice_length by lia; reflexivity|].
  exists resp. reflexivity.
Qed.

Lemma process_rpcbind_request_tcp_sent (vxi11_port : Value_I) (rx_data d : bytes) :
  In d (sent (fst (process_rpcbind_request_tcp vxi11_port rx_data))) ->
  length (slice rx_data 4 8) = 4%nat
  /\ exists mark body,
       length mark = 4%nat
       /\ d = mark ++ generate_rpc_header (slice rx_data 4 8) ++ body.
Proof.
  unfold process_rpcbind_request_tcp.
  destruct (len rx_data >? 4); [|contradiction].
  destruct (Z.eqb_spec (get_procedure (slice_from rx_data 4)) GET_PORT) as [Hp|];
    [|contradiction].
  destruct (Z.eqb_spec (get_program_id (slice_from rx_data 4)) VXI11_CORE_ID)
    as [Hq|]; [|contradiction].
  cbn [negb]. unfold generate_rpcbind_response.
  destruct (Z_lt_ge_dec (value vxi11_port) 0) as [Hneg|Hnn].
  { rewrite uint_to_bytes_overflow by lia. contradiction. }
  destruct (Z_lt_ge_dec (value vxi11_port) (2 ^ 32)) as [Hlt|Hge].
  2: { rewrite uint_to_bytes_overflow by lia. contradiction. }
  rewrite uint_to_bytes_ok by lia. cbn [lift io_bind app].
  rewrite generate_resp_data_reply
    by (unfold len; rewrite length_be_digits; cbn; lia).
  cbn [io_bind lift emit io_ret fst sent flat_map app In]. intros [<-|[]].
  assert (Hlen : 0x28 < len (slice_from rx_data 4)).
  { apply (field_inside _ 0x28 0x2C).
    fold (get_program_id (slice_from rx_data 4)). rewrite Hq. discriminate. }
  assert (Hrx : 0x2C < len rx_data).
  { unfold slice_from, len in Hlen. rewrite length_skipn in Hlen.
    unfold len. lia. }
  unfold get_xid. rewrite slice_slice_from by lia.
  split; [rewrite slice_length by lia; reflexivity|].
  eexists _, _. split; [|reflexivity]. apply length_be_digits.
Qed.

Lemma process_lxi_requests_sent {Awg} (parse_scpi_command : option str -> Awg -> result Awg)
  (recvs : list bytes) (awg : Awg) :
  sent (fst (process_lxi_requests parse_scpi_command recvs awg))
  = sent (fst (lxi_loop parse_scpi_command recvs awg)).
Proof.
  unfold process_lxi_requests.
  destruct (lxi_loop parse_scpi_command recvs awg) as [t [[a|a]|e]];
    cbn [io_bind io_ret emit fst]; rewrite ?sent_app, ?app_nil_r;
    reflexivity.
Qed.

Section SessionAnswers.

Variable Awg : Type.
Variable parse_scpi_command : option str -> Awg -> result Awg.

(** The reply sent while a record is handled carries the XID of that
    record. *)
Lemma lxi_request_sent (rx_buf : bytes) (awg : Awg) (d : bytes) :
  In d (sent (fst (lxi_request parse_scpi_command rx_buf awg))) ->
  length (slice rx_buf 4 8) = 4%nat
  /\ exists mark body,
       length mark = 4%nat /\ d = mark ++ spec_rpc_reply (slice rx_buf 4 8) body.
Proof.
  intros Hin.
  destruct (lxi_request_outcome Awg parse_scpi_command rx_buf awg) as
    [Hz | Hpos Hprog | Hprog Hproc | e Hprog Hproc
     | mark body awg' Hprog Hproc Hmark | mark body Hprog Hproc Hmark];
    cbn [fst sent flat_map app In] in Hin; try contradiction;
    destruct Hin as [<-|[]];
    (split; [apply (vxi11_record_xid _ Hprog)|]);
    exists mark, body; (split; [exact Hmark|]);
    now rewrite generate_rpc_header_spec.
Qed.

(** The replies of the loop answer, one for one and in order, records
    among those received, each under the XID of its record. *)
Lemma lxi_loop_answers (recvs : list bytes) (awg : Awg) :
  exists answered : list bytes,
    subseq answered recvs
    /\ Forall2
         (fun rx_buf d =>
            length (slice rx_buf 4 8) = 4%nat
            /\ exists mark body,
                 length mark = 4%nat
                 /\ d = mark ++ spec_rpc_reply (slice rx_buf 4 8) body)
         answered (sent (fst (lxi_loop parse_scpi_command recvs awg))).
Proof.
  revert awg. induction recvs as [|rx_buf recvs IH]; intros awg.
  - exists []. split; constructor.
  - rewrite lxi_loop_cons.
    destruct (lxi_request_outcome Awg parse_scpi_command rx_buf awg) as
      [Hz | Hpos Hprog | Hprog Hproc | e Hprog Hproc
       | mark body awg' Hprog Hproc Hmark | mark body Hprog Hproc Hmark];
      cbn [io_bind io_ret fst app].
    + destruct (IH awg) as (answered & Hs & Hf).
      destruct (lxi_loop parse_scpi_command recvs awg) as [t r].
      exists answered. split; [now apply subseq_skip | exact Hf].
    + exists []. split; constructor.
    + exists []. split; constructor.
    + exists []. split; constructor.
    + destruct (IH awg') as (answered & Hs & Hf).
      destruct (lxi_loop parse_scpi_command recvs awg') as [t r].
      exists (rx_buf :: answered). split; [now apply subseq_take|].
      cbn [fst] in *.
      change (sent (EvSend ?d :: t)) with (d :: sent t).
      constructor; [|exact Hf].
      split; [apply (vxi11_record_xid _ Hprog)|].
      exists mark, body. split; [exact Hmark|].
      now rewrite generate_rpc_header_spec.
    + exists [rx_buf]. split; [apply subseq_take, subseq_nil|].
      change (sent [EvSend ?d]) with [d].
      constructor; [|constructor].
      split; [apply (vxi11_record_xid _ Hprog)|].
      exists mark, body. split; [exact Hmark|].
      now rewrite generate_rpc_header_spec.
Qed.

End SessionAnswers.

(** C9. Every reply sent, by either port mapper or in a VXI-11 session,
    is (after the 4-byte record mark on TCP) the 4-byte XID of the
    request it answers, the words 1 (reply), 0 (accepted), 0 and 0
    (AUTH_NULL verifier: flavor, length), 0 (success), and then the
    body.  In a session this holds of the reply sent while a record is
    handled, and the replies of the session answer, one for one and in
    the order received, records of the session. *)
Theorem C9_reply_header :
  (forall (vxi11_port : Value_I) (rx_data d : bytes),
      In d (sent (fst (process_rpcbind_request_udp vxi11_port rx_data))) ->
      let xid := slice rx_data 0 4 in
      length xid = 4%nat
      /\ exists body, d = spec_rpc_reply xid body)
  /\ (forall (vxi11_port : Value_I) (rx_data d : bytes),
         In d (sent (fst (process_rpcbind_request_tcp vxi11_port rx_data))) ->
         let xid := slice rx_data 4 8 in
         length xid = 4%nat
         /\ exists mark body,
              length mark = 4%nat /\ d = mark ++ spec_rpc_reply xid body)
  /\ (forall (Awg : Type) (parse_scpi_command : option str -> Awg -> result Awg)
             (rx_buf : bytes) (awg : Awg) (d : bytes),
         In d (sent (fst (lxi_request parse_scpi_command rx_buf awg))) ->
         let xid := slice rx_buf 4 8 in
         length xid = 4%nat
         /\ exists mark body,
              length mark = 4%nat /\ d = mark ++ spec_rpc_reply xid body)
  /\ (forall (Awg : Type) (parse_scpi_command : option str -> Awg -> result Awg)
             (recvs : list bytes) (awg : Awg),
         exists answered : list bytes,
           subseq answered recvs
           /\ Forall2
                (fun rx_buf d =>
                   let xid := slice rx_buf 4 8 in
                   length xid = 4%nat
                   /\ exists mark body,
                        length mark = 4%nat
                        /\ d = mark ++ spec_rpc_reply xid body)
                answered
                (sent (fst (process_lxi_requests parse_scpi_command recvs awg)))).
Proof.
  split; [|split; [|split]].
  - intros vxi11_port rx_data d Hin xid.
    destruct (process_rpcbind_request_udp_sent _ _ _ Hin) as (Hx & body & ->).
    split; [exact Hx|]. exists body. apply generate_rpc_header_spec.
  - intros vxi11_port rx_data d Hin xid.
    destruct (process_rpcbind_request_tcp_sent _ _ _ Hin)
      as (Hx & mark & body & Hm & ->).
    split; [exact Hx|]. exists mark, body. split; [exact Hm|].
    now rewrite generate_rpc_header_spec.
  - intros Awg parse_scpi_command rx_buf awg d Hin. cbv zeta.
    now apply (lxi_request_sent Awg parse_scpi_command rx_buf awg).
  - intros Awg parse_scpi_command recvs awg.
    rewrite process_lxi_requests_sent. cbv zeta.
    apply lxi_loop_answers.
Qed.

Lemma C9_reply_header_witness :
  let t := fst (lxi_request sample_parser sample_destroy_link None) in
  let d := record_marked (spec_rpc_reply sample_xid [x00; x00; x00; x00]) in
  In d (sent t)
  /\ length (slice sample_destroy_link 4 8) = 4%nat
  /\ exists mark body,
       length mark = 4%nat
       /\ d = mark ++ spec_rpc_reply (slice sample_destroy_link 4 8) body.
Proof.
  intros t d.
  assert (Hin : In d (sent t)) by (left; reflexivity).
  split; [exact Hin|].
  exact (proj1 (proj2 (proj2 C9_reply_header)) _ sample_parser
           sample_destroy_link None d Hin).
Defined.

(** ** C3: rotation of the port cell *)

Lemma rotate_port_value (port_start port_end v : Z) :
  0 <= port_start -> port_start <= v <= port_end -> port_end + 1 < 2 ^ 32 ->
  value (rotate_port port_start port_end (mkValue v))
  = if v + 1 >? port_end then port_start else v + 1.
Proof.
  intros H0 Hv He. unfold rotate_port, set_value. cbn [value].
  rewrite (Z.mod_small (v + 1)) by lia.
  destruct (v + 1 >? port_end); cbn [value]; [apply Z.mod_small; lia | reflexivity].
Qed.

Lemma succ_mod (n r : Z) :
  0 <= n -> 0 < r ->
  (n + 1) mod r = if n mod r + 1 >? r - 1 then 0 else n mod r + 1.
Proof.
  intros Hn Hr. pose proof (Z.mod_pos_bound n r Hr) as Hb.
  pose proof (Z.div_mod n r ltac:(lia)) as Hdm.
  destruct (Z.gtb_spec (n mod r + 1) (r - 1)) as [Hw|Hw]; symmetry.
  - apply Z.mod_unique with (q := n / r + 1); lia.
  - apply Z.mod_unique with (q := n / r); lia.
Qed.

Lemma rotate_port_iter (port_start port_end : Z) (N : nat) :
  0 <= port_start -> port_start <= port_end -> port_end + 1 < 2 ^ 32 ->
  value (Nat.iter N (rotate_port port_start port_end) (new_Value_I port_start))
  = port_start + Z.of_nat N mod (port_end - port_start + 1).
Proof.
  intros H0 Hle He. induction N as [|N IH].
  - change (port_start mod 2 ^ 32
            = port_start + 0 mod (port_end - port_start + 1)).
    rewrite (Z.mod_small port_start), Z.mod_0_l by lia. lia.
  - rewrite Nat.iter_succ.
    destruct (Nat.iter N (rotate_port port_start port_end) (new_Value_I port_start))
      as [v]. cbn [value] in IH.
    pose proof (Z.mod_pos_bound (Z.of_nat N) (port_end - port_start + 1)
                  ltac:(lia)) as Hb.
    rewrite rotate_port_value by lia.
    rewrite Nat2Z.inj_succ, <- Z.add_1_r, succ_mod by lia. subst v.
    destruct (Z.gtb_spec (port_start + Z.of_nat N mod (port_end - port_start + 1) + 1)
                port_end);
      destruct (Z.gtb_spec (Z.of_nat N mod (port_end - port_start + 1) + 1)
                  (port_end - port_start + 1 - 1)); lia.
Qed.

Section MainLoop.

Variable Awg : Type.
Variable parse_scpi_command : option str -> Awg -> result Awg.

Lemma teardowns_app (t1 t2 : list event) :
  teardowns (t1 ++ t2) = (teardowns t1 + teardowns t2)%nat.
Proof.
  induction t1 as [|e t1 IH]; [reflexivity|].
  destruct e; cbn [app teardowns]; rewrite IH; reflexivity.
Qed.

Lemma lxi_loop_teardowns (recvs : list bytes) (awg : Awg) :
  teardowns (fst (lxi_loop parse_scpi_command recvs awg)) = O.
Proof.
  revert awg. induction recvs as [|rx_buf recvs IH]; intros awg; [reflexivity|].
  rewrite lxi_loop_cons.
  destruct (lxi_request_outcome Awg parse_scpi_command rx_buf awg) as
    [Hz | Hpos Hprog | Hprog Hproc | e Hprog Hproc
     | mark body awg' Hprog Hproc Hmark | mark body Hprog Hproc Hmark];
    cbn [io_bind io_ret fst app]; try reflexivity.
  - specialize (IH awg).
    destruct (lxi_loop parse_scpi_command recvs awg). exact IH.
  - specialize (IH awg').
    destruct (lxi_loop parse_scpi_command recvs awg'). exact IH.
Qed.

Lemma process_lxi_requests_teardowns (recvs : list bytes) (awg : Awg) :
  teardowns (fst (process_lxi_requests parse_scpi_command recvs awg)) = O.
Proof.
  unfold process_lxi_requests.
  pose proof (lxi_loop_teardowns recvs awg) as H.
  destruct (lxi_loop parse_scpi_command recvs awg) as [t [[a|a]|e]];
    cbn [io_bind io_ret emit fst] in *; rewrite ?teardowns_app, ?H; reflexivity.
Qed.

(** [main_loop] rotates the port cell once for every listener it tears
    down. *)
Lemma main_loop_port (port_start port_end : Z) (sessions : list (list bytes))
  (vxi11_port vxi11_port' : Value_I) (awg awg' : Awg) (t : list event) :
  main_loop parse_scpi_command port_start port_end sessions vxi11_port awg
  = (t, Ok (vxi11_port', awg')) ->
  vxi11_port' = Nat.iter (teardowns t) (rotate_port port_start port_end) vxi11_port.
Proof.
  revert vxi11_port awg t.
  induction sessions as [|recvs sessions IH]; intros vxi11_port awg t Hrun.
  - injection Hrun as <- <- _. reflexivity.
  - cbn [main_loop] in Hrun.
    pose proof (process_lxi_requests_teardowns recvs awg) as Hs.
    destruct (process_lxi_requests parse_scpi_command recvs awg)
      as [ts [[a|a]|e]]; cbn [fst] in Hs;
      cbn [io_bind io_ret emit app] in Hrun; try discriminate.
    + destruct (main_loop parse_scpi_command port_start port_end sessions
                  (rotate_port port_start port_end vxi11_port) a)
        as [tm r] eqn:E.
      injection Hrun as <- ->.
      rewrite teardowns_app, Hs. cbn [teardowns Nat.add].
      rewrite (IH _ _ _ E). now rewrite Nat.iter_succ_r.
    + injection Hrun as <- <- _. rewrite app_nil_r, Hs. reflexivity.
Qed.

End MainLoop.

(** C3. With the port cell initialised to [port_start], a range with
    [port_start <= port_end] of port numbers, and N listener teardowns,
    each followed by the rotation step of [main_loop], the port cell holds
    [port_start + N mod (port_end - port_start + 1)], a value of the
    range; the same holds for the cell [main_loop] ends with, N being the
    number of teardowns in its trace. *)
Theorem C3_port_rotation :
  forall port_start port_end : Z,
    0 <= port_start -> port_start <= port_end -> port_end + 1 < 2 ^ 32 ->
    (forall N : nat,
        let vxi11_port :=
          Nat.iter N (rotate_port port_start port_end) (new_Value_I port_start) in
        value vxi11_port = port_start + Z.of_nat N mod (port_end - port_start + 1)
        /\ port_start <= value vxi11_port <= port_end)
    /\ (forall (Awg : Type) (parse_scpi_command : option str -> Awg -> result Awg)
               (sessions : list (list bytes)) (awg awg' : Awg)
               (vxi11_port : Value_I) (t : list event),
           main_loop parse_scpi_command port_start port_end sessions
             (new_Value_I port_start) awg = (t, Ok (vxi11_port, awg')) ->
           value vxi11_port
           = port_start + Z.of_nat (teardowns t) mod (port_end - port_start + 1)).
Proof.
  intros port_start port_end H0 Hle He. split.
  - intros N vxi11_port. subst vxi11_port.
    rewrite rotate_port_iter by assumption.
    pose proof (Z.mod_pos_bound (Z.of_nat N) (port_end - port_start + 1)
                  ltac:(lia)). lia.
  - intros Awg parse_scpi_command sessions awg awg' vxi11_port t Hrun.
    rewrite (main_loop_port _ _ _ _ _ _ _ _ _ _ Hrun).
    now apply rotate_port_iter.
Qed.

Lemma C3_port_rotation_witness :
  0 <= VXI11_PORTRANGE_START
  /\ VXI11_PORTRANGE_START <= VXI11_PORTRANGE_END
  /\ VXI11_PORTRANGE_END + 1 < 2 ^ 32
  /\ value (Nat.iter 13 (rotate_port VXI11_PORTRANGE_START VXI11_PORTRANGE_END)
              (new_Value_I VXI11_PORTRANGE_START))
     = VXI11_PORTRANGE_START + 13 mod 10.
Proof.
  assert (H0 : 0 <= VXI11_PORTRANGE_START) by (vm_compute; discriminate).
  assert (Hle : VXI11_PORTRANGE_START <= VXI11_PORTRANGE_END)
    by (vm_compute; discriminate).
  assert (He : VXI11_PORTRANGE_END + 1 < 2 ^ 32) by reflexivity.
  split; [exact H0 | split; [exact Hle | split; [exact He|]]].
  exact (proj1 (proj1 (C3_port_rotation _ _ H0 Hle He) 13%nat)).
Defined.

(** ** C4: records the session refuses *)

(** The half of the refusal that works: a VXI-11 record of an unknown
    procedure leaves the loop, with no reply, and the connection is
    closed. *)
Lemma process_lxi_requests_unknown {Awg}
  (parse_scpi_command : option str -> Awg -> result Awg)
  (rx_buf : bytes) (recvs : list bytes) (awg : Awg) :
  bytes_to_uint (slice rx_buf 0x10 0x14) = VXI11_CORE_ID ->
  ~ In (bytes_to_uint (slice rx_buf 0x18 0x1c))
       [CREATE_LINK; DEVICE_WRITE; DEVICE_READ; DESTROY_LINK] ->
  process_lxi_requests parse_scpi_command (rx_buf :: recvs) awg
  = ([EvClose], Ok (Left_loop awg)).
Proof.
  intros Hprog Hproc. unfold process_lxi_requests.
  rewrite lxi_loop_cons, lxi_request_unknown; try assumption;
    try (intros E; apply Hproc; rewrite E; cbn; tauto).
  reflexivity.
Qed.

(** The other half: a record of another program ends the session with an
    exception instead of a [break]. *)
Lemma process_lxi_requests_not_vxi11 {Awg}
  (parse_scpi_command : option str -> Awg -> result Awg)
  (rx_buf : bytes) (recvs : list bytes) (awg : Awg) :
  len rx_buf > 0 ->
  bytes_to_uint (slice rx_buf 0x10 0x14) <> VXI11_CORE_ID ->
  process_lxi_requests parse_scpi_command (rx_buf :: recvs) awg
  = ([], Raise ValueError).
Proof.
  intros Hlen Hprog. unfold process_lxi_requests.
  rewrite lxi_loop_cons, lxi_request_not_vxi11 by assumption.
  reflexivity.
Qed.

(** C4. A record whose program id is not 395183 (here a call to program
    100000) does not make the loop [break]: [parse_lxi_request] returns a
    tuple of three values where its caller unpacks four, the [ValueError]
    leaves [process_lxi_requests], and [connection.close()] is not
    reached -- as the first record of a session and after a CREATE_LINK
    alike. *)
Theorem C4_foreign_program_raises :
  forall (Awg : Type) (parse_scpi_command : option str -> Awg -> result Awg)
         (awg : Awg),
    let first := process_lxi_requests parse_scpi_command
                   [sample_foreign_call] awg in
    let later := process_lxi_requests parse_scpi_command
                   [sample_create_link; sample_foreign_call] awg in
    bytes_to_uint (slice sample_foreign_call 0x10 0x14) <> VXI11_CORE_ID
    /\ parse_lxi_request sample_foreign_call = Ok (Tuple3 NOT_VXI11_ERROR)
    /\ first = ([], Raise ValueError)
    /\ snd later = Raise ValueError
    /\ closed (fst first) = false
    /\ closed (fst later) = false.
Proof.
  intros Awg parse_scpi_command awg first later.
  assert (Hprog : bytes_to_uint (slice sample_foreign_call 0x10 0x14)
                  <> VXI11_CORE_ID) by (vm_compute; discriminate).
  assert (Hfirst : first = ([], Raise ValueError)).
  { apply process_lxi_requests_not_vxi11; [reflexivity | exact Hprog]. }
  assert (Hlater : later =
            (fst (lxi_request parse_scpi_command sample_create_link awg),
             Raise ValueError)).
  { unfold later, process_lxi_requests.
    rewrite lxi_loop_cons, lxi_request_create_link by reflexivity.
    cbv zeta.
    replace (utf8_decode _) with (Some (map byte_val (list_byte_of_string "inst0")))
      by reflexivity.
    cbn [io_bind fst].
    rewrite lxi_loop_cons, lxi_request_not_vxi11
      by (reflexivity || exact Hprog).
    reflexivity. }
  split; [exact Hprog|]. split; [reflexivity|]. split; [exact Hfirst|].
  rewrite Hfirst, Hlater. split; [reflexivity|]. split; [reflexivity|].
  cbn [fst]. rewrite lxi_request_create_link by reflexivity. cbv zeta.
  replace (utf8_decode _) with (Some (map byte_val (list_byte_of_string "inst0")))
    by reflexivity.
  reflexivity.
Qed.

(** ** C5, C6, C7: the replies of a session *)

(** C5, the last clause as stated: the identity string sent to the
    oscilloscope does not begin with "SDG"; it begins with the response
    prefix "IDN-SGLT-PRI ". *)
Lemma C5_identity_prefix_counterexample :
  ~ (AWG_ID_STRING = list_byte_of_string "IDN-SGLT-PRI SDG0000X"
     /\ startswith AWG_ID_STRING (list_byte_of_string "SDG") = true).
Proof.
  intros [_ H]. vm_compute in H. discriminate H.
Qed.

(** C5. Every DEVICE_READ request is answered with a body made
    of error code 0, reason 4 (END), a 4-byte length field (22: the
    identity length plus one), the identity bytes "IDN-SGLT-PRI SDG0000X"
    and the bytes 0x0A 0x00 0x00; the identity string is the response
    prefix "IDN-SGLT-PRI " followed by the model name "SDG0000X", and it
    is the model name that begins with "SDG". *)
Theorem C5_device_read_reply :
  forall (Awg : Type) (parse_scpi_command : option str -> Awg -> result Awg)
         (rx_buf : bytes) (awg : Awg),
    bytes_to_uint (slice rx_buf 0x10 0x14) = VXI11_CORE_ID ->
    bytes_to_uint (slice rx_buf 0x18 0x1c) = DEVICE_READ ->
    exists mark length_field : bytes,
      length mark = 4%nat
      /\ length length_field = 4%nat
      /\ bytes_to_uint length_field = 22
      /\ lxi_request parse_scpi_command rx_buf awg
         = ([EvSend (mark ++ generate_rpc_header (slice rx_buf 4 8)
                     ++ [x00; x00; x00; x00] ++ [x00; x00; x00; x04]
                     ++ length_field
                     ++ list_byte_of_string "IDN-SGLT-PRI SDG0000X"
                     ++ [x0a; x00; x00])],
            Ok (Continue, awg))
      /\ AWG_ID_STRING
         = list_byte_of_string "IDN-SGLT-PRI " ++ list_byte_of_string "SDG0000X"
      /\ startswith (list_byte_of_string "SDG0000X") (list_byte_of_string "SDG")
         = true.
Proof.
  intros Awg parse_scpi_command rx_buf awg Hprog Hproc.
  eexists _, (be_digits 4 (len AWG_ID_STRING + 1)).
  split; [|split; [apply length_be_digits|split; [reflexivity|]]].
  2: { split; [|split; reflexivity].
       rewrite lxi_request_device_read by assumption. cbv zeta. reflexivity. }
  apply length_be_digits.
Qed.

Lemma C5_device_read_reply_witness :
  bytes_to_uint (slice sample_device_read 0x10 0x14) = VXI11_CORE_ID
  /\ bytes_to_uint (slice sample_device_read 0x18 0x1c) = DEVICE_READ
  /\ exists mark length_field : bytes,
       bytes_to_uint length_field = 22
       /\ lxi_request sample_parser sample_device_read None
          = ([EvSend (mark ++ generate_rpc_header (slice sample_device_read 4 8)
                      ++ [x00; x00; x00; x00] ++ [x00; x00; x00; x04]
                      ++ length_field
                      ++ list_byte_of_string "IDN-SGLT-PRI SDG0000X"
                      ++ [x0a; x00; x00])],
             Ok (Continue, None)).
Proof.
  assert (Hprog : bytes_to_uint (slice sample_device_read 0x10 0x14)
                  = VXI11_CORE_ID) by reflexivity.
  assert (Hproc : bytes_to_uint (slice sample_device_read 0x18 0x1c)
                  = DEVICE_READ) by reflexivity.
  split; [exact Hprog | split; [exact Hproc|]].
  destruct (C5_device_read_reply _ sample_parser sample_device_read None
              Hprog Hproc) as (mark & lf & _ & _ & Hlf & Hrun & _).
  exists mark, lf. split; [exact Hlf | exact Hrun].
Defined.

(** C6 as stated, for every DEVICE_WRITE request: a DEVICE_WRITE whose
    length field holds 2 and whose two data bytes are not UTF-8 raises
    [UnicodeDecodeError] in [parse_lxi_request], and no reply with a
    size field is sent for it. *)
Lemma C6_undecodable_write_counterexample :
  bytes_to_uint (slice sample_undecodable_write 0x10 0x14) = VXI11_CORE_ID
  /\ bytes_to_uint (slice sample_undecodable_write 0x18 0x1c) = DEVICE_WRITE
  /\ bytes_to_uint (slice sample_undecodable_write 0x3C 0x40) = 2
  /\ lxi_request sample_parser sample_undecodable_write None
     = ([], Raise UnicodeDecodeError)
  /\ sent (fst (process_lxi_requests sample_parser
                  [sample_undecodable_write] None)) = [].
Proof.
  repeat split; reflexivity.
Qed.

(** C6. A DEVICE_WRITE request whose data-length field (bytes 0x3C..0x40
    of the received buffer) holds L, whose data decodes as UTF-8 and
    whose command the parser takes, is answered with a body made of error
    code 0 and a 4-byte big-endian size field equal to L. *)
Theorem C6_device_write_size :
  forall (Awg : Type) (parse_scpi_command : option str -> Awg -> result Awg)
         (rx_buf : bytes) (awg awg' : Awg) (L : Z) (cmd : str),
    bytes_to_uint (slice rx_buf 0x10 0x14) = VXI11_CORE_ID ->
    bytes_to_uint (slice rx_buf 0x18 0x1c) = DEVICE_WRITE ->
    bytes_to_uint (slice rx_buf 0x3C 0x40) = L ->
    utf8_decode (slice rx_buf 0x40 (0x40 + L)) = Some cmd ->
    parse_scpi_command (Some (strip cmd)) awg = Ok awg' ->
    exists mark size_field : bytes,
      length mark = 4%nat
      /\ length size_field = 4%nat
      /\ bytes_to_uint size_field = L
      /\ lxi_request parse_scpi_command rx_buf awg
         = ([EvSend (mark ++ generate_rpc_header (slice rx_buf 4 8)
                     ++ [x00; x00; x00; x00] ++ size_field)],
            Ok (Continue, awg')).
Proof.
  intros Awg parse_scpi_command rx_buf awg awg' L cmd Hprog Hproc HL Hdec Hcmd.
  pose proof (field_range rx_buf 0x3C) as Hrange.
  change (0x3C + 4) with 0x40 in Hrange. rewrite HL in Hrange.
  eexists _, (be_digits 4 L).
  split; [|split; [apply length_be_digits
                  |split; [now apply bytes_to_uint_be_digits|]]].
  2: { rewrite lxi_request_device_write by assumption. cbv zeta.
       rewrite HL, Hdec, Hcmd. reflexivity. }
  apply length_be_digits.
Qed.

Lemma C6_device_write_size_witness :
  bytes_to_uint (slice sample_device_write 0x10 0x14) = VXI11_CORE_ID
  /\ bytes_to_uint (slice sample_device_write 0x18 0x1c) = DEVICE_WRITE
  /\ bytes_to_uint (slice sample_device_write 0x3C 0x40) = 16
  /\ utf8_decode (slice sample_device_write 0x40 (0x40 + 16))
     = Some (map byte_val sample_command)
  /\ exists mark size_field : bytes,
       length mark = 4%nat
       /\ length size_field = 4%nat
       /\ bytes_to_uint size_field = 16
       /\ lxi_request sample_parser sample_device_write None
          = ([EvSend (mark ++ generate_rpc_header (slice sample_device_write 4 8)
                      ++ [x00; x00; x00; x00] ++ size_field)],
             Ok (Continue, Some (strip (map byte_val sample_command)))).
Proof.
  assert (Hprog : bytes_to_uint (slice sample_device_write 0x10 0x14)
                  = VXI11_CORE_ID) by reflexivity.
  assert (Hproc : bytes_to_uint (slice sample_device_write 0x18 0x1c)
                  = DEVICE_WRITE) by reflexivity.
  assert (HL : bytes_to_uint (slice sample_device_write 0x3C 0x40) = 16)
    by reflexivity.
  assert (Hdec : utf8_decode (slice sample_device_write 0x40 (0x40 + 16))
                 = Some (map byte_val sample_command)) by reflexivity.
  split; [exact Hprog | split; [exact Hproc | split; [exact HL
    | split; [exact Hdec|]]]].
  exact (C6_device_write_size _ sample_parser sample_device_write None _ 16 _
           Hprog Hproc HL Hdec eq_refl).
Defined.

(** C7 as stated, for every CREATE_LINK request: a CREATE_LINK whose
    device name is the byte FF raises [UnicodeDecodeError] in
    [parse_lxi_request] and is not answered. *)
Lemma C7_undecodable_link_counterexample :
  bytes_to_uint (slice sample_undecodable_link 0x10 0x14) = VXI11_CORE_ID
  /\ bytes_to_uint (slice sample_undecodable_link 0x18 0x1c) = CREATE_LINK
  /\ lxi_request sample_parser sample_undecodable_link None
     = ([], Raise UnicodeDecodeError)
  /\ sent (fst (process_lxi_requests sample_parser
                  [sample_undecodable_link] None)) = [].
Proof.
  repeat split; reflexivity.
Qed.

(** C7. A CREATE_LINK request (whose device name decodes as UTF-8) is
    answered with a body of sixteen bytes, four 4-byte big-endian fields:
    error code 0, link id 0, abort port 0 and maximum receive size
    0x00800000 = 8388608. *)
Theorem C7_create_link_reply :
  forall (Awg : Type) (parse_scpi_command : option str -> Awg -> result Awg)
         (rx_buf : bytes) (awg : Awg) (device : str),
    bytes_to_uint (slice rx_buf 0x10 0x14) = VXI11_CORE_ID ->
    bytes_to_uint (slice rx_buf 0x18 0x1c) = CREATE_LINK ->
    utf8_decode (slice rx_buf 0x3C (0x3C + bytes_to_uint (slice rx_buf 0x38 0x3C)))
    = Some device ->
    exists mark body : bytes,
      length mark = 4%nat
      /\ lxi_request parse_scpi_command rx_buf awg
         = ([EvSend (mark ++ generate_rpc_header (slice rx_buf 4 8) ++ body)],
            Ok (Continue, awg))
      /\ length body = 16%nat
      /\ bytes_to_uint (slice body 0 4) = 0
      /\ bytes_to_uint (slice body 4 8) = 0
      /\ bytes_to_uint (slice body 8 12) = 0
      /\ bytes_to_uint (slice body 12 16) = 0x00800000.
Proof.
  intros Awg parse_scpi_command rx_buf awg device Hprog Hproc Hdec.
  eexists _, generate_lxi_create_link_response.
  split; [|split; [|repeat split]].
  2: { rewrite lxi_request_create_link by assumption. cbv zeta.
       rewrite Hdec. reflexivity. }
  apply length_be_digits.
Qed.

Lemma C7_create_link_reply_witness :
  bytes_to_uint (slice sample_create_link 0x10 0x14) = VXI11_CORE_ID
  /\ bytes_to_uint (slice sample_create_link 0x18 0x1c) = CREATE_LINK
  /\ utf8_decode (slice sample_create_link 0x3C
                    (0x3C + bytes_to_uint (slice sample_create_link 0x38 0x3C)))
     = Some (map byte_val (list_byte_of_string "inst0"))
  /\ exists mark body : bytes,
       lxi_request sample_parser sample_create_link None
       = ([EvSend (mark ++ generate_rpc_header (slice sample_create_link 4 8)
                   ++ body)],
          Ok (Continue, None))
       /\ bytes_to_uint (slice body 12 16) = 8388608.
Proof.
  assert (Hprog : bytes_to_uint (slice sample_create_link 0x10 0x14)
                  = VXI11_CORE_ID) by reflexivity.
  assert (Hproc : bytes_to_uint (slice sample_create_link 0x18 0x1c)
                  = CREATE_LINK) by reflexivity.
  assert (Hdec : utf8_decode (slice sample_create_link 0x3C
                    (0x3C + bytes_to_uint (slice sample_create_link 0x38 0x3C)))
                 = Some (map byte_val (list_byte_of_string "inst0")))
    by reflexivity.
  split; [exact Hprog | split; [exact Hproc | split; [exact Hdec|]]].
  destruct (C7_create_link_reply _ sample_parser sample_create_link None _
              Hprog Hproc Hdec)
    as (mark & body & _ & Hrun & _ & _ & _ & _ & Hmax).
  exists mark, body. split; [exact Hrun | exact Hmax].
Defined.

(** ** C10: a receive of zero bytes, and the ways out of the loop *)

Section LoopEnd.

Variable Awg : Type.
Variable parse_scpi_command : option str -> Awg -> result Awg.

(** A run of the loop that is over ended at one received record: up to
    it the loop was receiving, and handling it broke the loop or
    raised. *)
Lemma lxi_loop_ended (recvs : list bytes) (awg : Awg) (t : list event)
  (r : result (loop_end Awg)) :
  lxi_loop parse_scpi_command recvs awg = (t, r) ->
  (forall a, r <> Ok (In_recv a)) ->
  exists before rx_buf after tb awgb t1 r1,
    recvs = before ++ rx_buf :: after
    /\ lxi_loop parse_scpi_command before awg = (tb, Ok (In_recv awgb))
    /\ lxi_request parse_scpi_command rx_buf awgb = (t1, r1)
    /\ t = tb ++ t1
    /\ ((exists a, r1 = Ok (Break, a) /\ r = Ok (Left_loop a))
        \/ (exists e, r1 = Raise e /\ r = Raise e)).
Proof.
  revert awg t r. induction recvs as [|rx_buf recvs IH]; intros awg t r Hrun Hr.
  - injection Hrun as _ <-. now contradiction (Hr awg).
  - rewrite lxi_loop_cons in Hrun.
    destruct (lxi_request parse_scpi_command rx_buf awg)
      as [t1 [[[|] a]|e]] eqn:E; cbn [io_bind io_ret] in Hrun.
    + destruct (lxi_loop parse_scpi_command recvs a) as [t2 r2] eqn:E2.
      injection Hrun as <- <-.
      destruct (IH _ _ _ E2 Hr)
        as (b & rx & af & tb & awgb & t1' & r1 & -> & Hb & Hreq & -> & Hcase).
      exists (rx_buf :: b), rx, af, (t1 ++ tb), awgb, t1', r1.
      split; [reflexivity|]. split.
      { rewrite lxi_loop_cons, E. cbn [io_bind]. now rewrite Hb. }
      split; [exact Hreq|]. split; [apply app_assoc | exact Hcase].
    + injection Hrun as <- <-.
      exists [], rx_buf, recvs, [], awg, t1, (Ok (Break, a)).
      split; [reflexivity|]. split; [reflexivity|]. split; [exact E|].
      split; [now rewrite app_nil_r|]. left. now exists a.
    + injection Hrun as <- <-.
      exists [], rx_buf, recvs, [], awg, t1, (Raise e).
      split; [reflexivity|]. split; [reflexivity|]. split; [exact E|].
      split; [reflexivity|]. right. now exists e.
Qed.

End LoopEnd.

(** C10 as stated, on the ways out of the loop: the loop is also left,
    by an exception, after parsing a DEVICE_WRITE record of program
    395183 -- a record that is none of the three kinds the statement
    lists. *)
Lemma C10_exit_by_exception_counterexample :
  let rx_buf := sample_undecodable_write in
  snd (process_lxi_requests sample_parser [sample_create_link; rx_buf] None)
  = Raise UnicodeDecodeError
  /\ ~ (bytes_to_uint (slice rx_buf 0x10 0x14) <> VXI11_CORE_ID
        \/ ~ In (bytes_to_uint (slice rx_buf 0x18 0x1c))
               [CREATE_LINK; DEVICE_WRITE; DEVICE_READ; DESTROY_LINK]
        \/ bytes_to_uint (slice rx_buf 0x18 0x1c) = DESTROY_LINK).
Proof.
  cbv zeta. split; [reflexivity|].
  intros [H|[H|H]].
  - apply H. reflexivity.
  - apply H. right. left. reflexivity.
  - discriminate H.
Qed.

(** C10. In the request loop a receive that returns zero bytes skips the
    loop body and goes back to the receive: it changes nothing, and a
    connection that only ever returns zero bytes keeps the loop
    receiving, with nothing sent and the connection not closed.  A run
    that is over ended at a received record that is not empty, up to
    which the loop was receiving, and that record is of another program
    than 395183; or of a procedure that is none of 10, 11, 12, 23 (the
    loop breaks and the connection is closed); or a DESTROY_LINK (its
    reply is sent, then the loop breaks and the connection is closed);
    or a CREATE_LINK or DEVICE_WRITE on which an exception was raised
    (nothing is sent for it and the connection is not closed). *)
Theorem C10_zero_byte_receive :
  forall (Awg : Type) (parse_scpi_command : option str -> Awg -> result Awg),
    (forall awg : Awg,
        lxi_request parse_scpi_command [] awg = ([], Ok (Continue, awg)))
    /\ (forall (recvs : list bytes) (awg : Awg),
           process_lxi_requests parse_scpi_command ([] :: recvs) awg
           = process_lxi_requests parse_scpi_command recvs awg)
    /\ (forall (n : nat) (awg : Awg),
           process_lxi_requests parse_scpi_command (repeat [] n) awg
           = ([], Ok (In_recv awg)))
    /\ (forall (recvs : list bytes) (awg : Awg) (t : list event)
               (r : result (loop_end Awg)),
           process_lxi_requests parse_scpi_command recvs awg = (t, r) ->
           (forall a, r <> Ok (In_recv a)) ->
           exists (before : list bytes) (rx_buf : bytes) (after : list bytes)
                  (tb : list event) (awgb : Awg),
             recvs = before ++ rx_buf :: after
             /\ lxi_loop parse_scpi_command before awg = (tb, Ok (In_recv awgb))
             /\ len rx_buf > 0
             /\ (bytes_to_uint (slice rx_buf 0x10 0x14) <> VXI11_CORE_ID
                 \/ (~ In (bytes_to_uint (slice rx_buf 0x18 0x1c))
                         [CREATE_LINK; DEVICE_WRITE; DEVICE_READ; DESTROY_LINK]
                     /\ r = Ok (Left_loop awgb)
                     /\ t = tb ++ [EvClose])
                 \/ (bytes_to_uint (slice rx_buf 0x18 0x1c) = DESTROY_LINK
                     /\ r = Ok (Left_loop awgb)
                     /\ exists d, t = tb ++ [EvSend d; EvClose])
                 \/ (In (bytes_to_uint (slice rx_buf 0x18 0x1c))
                        [CREATE_LINK; DEVICE_WRITE]
                     /\ t = tb
                     /\ exists e, r = Raise e))).
Proof.
  intros Awg parse_scpi_command. split; [|split; [|split]].
  - intros awg. now apply lxi_request_empty.
  - intros recvs awg. unfold process_lxi_requests. now rewrite lxi_loop_skip.
  - intros n awg. unfold process_lxi_requests.
    now rewrite lxi_loop_all_empty.
  - intros recvs awg t r Hrun Hr. unfold process_lxi_requests in Hrun.
    destruct (lxi_loop parse_scpi_command recvs awg) as [t0 r0] eqn:E.
    assert (Hr0 : forall a, r0 <> Ok (In_recv a)).
    { intros a ->. cbn [io_bind io_ret] in Hrun. injection Hrun as _ <-.
      now contradiction (Hr a). }
    destruct (lxi_loop_ended _ _ _ _ _ _ E Hr0)
      as (b & rx & af & tb & awgb & t1 & r1 & Hrecvs & Hb & Hreq & -> & Hcase).
    exists b, rx, af, tb, awgb.
    split; [exact Hrecvs|]. split; [exact Hb|].
    pose proof (lxi_request_outcome Awg parse_scpi_command rx awgb) as Hout.
    rewrite Hreq in Hout.
    inversion Hout as
      [Hz Et | Hpos Hprog Et | Hprog Hproc Et | e Hprog Hproc Et
       | mark body awg1 Hprog Hproc Hmark Et | mark body Hprog Hproc Hmark Et];
      subst t1 r1.
    + destruct Hcase as [(a & Ha & _)|(e & He & _)]; discriminate.
    + split; [exact Hpos | now left].
    + pose proof (vxi11_record_nonempty _ Hprog).
      split; [lia|]. right. left.
      destruct Hcase as [(a & Ha & ->)|(e & He & _)]; [|discriminate].
      injection Ha as <-. cbn [io_bind io_ret emit] in Hrun.
      injection Hrun as <- <-.
      split; [exact Hproc|]. split; [reflexivity|].
      now rewrite !app_nil_r.
    + pose proof (vxi11_record_nonempty _ Hprog).
      split; [lia|]. right. right. right.
      destruct Hcase as [(a & Ha & _)|(e' & He & ->)]; [discriminate|].
      cbn [io_bind] in Hrun. injection Hrun as <- <-.
      split; [exact Hproc|]. split; [now rewrite app_nil_r|]. now exists e'.
    + destruct Hcase as [(a & Ha & _)|(e & He & _)]; discriminate.
    + pose proof (vxi11_record_nonempty _ Hprog).
      split; [lia|]. right. right. left.
      destruct Hcase as [(a & Ha & ->)|(e & He & _)]; [|discriminate].
      injection Ha as <-. cbn [io_bind io_ret emit] in Hrun.
      injection Hrun as <- <-.
      split; [exact Hproc|]. split; [reflexivity|].
      exists (mark ++ generate_rpc_header (slice rx 4 8) ++ body).
      rewrite ?app_nil_r, <- ?app_assoc. reflexivity.
Qed.

Lemma C10_zero_byte_receive_witness :
  let recvs := [sample_create_link; []; sample_destroy_link] in
  let run := process_lxi_requests sample_parser recvs None in
  (forall a, snd run <> Ok (In_recv a))
  /\ exists (before : list bytes) (rx_buf : bytes) (after : list bytes),
       recvs = before ++ rx_buf :: after
       /\ len rx_buf > 0.
Proof.
  intros recvs run.
  assert (Hrun : run = (fst run, snd run)) by reflexivity.
  assert (Hr : forall a, snd run <> Ok (In_recv a)) by (intros a H; discriminate H).
  split; [exact Hr|].
  destruct (proj2 (proj2 (proj2 (C10_zero_byte_receive _ sample_parser)))
              recvs None (fst run) (snd run) Hrun Hr)
    as (b & rx & af & _ & _ & Hrecvs & _ & Hlen & _).
  exists b, rx, af. split; [exact Hrecvs | exact Hlen].
Defined.

(** * Further properties *)

(** ** Integers and byte sequences *)

Lemma byte_of_Z_val (b : byte) : byte_of_Z (byte_val b) = b.
Proof.
  unfold byte_of_Z. pose proof (byte_val_range b) as Hr.
  rewrite Z.mod_small by assumption. unfold byte_val.
  rewrite N2Z.id, Byte.of_to_N. reflexivity.
Qed.

Lemma byte_of_Z_low (x v : Z) : byte_of_Z (x * 256 + v) = byte_of_Z v.
Proof.
  unfold byte_of_Z. now rewrite Z.add_comm, Z.mod_add by lia.
Qed.

Lemma be_digits_int_from_bytes (bs : bytes) :
  be_digits (length bs) (int_from_bytes bs) = bs.
Proof.
  induction bs as [|b bs IH] using rev_ind; [reflexivity|].
  rewrite length_app, Nat.add_1_r, int_from_bytes_snoc. cbn [be_digits].
  pose proof (byte_val_range b) as Hr.
  rewrite Z.div_add_l, (Z.div_small (byte_val b)), Z.add_0_r by lia.
  now rewrite IH, byte_of_Z_low, byte_of_Z_val.
Qed.

(** X1. [uint_to_bytes] succeeds exactly on the numbers from 0 to 2^32-1;
    it then gives four bytes that [bytes_to_uint] reads back as the same
    number, and raises [OverflowError] on every other number. *)
Theorem uint_to_bytes_round_trip :
  forall num : Z,
    (0 <= num < 2 ^ 32 ->
     exists bs : bytes,
       uint_to_bytes num = Ok bs /\ length bs = 4%nat /\ bytes_to_uint bs = num)
    /\ (~ 0 <= num < 2 ^ 32 -> uint_to_bytes num = Raise OverflowError).
Proof.
  intros num. split.
  - intros H. exists (be_digits 4 num).
    split; [now apply uint_to_bytes_ok|].
    split; [apply length_be_digits | now apply bytes_to_uint_be_digits].
  - apply uint_to_bytes_overflow.
Qed.

Lemma uint_to_bytes_round_trip_witness :
  0 <= 9013 < 2 ^ 32
  /\ (exists bs : bytes,
        uint_to_bytes 9013 = Ok bs /\ length bs = 4%nat /\ bytes_to_uint bs = 9013)
  /\ ~ 0 <= 2 ^ 32 < 2 ^ 32
  /\ uint_to_bytes (2 ^ 32) = Raise OverflowError.
Proof.
  assert (H1 : 0 <= 9013 < 2 ^ 32) by (split; [discriminate | reflexivity]).
  assert (H2 : ~ 0 <= 2 ^ 32 < 2 ^ 32) by (intros [_ H]; discriminate H).
  split; [exact H1|].
  split; [exact (proj1 (uint_to_bytes_round_trip 9013) H1)|].
  split; [exact H2|].
  exact (proj2 (uint_to_bytes_round_trip (2 ^ 32)) H2).
Defined.

(** X2. Every sequence of four bytes is what [uint_to_bytes] makes of the
    number [bytes_to_uint] reads from it. *)
Theorem bytes_to_uint_round_trip :
  forall bs : bytes,
    length bs = 4%nat -> uint_to_bytes (bytes_to_uint bs) = Ok bs.
Proof.
  intros bs H. unfold bytes_to_uint.
  pose proof (int_from_bytes_range bs) as Hr. unfold len in Hr.
  rewrite H in Hr. change (256 ^ Z.of_nat 4) with (2 ^ 32) in Hr.
  rewrite uint_to_bytes_ok by assumption.
  now rewrite <- H, be_digits_int_from_bytes.
Qed.

Lemma bytes_to_uint_round_trip_witness :
  length [x00; x06; x07; xaf] = 4%nat
  /\ uint_to_bytes (bytes_to_uint [x00; x06; x07; xaf]) = Ok [x00; x06; x07; xaf].
Proof.
  split; [reflexivity|].
  exact (bytes_to_uint_round_trip [x00; x06; x07; xaf] eq_refl).
Defined.

(** X3. [bytes_to_uint] reads a sequence of any length as a big-endian
    number: the number of a concatenation is the number of the first
    part shifted by the length of the second, plus the number of the
    second; and the number of [n] bytes is below [256^n] (the empty
    sequence reads as 0). *)
Theorem bytes_to_uint_app :
  forall b1 b2 : bytes,
    bytes_to_uint (b1 ++ b2)
    = bytes_to_uint b1 * 256 ^ len b2 + bytes_to_uint b2
    /\ 0 <= bytes_to_uint b2 < 256 ^ len b2.
Proof.
  intros b1 b2. split; [|apply int_from_bytes_range].
  unfold bytes_to_uint.
  induction b2 as [|b b2 IH] using rev_ind.
  - rewrite app_nil_r. cbn. lia.
  - rewrite app_assoc, !int_from_bytes_snoc, IH, len_app.
    change (len [b]) with 1. rewrite Z.pow_add_r by (try apply len_nonneg; lia).
    lia.
Qed.

(** ** Record marks and framing *)

Lemma lor_lower (y x : Z) : 0 <= x -> y <= Z.lor y x.
Proof.
  intros Hx. pose proof (Z.sub_lor_l_same_l x y) as H.
  assert (0 <= Z.land x (Z.lnot y)) by (apply Z.land_nonneg; now left). lia.
Qed.

Lemma lor_last_fragment (size : Z) :
  0 <= size < 2 ^ 31 -> Z.lor size 0x80000000 = size + 2 ^ 31.
Proof.
  intros H. destruct (last_fragment_word size H) as (Hr & _ & Hl).
  change 0x7FFFFFFF with (Z.ones 31) in Hl. rewrite Z.land_ones in Hl by lia.
  pose proof (lor_lower 0x80000000 size ltac:(lia)) as Hlow.
  rewrite Z.lor_comm in Hlow. change 0x80000000 with (2 ^ 31) in *.
  pose proof (Z.div_mod (Z.lor size (2 ^ 31)) (2 ^ 31) ltac:(lia)) as Hdm.
  assert (Z.lor size (2 ^ 31) / 2 ^ 31 = 1); [|lia].
  assert (1 <= Z.lor size (2 ^ 31) / 2 ^ 31)
    by (apply Z.div_le_lower_bound; lia).
  assert (Z.lor size (2 ^ 31) / 2 ^ 31 < 2)
    by (apply Z.div_lt_upper_bound; lia).
  lia.
Qed.

(** X4. The size header holds a length only up to 31 bits: a length of
    [2^31] or more (below [2^32]) gives the header of that length less
    [2^31], because the last-fragment flag takes bit 31; from [2^32] on
    the function raises [OverflowError]. *)
Theorem generate_packet_size_header_bounds :
  forall size : Z,
    (0 <= size < 2 ^ 31 ->
     generate_packet_size_header (size + 2 ^ 31)
     = generate_packet_size_header size
     /\ generate_packet_size_header size = Ok (be_digits 4 (size + 2 ^ 31)))
    /\ (2 ^ 32 <= size -> generate_packet_size_header size = Raise OverflowError).
Proof.
  intros size. split.
  - intros H. unfold generate_packet_size_header.
    rewrite <- (lor_last_fragment size H), <- Z.lor_assoc, Z.lor_diag.
    split; [reflexivity|]. apply uint_to_bytes_ok.
    now apply last_fragment_word.
  - intros H. unfold generate_packet_size_header.
    apply uint_to_bytes_overflow.
    pose proof (lor_lower size 0x80000000 ltac:(lia)). lia.
Qed.

Lemma generate_packet_size_header_bounds_witness :
  0 <= 28 < 2 ^ 31
  /\ generate_packet_size_header (28 + 2 ^ 31) = generate_packet_size_header 28
  /\ 2 ^ 32 <= 2 ^ 32 + 28
  /\ generate_packet_size_header (2 ^ 32 + 28) = Raise OverflowError.
Proof.
  assert (H1 : 0 <= 28 < 2 ^ 31) by (split; [discriminate | reflexivity]).
  assert (H2 : 2 ^ 32 <= 2 ^ 32 + 28) by discriminate.
  split; [exact H1|].
  split; [exact (proj1 (proj1 (generate_packet_size_header_bounds 28) H1))|].
  split; [exact H2|].
  exact (proj2 (generate_packet_size_header_bounds (2 ^ 32 + 28)) H2).
Defined.

(** X5. On UDP [generate_resp_data] never fails and returns the reply
    header followed by the body, [len xid + 20 + len resp] bytes; on TCP
    it returns the same bytes behind the 4-byte record mark of their
    length, as long as that length is below [2^31]. *)
Theorem generate_resp_data_udp_tcp :
  forall xid resp : bytes,
    let datagram := generate_rpc_header xid ++ resp in
    generate_resp_data xid resp true = Ok datagram
    /\ len datagram = len xid + 20 + len resp
    /\ (len datagram < 2 ^ 31 ->
        generate_resp_data xid resp false = Ok (record_marked datagram)
        /\ slice_from (record_marked datagram) 4 = datagram).
Proof.
  intros xid resp datagram. split; [reflexivity|]. split.
  - unfold datagram. now rewrite len_app, len_generate_rpc_header.
  - intros H. split; [now apply generate_resp_data_tcp|].
    unfold record_marked.
    set (mark := be_digits 4 (Z.lor (len datagram) 0x80000000)).
    replace 4 with (len mark); [apply slice_from_app|].
    unfold len, mark. now rewrite length_be_digits.
Qed.

Lemma generate_resp_data_udp_tcp_witness :
  let datagram := generate_rpc_header sample_xid ++ [x00; x00; x23; x32] in
  len datagram < 2 ^ 31
  /\ generate_resp_data sample_xid [x00; x00; x23; x32] false
     = Ok (record_marked datagram).
Proof.
  intros datagram.
  assert (H : len datagram < 2 ^ 31) by reflexivity.
  split; [exact H|].
  exact (proj1 (proj2 (proj2 (generate_resp_data_udp_tcp sample_xid
                                [x00; x00; x23; x32])) H)).
Defined.

(** ** The port mapper on every input *)

Lemma uint_to_bytes_inv (num : Z) (bs : bytes) :
  uint_to_bytes num = Ok bs -> bs = be_digits 4 num /\ length bs = 4%nat.
Proof.
  unfold uint_to_bytes, int_to_bytes.
  destruct ((0 <=? num) && (num <? 256 ^ Z.of_nat 4)); [|discriminate].
  intros H. injection H as <-. split; reflexivity.
Qed.

Lemma is_vxi11_getport_inside (rx_packet : bytes) :
  is_vxi11_getport rx_packet = true -> 0x28 < len rx_packet.
Proof.
  unfold is_vxi11_getport. intros H. apply andb_prop in H as [_ H].
  apply Z.eqb_eq in H. apply (field_inside rx_packet 0x28 0x2C).
  fold (get_program_id rx_packet). rewrite H. discriminate.
Qed.

(** The datagram handler, case by case. *)
Lemma process_rpcbind_request_udp_cases (vxi11_port : Value_I) (rx_data : bytes) :
  process_rpcbind_request_udp vxi11_port rx_data =
  if is_vxi11_getport rx_data then
    match uint_to_bytes (value vxi11_port) with
    | Ok resp =>
      ([EvSendTo (generate_rpc_header (get_xid rx_data) ++ resp)], Ok OK)
    | Raise e => ([], Raise e)
    end
  else if len rx_data >? 0 then
    ([], Ok (if get_procedure rx_data =? GET_PORT
             then NOT_VXI11_ERROR else NOT_GET_PORT_ERROR))
  else ([], Ok OK).
Proof.
  destruct (is_vxi11_getport rx_data) eqn:Eg.
  - pose proof (is_vxi11_getport_inside _ Eg) as Hlen.
    unfold is_vxi11_getport in Eg. apply andb_prop in Eg as [Ep Eq].
    unfold process_rpcbind_request_udp.
    destruct (Z.gtb_spec (len rx_data) 0) as [_|]; [|lia].
    rewrite Ep, Eq. cbn [negb]. unfold generate_rpcbind_response.
    now destruct (uint_to_bytes (value vxi11_port)).
  - unfold is_vxi11_getport in Eg. unfold process_rpcbind_request_udp.
    destruct (len rx_data >? 0); [|reflexivity].
    destruct (get_procedure rx_data =? GET_PORT); [|reflexivity].
    cbn [andb] in Eg. rewrite Eg. reflexivity.
Qed.

(** The connection handler, case by case. *)
Lemma process_rpcbind_request_tcp_cases (vxi11_port : Value_I) (rx_data : bytes) :
  let msg := slice_from rx_data 0x04 in
  process_rpcbind_request_tcp vxi11_port rx_data =
  if is_vxi11_getport msg then
    match uint_to_bytes (value vxi11_port) with
    | Ok resp =>
      ([EvSend (record_marked (generate_rpc_header (get_xid msg) ++ resp));
        EvClose], Ok OK)
    | Raise e => ([], Raise e)
    end
  else if len rx_data >? 4 then
    ([], Ok (if get_procedure msg =? GET_PORT
             then NOT_VXI11_ERROR else NOT_GET_PORT_ERROR))
  else ([EvClose], Ok OK).
Proof.
  intros msg. destruct (is_vxi11_getport msg) eqn:Eg.
  - pose proof (is_vxi11_getport_inside _ Eg) as Hlen.
    assert (Hrx : 4 < len rx_data).
    { unfold msg, slice_from, len in Hlen. rewrite length_skipn in Hlen.
      unfold len. lia. }
    unfold is_vxi11_getport in Eg. apply andb_prop in Eg as [Ep Eq].
    unfold process_rpcbind_request_tcp. fold msg.
    destruct (Z.gtb_spec (len rx_data) 4) as [_|]; [|lia].
    rewrite Ep, Eq. cbn [negb]. unfold generate_rpcbind_response.
    destruct (uint_to_bytes (value vxi11_port)) as [resp|e] eqn:Eu;
      [|reflexivity].
    apply uint_to_bytes_inv in Eu as [_ Hl].
    cbn [lift io_bind app]. rewrite generate_resp_data_reply.
    + reflexivity.
    + unfold len. rewrite Hl. reflexivity.
  - unfold is_vxi11_getport in Eg. unfold process_rpcbind_request_tcp. fold msg.
    destruct (len rx_data >? 4); [|reflexivity].
    destruct (get_procedure msg =? GET_PORT); [|reflexivity].
    cbn [andb] in Eg. rewrite Eg. reflexivity.
Qed.

(** X6. The two handlers agree: on a 4-byte record mark followed by a
    message, the connection handler returns (or raises) what the datagram
    handler does on the message alone, and sends the same replies, each
    behind the record mark of its length. *)
Theorem portmapper_tcp_udp_agree :
  forall (vxi11_port : Value_I) (mark msg : bytes),
    length mark = 4%nat ->
    let tcp := process_rpcbind_request_tcp vxi11_port (mark ++ msg) in
    let udp := process_rpcbind_request_udp vxi11_port msg in
    snd tcp = snd udp
    /\ sent (fst tcp) = map record_marked (sent (fst udp)).
Proof.
  intros vxi11_port mark msg Hmark tcp udp. subst tcp udp.
  assert (Hmsg : slice_from (mark ++ msg) 0x04 = msg).
  { change 0x04 with (Z.of_nat 4). rewrite <- Hmark. apply slice_from_app. }
  assert (Hlen : (len (mark ++ msg) >? 4) = (len msg >? 0)).
  { rewrite len_app. unfold len at 1. rewrite Hmark.
    change (Z.of_nat 4) with 4.
    destruct (Z.gtb_spec (4 + len msg) 4);
      destruct (Z.gtb_spec (len msg) 0); try reflexivity; lia. }
  rewrite process_rpcbind_request_tcp_cases, process_rpcbind_request_udp_cases.
  cbv zeta. rewrite Hmsg, Hlen.
  destruct (is_vxi11_getport msg).
  - destruct (uint_to_bytes (value vxi11_port)); split; reflexivity.
  - destruct (len msg >? 0); split; reflexivity.
Qed.

Lemma portmapper_tcp_udp_agree_witness :
  length [x80; x00; x00; x38] = 4%nat
  /\ sent (fst (process_rpcbind_request_tcp (new_Value_I 9010)
                  ([x80; x00; x00; x38] ++ sample_getport)))
     = map record_marked
         (sent (fst (process_rpcbind_request_udp (new_Value_I 9010)
                       sample_getport))).
Proof.
  split; [reflexivity|].
  exact (proj2 (portmapper_tcp_udp_agree (new_Value_I 9010)
                  [x80; x00; x00; x38] sample_getport eq_refl)).
Defined.

(** X7. Whatever bytes arrive, and whatever was stored in the port cell,
    neither handler raises: it returns one of the three status codes and
    sends at most one reply. *)
Theorem portmapper_never_raises :
  forall (on_udp : bool) (v : Z) (rx_data : bytes),
    let handler := if on_udp then process_rpcbind_request_udp
                   else process_rpcbind_request_tcp in
    exists (t : list event) (status : Z),
      handler (new_Value_I v) rx_data = (t, Ok status)
      /\ In status [OK; NOT_VXI11_ERROR; NOT_GET_PORT_ERROR]
      /\ (length (sent t) <= 1)%nat
      /\ (sent t <> [] -> status = OK).
Proof.
  intros on_udp v rx_data handler. subst handler.
  pose proof (value_new_Value_I_range v) as Hv.
  destruct on_udp.
  - rewrite process_rpcbind_request_udp_cases, uint_to_bytes_ok by assumption.
    destruct (is_vxi11_getport rx_data); [|destruct (len rx_data >? 0);
      [destruct (get_procedure rx_data =? GET_PORT)|]];
      eexists _, _; (split; [reflexivity|]); cbn; intuition.
  - rewrite process_rpcbind_request_tcp_cases. cbv zeta.
    rewrite uint_to_bytes_ok by assumption.
    destruct (is_vxi11_getport (slice_from rx_data 4));
      [|destruct (len rx_data >? 4);
        [destruct (get_procedure (slice_from rx_data 4) =? GET_PORT)|]];
      eexists _, _; (split; [reflexivity|]); cbn; intuition.
Qed.

(** X8. A request that is not a GETPORT for VXI-11 Core never gets a
    reply, and the port cell plays no part in the outcome.  The procedure
    is tested before the program: the status is [NOT_GET_PORT_ERROR] for
    any other procedure, [NOT_VXI11_ERROR] for a GETPORT about another
    program, and [OK] when no message was received at all (an empty
    datagram, a read of at most four bytes) -- the one case in which the
    connection handler closes the connection. *)
Theorem portmapper_refusal :
  forall (on_udp : bool) (vxi11_port : Value_I) (rx_data : bytes),
    let handler := if on_udp then process_rpcbind_request_udp
                   else process_rpcbind_request_tcp in
    let msg := if on_udp then rx_data else slice_from rx_data 0x04 in
    is_vxi11_getport msg = false ->
    exists t : list event,
      handler vxi11_port rx_data
      = (t, Ok (if len msg >? 0
                then if get_procedure msg =? GET_PORT
                     then NOT_VXI11_ERROR else NOT_GET_PORT_ERROR
                else OK))
      /\ sent t = []
      /\ closed t = negb on_udp && negb (len msg >? 0).
Proof.
  intros on_udp vxi11_port rx_data handler msg Hno. subst handler msg.
  destruct on_udp.
  - rewrite process_rpcbind_request_udp_cases, Hno.
    destruct (len rx_data >? 0); eexists; repeat split.
  - rewrite process_rpcbind_request_tcp_cases. cbv zeta. rewrite Hno.
    assert (Hlen : (len (slice_from rx_data 4) >? 0) = (len rx_data >? 4)).
    { unfold slice_from, len. rewrite length_skipn.
      destruct (Z.gtb_spec (Z.of_nat (length rx_data)) 4);
        destruct (Z.gtb_spec
                    (Z.of_nat (length rx_data
                               - Z.to_nat (Z.min 4 (Z.of_nat (length rx_data))))) 0);
        try reflexivity; lia. }
    rewrite Hlen.
    destruct (len rx_data >? 4); eexists; repeat split.
Qed.

Lemma portmapper_refusal_witness :
  is_vxi11_getport (slice_from (record_marked sample_getport_nfs) 0x04) = false
  /\ exists t : list event,
       process_rpcbind_request_tcp (new_Value_I 9010)
         (record_marked sample_getport_nfs) = (t, Ok NOT_VXI11_ERROR)
       /\ sent t = [] /\ closed t = false.
Proof.
  assert (H : is_vxi11_getport
                (slice_from (record_marked sample_getport_nfs) 0x04) = false)
    by reflexivity.
  split; [exact H|].
  exact (portmapper_refusal false (new_Value_I 9010)
           (record_marked sample_getport_nfs) H).
Defined.

(** X9. The loop of [run] serves every request it receives: whatever the
    requests are, it does not stop on one that is refused, and the
    replies it sends are, in order, one for each GETPORT for VXI-11 Core,
    carrying the value the port cell held when that request was
    handled. *)
Theorem run_replies :
  forall (on_udp : bool) (requests : list (Value_I * bytes)),
    Forall (fun r => 0 <= value (fst r) < 2 ^ 32) requests ->
    let msg_of (rx_data : bytes) :=
      if on_udp then rx_data else slice_from rx_data 0x04 in
    let frame (d : bytes) := if on_udp then d else record_marked d in
    snd (run on_udp requests) = Ok tt
    /\ sent (fst (run on_udp requests))
       = flat_map
           (fun r =>
              if is_vxi11_getport (msg_of (snd r))
              then [frame (generate_rpc_header (get_xid (msg_of (snd r)))
                           ++ be_digits 4 (value (fst r)))]
              else [])
           requests.
Proof.
  intros on_udp requests Hv msg_of frame. subst msg_of frame.
  induction Hv as [|[vxi11_port rx_data] requests Hx Hv [IHr IHs]].
  - split; reflexivity.
  - cbn [fst snd] in *. cbn [run flat_map fst snd].
    destruct (run on_udp requests) as [t r]. cbn [fst snd] in IHr, IHs.
    subst r. destruct on_udp.
    + rewrite process_rpcbind_request_udp_cases, uint_to_bytes_ok by assumption.
      destruct (is_vxi11_getport rx_data);
        [|destruct (len rx_data >? 0)];
        cbn [io_bind fst snd app]; (split; [reflexivity|]);
        rewrite <- IHs; reflexivity.
    + rewrite process_rpcbind_request_tcp_cases. cbv zeta.
      rewrite uint_to_bytes_ok by assumption.
      destruct (is_vxi11_getport (slice_from rx_data 4));
        [|destruct (len rx_data >? 4)];
        cbn [io_bind fst snd app]; (split; [reflexivity|]);
        rewrite <- IHs; reflexivity.
Qed.

Lemma run_replies_witness :
  let requests := [(new_Value_I 9010, sample_getport_nfs);
                   (new_Value_I 9011, sample_getport)] in
  Forall (fun r => 0 <= value (fst r) < 2 ^ 32) requests
  /\ snd (run true requests) = Ok tt
  /\ sent (fst (run true requests))
     = [generate_rpc_header sample_xid ++ be_digits 4 9011].
Proof.
  intros requests.
  assert (H : Forall (fun r => 0 <= value (fst r) < 2 ^ 32) requests).
  { repeat constructor; cbn; discriminate. }
  split; [exact H|].
  destruct (run_replies true requests H) as [Hr Hs].
  split; [exact Hr|]. rewrite Hs. reflexivity.
Defined.

(** ** The sequence of ports *)

(** X10. Two teardown counts leave the same port in the cell exactly
    when they are congruent modulo the size of the range, so a port comes
    back only after all others were used; with at least two ports in the
    range, every teardown moves the service to a different port. *)
Theorem rotation_reuses_port_after_full_cycle :
  forall (port_start port_end : Z) (i j : nat),
    0 <= port_start -> port_start <= port_end -> port_end + 1 < 2 ^ 32 ->
    let port (n : nat) :=
      value (Nat.iter n (rotate_port port_start port_end)
               (new_Value_I port_start)) in
    let size := port_end - port_start + 1 in
    (port i = port j <-> Z.of_nat i mod size = Z.of_nat j mod size)
    /\ (port_start < port_end -> port (S i) <> port i).
Proof.
  intros port_start port_end i j H0 Hle He port size. subst port size.
  cbv beta. rewrite !rotate_port_iter by assumption. split; [lia|].
  intros Hlt. rewrite Nat2Z.inj_succ, <- Z.add_1_r, succ_mod by lia.
  pose proof (Z.mod_pos_bound (Z.of_nat i) (port_end - port_start + 1)
                ltac:(lia)).
  destruct (Z.gtb_spec (Z.of_nat i mod (port_end - port_start + 1) + 1)
              (port_end - port_start + 1 - 1)); lia.
Qed.

Lemma rotation_reuses_port_after_full_cycle_witness :
  0 <= 9010 /\ 9010 <= 9019 /\ 9019 + 1 < 2 ^ 32 /\ 9010 < 9019
  /\ value (Nat.iter 4 (rotate_port 9010 9019) (new_Value_I 9010))
     <> value (Nat.iter 3 (rotate_port 9010 9019) (new_Value_I 9010)).
Proof.
  assert (H0 : 0 <= 9010) by discriminate.
  assert (Hle : 9010 <= 9019) by discriminate.
  assert (He : 9019 + 1 < 2 ^ 32) by reflexivity.
  assert (Hlt : 9010 < 9019) by reflexivity.
  split; [exact H0 | split; [exact Hle | split; [exact He | split; [exact Hlt|]]]].
  exact (proj2 (rotation_reuses_port_after_full_cycle 9010 9019 3 3 H0 Hle He)
           Hlt).
Defined.

(** X11. With a range whose end lies below its start, the rotation puts
    the cell back to [port_start] every time: the service stays on one
    port. *)
Theorem rotation_empty_range :
  forall (port_start port_end : Z) (N : nat),
    0 <= port_start -> port_start + 1 < 2 ^ 32 -> port_end < port_start ->
    value (Nat.iter N (rotate_port port_start port_end) (new_Value_I port_start))
    = port_start.
Proof.
  intros port_start port_end N H0 Hs Hlt. induction N as [|N IH].
  - change (port_start mod 2 ^ 32 = port_start). apply Z.mod_small. lia.
  - rewrite Nat.iter_succ.
    destruct (Nat.iter N (rotate_port port_start port_end) (new_Value_I port_start))
      as [v]. cbn [value] in IH. subst v.
    unfold rotate_port, set_value. cbn [value].
    rewrite (Z.mod_small (port_start + 1)) by lia.
    destruct (Z.gtb_spec (port_start + 1) port_end); [|lia].
    cbn [value]. apply Z.mod_small. lia.
Qed.

Lemma rotation_empty_range_witness :
  0 <= 9019 /\ 9019 + 1 < 2 ^ 32 /\ 9010 < 9019
  /\ value (Nat.iter 5 (rotate_port 9019 9010) (new_Value_I 9019)) = 9019.
Proof.
  assert (H0 : 0 <= 9019) by discriminate.
  assert (Hs : 9019 + 1 < 2 ^ 32) by reflexivity.
  assert (Hlt : 9010 < 9019) by reflexivity.
  split; [exact H0 | split; [exact Hs | split; [exact Hlt|]]].
  exact (rotation_empty_range 9019 9010 5 H0 Hs Hlt).
Defined.

Section MainLoopTrace.

Variable Awg : Type.
Variable parse_scpi_command : option str -> Awg -> result Awg.

Lemma listened_app (t1 t2 : list event) :
  listened (t1 ++ t2) = listened t1 ++ listened t2.
Proof.
  induction t1 as [|e t1 IH]; [reflexivity|].
  destruct e; cbn [app listened]; rewrite IH; reflexivity.
Qed.

Lemma lxi_loop_listened (recvs : list bytes) (awg : Awg) :
  listened (fst (lxi_loop parse_scpi_command recvs awg)) = [].
Proof.
  revert awg. induction recvs as [|rx_buf recvs IH]; intros awg; [reflexivity|].
  rewrite lxi_loop_cons.
  destruct (lxi_request_outcome Awg parse_scpi_command rx_buf awg) as
    [Hz | Hpos Hprog | Hprog Hproc | e Hprog Hproc
     | mark body awg' Hprog Hproc Hmark | mark body Hprog Hproc Hmark];
    cbn [io_bind io_ret fst app]; try reflexivity.
  - specialize (IH awg).
    destruct (lxi_loop parse_scpi_command recvs awg). exact IH.
  - specialize (IH awg').
    destruct (lxi_loop parse_scpi_command recvs awg'). exact IH.
Qed.

Lemma process_lxi_requests_listened (recvs : list bytes) (awg : Awg) :
  listened (fst (process_lxi_requests parse_scpi_command recvs awg)) = [].
Proof.
  unfold process_lxi_requests.
  pose proof (lxi_loop_listened recvs awg) as H.
  destruct (lxi_loop parse_scpi_command recvs awg) as [t [[a|a]|e]];
    cbn [io_bind io_ret emit fst] in *; rewrite ?listened_app, ?H; reflexivity.
Qed.

(** The listeners [main_loop] opens are on the ports the rotation goes
    through, one for each teardown. *)
Lemma main_loop_listened (port_start port_end : Z) (sessions : list (list bytes))
  (vxi11_port : Value_I) (awg : Awg) :
  let t := fst (main_loop parse_scpi_command port_start port_end sessions
                  vxi11_port awg) in
  listened t
  = map (fun k => value (Nat.iter k (rotate_port port_start port_end) vxi11_port))
      (seq 1 (teardowns t)).
Proof.
  cbv zeta. revert vxi11_port awg.
  induction sessions as [|recvs sessions IH]; intros vxi11_port awg.
  - reflexivity.
  - cbn [main_loop].
    pose proof (process_lxi_requests_teardowns Awg parse_scpi_command recvs awg)
      as Ht.
    pose proof (process_lxi_requests_listened recvs awg) as Hl.
    destruct (process_lxi_requests parse_scpi_command recvs awg)
      as [ts [[a|a]|e]]; cbn [fst] in Ht, Hl;
      cbn [io_bind io_ret emit app fst].
    + specialize (IH (rotate_port port_start port_end vxi11_port) a).
      destruct (main_loop parse_scpi_command port_start port_end sessions
                  (rotate_port port_start port_end vxi11_port) a) as [tm r].
      cbn [fst] in *.
      rewrite listened_app, teardowns_app, Hl, Ht.
      cbn [app listened teardowns Nat.add seq map]. rewrite IH.
      f_equal. rewrite <- (seq_shift (teardowns tm) 1), map_map.
      apply map_ext. intros k. now rewrite Nat.iter_succ_r.
    + rewrite app_nil_r, Hl, Ht. reflexivity.
    + rewrite Hl, Ht. reflexivity.
Qed.

End MainLoopTrace.

(** X12. Whatever the sessions are and however [main_loop] ends, the
    listener it opens after the k-th teardown is on port
    [port_start + k mod (port_end - port_start + 1)]: every listener is
    on a port of the range, and there is one for each teardown. *)
Theorem main_loop_ports :
  forall (Awg : Type) (parse_scpi_command : option str -> Awg -> result Awg)
         (port_start port_end : Z) (sessions : list (list bytes)) (awg : Awg),
    0 <= port_start -> port_start <= port_end -> port_end + 1 < 2 ^ 32 ->
    let t := fst (main_loop parse_scpi_command port_start port_end sessions
                    (new_Value_I port_start) awg) in
    listened t
    = map (fun k => port_start + Z.of_nat k mod (port_end - port_start + 1))
        (seq 1 (teardowns t))
    /\ Forall (fun port => port_start <= port <= port_end) (listened t).
Proof.
  intros Awg parse_scpi_command port_start port_end sessions awg H0 Hle He t.
  assert (Heq : listened t
                = map (fun k => port_start
                                + Z.of_nat k mod (port_end - port_start + 1))
                    (seq 1 (teardowns t))).
  { unfold t. rewrite main_loop_listened. apply map_ext.
    intros k. now apply rotate_port_iter. }
  split; [exact Heq|]. rewrite Heq. apply Forall_map, Forall_forall.
  intros k _.
  pose proof (Z.mod_pos_bound (Z.of_nat k) (port_end - port_start + 1)
                ltac:(lia)). lia.
Qed.

Lemma main_loop_ports_witness :
  let t := fst (main_loop sample_parser 9010 9011
                  [[sample_destroy_link]; [sample_unknown_procedure];
                   [sample_create_link; sample_destroy_link]]
                  (new_Value_I 9010) None) in
  0 <= 9010 /\ 9010 <= 9011 /\ 9011 + 1 < 2 ^ 32
  /\ listened t = [9011; 9010; 9011].
Proof.
  intros t.
  assert (H0 : 0 <= 9010) by discriminate.
  assert (Hle : 9010 <= 9011) by discriminate.
  assert (He : 9011 + 1 < 2 ^ 32) by reflexivity.
  split; [exact H0 | split; [exact Hle | split; [exact He|]]].
  unfold t.
  rewrite (proj1 (main_loop_ports _ sample_parser 9010 9011 _ None H0 Hle He)).
  reflexivity.
Defined.

(** ** Sessions on every input *)

Section Session.

Variable Awg : Type.
Variable parse_scpi_command : option str -> Awg -> result Awg.

Abbreviation program_of rx := (bytes_to_uint (slice rx 0x10 0x14)).
Abbreviation procedure_of rx := (bytes_to_uint (slice rx 0x18 0x1c)).

(** A run of the loop continues from where a run on the first receives
    left it. *)
Lemma lxi_loop_app (before after : list bytes) (awg awgb : Awg) (tb : list event) :
  lxi_loop parse_scpi_command before awg = (tb, Ok (In_recv awgb)) ->
  lxi_loop parse_scpi_command (before ++ after) awg
  = (tb ++ fst (lxi_loop parse_scpi_command after awgb),
     snd (lxi_loop parse_scpi_command after awgb)).
Proof.
  revert awg tb. induction before as [|rx_buf before IH]; intros awg tb Hrun.
  - injection Hrun as <- <-. cbn [app].
    now destruct (lxi_loop parse_scpi_command after awg).
  - cbn [app]. rewrite lxi_loop_cons in *.
    destruct (lxi_request parse_scpi_command rx_buf awg) as [t1 [[[|] a]|e]];
      cbn [io_bind io_ret] in *; try discriminate.
    destruct (lxi_loop parse_scpi_command before a) as [t2 r2] eqn:E.
    injection Hrun as <- ->. rewrite (IH _ _ E). cbn [io_bind].
    now rewrite app_assoc.
Qed.

(** The trace of the loop holds nothing but replies. *)
Lemma lxi_loop_only_sends (recvs : list bytes) (awg : Awg) :
  let t := fst (lxi_loop parse_scpi_command recvs awg) in
  t = map EvSend (sent t).
Proof.
  cbv zeta. revert awg.
  induction recvs as [|rx_buf recvs IH]; intros awg; [reflexivity|].
  rewrite lxi_loop_cons.
  destruct (lxi_request_outcome Awg parse_scpi_command rx_buf awg) as
    [Hz | Hpos Hprog | Hprog Hproc | e Hprog Hproc
     | mark body awg' Hprog Hproc Hmark | mark body Hprog Hproc Hmark];
    cbn [io_bind io_ret fst app]; try reflexivity.
  - specialize (IH awg).
    destruct (lxi_loop parse_scpi_command recvs awg). exact IH.
  - specialize (IH awg').
    destruct (lxi_loop parse_scpi_command recvs awg') as [t r].
    cbn [fst] in *. change (sent (EvSend ?d :: t)) with (d :: sent t).
    cbn [map]. now rewrite <- IH.
Qed.

(** Every reply of the loop is a reply to one of the received records. *)
Lemma lxi_loop_sent_request (recvs : list bytes) (awg : Awg) (d : bytes) :
  In d (sent (fst (lxi_loop parse_scpi_command recvs awg))) ->
  exists rx_buf awg0,
    In rx_buf recvs
    /\ In d (sent (fst (lxi_request parse_scpi_command rx_buf awg0))).
Proof.
  revert awg. induction recvs as [|rx_buf recvs IH]; intros awg Hin.
  - contradiction.
  - rewrite lxi_loop_cons in Hin.
    destruct (lxi_request parse_scpi_command rx_buf awg)
      as [t1 [[[|] a]|e]] eqn:E; cbn [io_bind io_ret fst] in Hin.
    + destruct (lxi_loop parse_scpi_command recvs a) as [t2 r2] eqn:E2.
      cbn [fst] in Hin. rewrite sent_app in Hin.
      apply in_app_or in Hin as [Hin|Hin].
      * exists rx_buf, awg. split; [now left | now rewrite E].
      * destruct (IH a) as (rx & a0 & Hrx & H); [now rewrite E2|].
        exists rx, a0. split; [now right | exact H].
    + rewrite app_nil_r in Hin. exists rx_buf, awg.
      split; [now left | now rewrite E].
    + exists rx_buf, awg. split; [now left | now rewrite E].
Qed.

End Session.

(** X13. A record of another program stops the whole server, wherever it
    comes in a session: [main_loop] ends with the [ValueError], after the
    replies to the records before it and nothing else -- the connection
    is not closed, the listener is not torn down, the port is not
    rotated, and the sessions that would follow are never served. *)
Theorem main_loop_stops_on_foreign_record :
  forall (Awg : Type) (parse_scpi_command : option str -> Awg -> result Awg)
         (port_start port_end : Z) (vxi11_port : Value_I)
         (before : list bytes) (rx_buf : bytes) (after : list bytes)
         (sessions : list (list bytes)) (awg awgb : Awg) (tb : list event),
    lxi_loop parse_scpi_command before awg = (tb, Ok (In_recv awgb)) ->
    len rx_buf > 0 ->
    bytes_to_uint (slice rx_buf 0x10 0x14) <> VXI11_CORE_ID ->
    main_loop parse_scpi_command port_start port_end
      ((before ++ rx_buf :: after) :: sessions) vxi11_port awg
    = (tb, Raise ValueError)
    /\ tb = map EvSend (sent tb).
Proof.
  intros Awg parse_scpi_command port_start port_end vxi11_port before rx_buf
    after sessions awg awgb tb Hb Hlen Hprog.
  split.
  - cbn [main_loop]. unfold process_lxi_requests.
    rewrite (lxi_loop_app _ _ _ _ _ _ _ Hb), lxi_loop_cons,
      lxi_request_not_vxi11 by assumption.
    cbn [io_bind fst snd]. now rewrite app_nil_r.
  - pose proof (lxi_loop_only_sends Awg parse_scpi_command before awg) as H.
    cbv zeta in H. now rewrite Hb in H.
Qed.

Lemma main_loop_stops_on_foreign_record_witness :
  exists tb : list event,
    lxi_loop sample_parser [sample_create_link] None = (tb, Ok (In_recv None))
    /\ len sample_foreign_call > 0
    /\ bytes_to_uint (slice sample_foreign_call 0x10 0x14) <> VXI11_CORE_ID
    /\ main_loop sample_parser 9010 9019
         (([sample_create_link] ++ sample_foreign_call :: [sample_destroy_link])
            :: [[sample_destroy_link]]) (new_Value_I 9010) None
       = (tb, Raise ValueError).
Proof.
  exists (fst (lxi_loop sample_parser [sample_create_link] None)).
  assert (Hb : lxi_loop sample_parser [sample_create_link] None
               = (fst (lxi_loop sample_parser [sample_create_link] None),
                  Ok (In_recv None))) by reflexivity.
  assert (Hlen : len sample_foreign_call > 0) by reflexivity.
  assert (Hprog : bytes_to_uint (slice sample_foreign_call 0x10 0x14)
                  <> VXI11_CORE_ID) by (vm_compute; discriminate).
  split; [exact Hb | split; [exact Hlen | split; [exact Hprog|]]].
  exact (proj1 (main_loop_stops_on_foreign_record _ sample_parser 9010 9019
                  (new_Value_I 9010) [sample_create_link] sample_foreign_call
                  [sample_destroy_link] [[sample_destroy_link]] None None _
                  Hb Hlen Hprog)).
Defined.

(** X14. What [parse_lxi_request] returns, for every buffer.  For another
    program: the tuple of three values.  For VXI-11 Core: a tuple of four
    with the procedure read from the buffer, a command length below
    [2^32], a command exactly for CREATE_LINK and DEVICE_WRITE, and a
    status that is [OK] exactly when [LXI_PROCEDURES] has the procedure
    (so the lookup made by the caller cannot fail); or it raises, and
    then it is a [UnicodeDecodeError] on a CREATE_LINK or a
    DEVICE_WRITE. *)
Theorem parse_lxi_request_cases :
  forall rx_data : bytes,
    let program_id := bytes_to_uint (slice rx_data 0x10 0x14) in
    let vxi11_procedure := bytes_to_uint (slice rx_data 0x18 0x1c) in
    (program_id <> VXI11_CORE_ID ->
     parse_lxi_request rx_data = Ok (Tuple3 NOT_VXI11_ERROR))
    /\ (program_id = VXI11_CORE_ID ->
        (parse_lxi_request rx_data = Raise UnicodeDecodeError
         /\ In vxi11_procedure [CREATE_LINK; DEVICE_WRITE])
        \/ exists (scpi_command : option str) (cmd_length : Z),
             parse_lxi_request rx_data
             = Ok (Tuple4 (match LXI_PROCEDURES vxi11_procedure with
                           | Some _ => OK
                           | None => UNKNOWN_COMMAND_ERROR
                           end)
                     vxi11_procedure scpi_command cmd_length)
             /\ 0 <= cmd_length < 2 ^ 32
             /\ (scpi_command <> None
                 <-> In vxi11_procedure [CREATE_LINK; DEVICE_WRITE])).
Proof.
  intros rx_data program_id vxi11_procedure. split.
  - intros H. unfold parse_lxi_request. fold program_id.
    destruct (Z.eqb_spec program_id VXI11_CORE_ID); [contradiction|].
    reflexivity.
  - intros H. unfold parse_lxi_request. fold program_id vxi11_procedure.
    rewrite H. cbn [Z.eqb Pos.eqb negb VXI11_CORE_ID]. unfold LXI_PROCEDURES.
    pose proof (field_range rx_data 0x38) as R1.
    pose proof (field_range rx_data 0x3C) as R2.
    change (0x38 + 4) with 0x3C in R1. change (0x3C + 4) with 0x40 in R2.
    destruct (Z.eqb_spec vxi11_procedure CREATE_LINK) as [E10|N10].
    { rewrite E10. cbn [Z.eqb Pos.eqb CREATE_LINK]. unfold decode_utf8.
      destruct (utf8_decode _) as [s|]; [right | left].
      - eexists _, _. split; [reflexivity|]. split; [exact R1|].
        split; [intros _; now left | discriminate].
      - split; [reflexivity | now left]. }
    destruct (Z.eqb_spec vxi11_procedure DEVICE_WRITE) as [E11|N11].
    { rewrite E11. cbn [Z.eqb Pos.eqb DEVICE_WRITE]. unfold decode_utf8.
      destruct (utf8_decode _) as [s|]; [right | left].
      - eexists _, _. split; [reflexivity|]. split; [exact R2|].
        split; [intros _; right; now left | discriminate].
      - split; [reflexivity | right; now left]. }
    right.
    assert (Hno : ~ In vxi11_procedure [CREATE_LINK; DEVICE_WRITE])
      by (intros [E|[E|[]]]; congruence).
    change 10 with CREATE_LINK. change 11 with DEVICE_WRITE.
    change 12 with DEVICE_READ. change 23 with DESTROY_LINK.
    destruct (Z.eqb_spec vxi11_procedure CREATE_LINK); [contradiction|].
    destruct (Z.eqb_spec vxi11_procedure DEVICE_WRITE); [contradiction|].
    destruct (vxi11_procedure =? DEVICE_READ);
      [|destruct (vxi11_procedure =? DESTROY_LINK)];
      eexists None, 0; (split; [reflexivity|]);
      (split; [lia|]); (split; [congruence | intros Hin; contradiction]).
Qed.

Lemma parse_lxi_request_cases_witness :
  bytes_to_uint (slice sample_device_write 0x10 0x14) = VXI11_CORE_ID
  /\ bytes_to_uint (slice sample_foreign_call 0x10 0x14) <> VXI11_CORE_ID
  /\ parse_lxi_request sample_foreign_call = Ok (Tuple3 NOT_VXI11_ERROR)
  /\ parse_lxi_request sample_device_write
     = Ok (Tuple4 OK DEVICE_WRITE (Some (map byte_val sample_command)) 16).
Proof.
  assert (H1 : bytes_to_uint (slice sample_device_write 0x10 0x14)
               = VXI11_CORE_ID) by reflexivity.
  assert (H2 : bytes_to_uint (slice sample_foreign_call 0x10 0x14)
               <> VXI11_CORE_ID) by (vm_compute; discriminate).
  split; [exact H1 | split; [exact H2|]].
  split; [exact (proj1 (parse_lxi_request_cases sample_foreign_call) H2)|].
  destruct (proj2 (parse_lxi_request_cases sample_device_write) H1)
    as [[Hr _]|(cmd & L & Hr & _)].
  - vm_compute in Hr. discriminate Hr.
  - reflexivity.
Defined.

Section SessionReplies.

Variable Awg : Type.
Variable parse_scpi_command : option str -> Awg -> result Awg.

Abbreviation program_of rx := (bytes_to_uint (slice rx 0x10 0x14)).
Abbreviation procedure_of rx := (bytes_to_uint (slice rx 0x18 0x1c)).

Lemma lxi_request_raise_cases (rx_buf : bytes) (awg : Awg) (t : list event) (e : exn) :
  lxi_request parse_scpi_command rx_buf awg = (t, Raise e) ->
  t = []
  /\ (program_of rx_buf <> VXI11_CORE_ID /\ e = ValueError
      \/ program_of rx_buf = VXI11_CORE_ID
         /\ (In (procedure_of rx_buf) [CREATE_LINK; DEVICE_WRITE]
             /\ e = UnicodeDecodeError
             \/ procedure_of rx_buf = DEVICE_WRITE
                /\ exists cmd, parse_scpi_command (Some cmd) awg = Raise e)).
Proof.
  intros Hrun.
  destruct (Z.eq_dec (len rx_buf) 0) as [Hz|Hz].
  { rewrite lxi_request_empty in Hrun by assumption. discriminate. }
  assert (Hpos : len rx_buf > 0) by (pose proof (len_nonneg rx_buf); lia).
  destruct (Z.eq_dec (program_of rx_buf) VXI11_CORE_ID) as [Hprog|Hprog].
  2: { rewrite lxi_request_not_vxi11 in Hrun by assumption.
       injection Hrun as <- <-. split; [reflexivity | now left]. }
  destruct (Z.eq_dec (procedure_of rx_buf) CREATE_LINK) as [H10|H10].
  { rewrite lxi_request_create_link in Hrun by assumption. cbv zeta in Hrun.
    destruct (utf8_decode _); [discriminate|]. injection Hrun as <- <-.
    split; [reflexivity|]. right. split; [assumption|]. left.
    split; [rewrite H10; now left | reflexivity]. }
  destruct (Z.eq_dec (procedure_of rx_buf) DEVICE_WRITE) as [H11|H11].
  { rewrite lxi_request_device_write in Hrun by assumption. cbv zeta in Hrun.
    destruct (utf8_decode _) as [cmd|].
    - destruct (parse_scpi_command (Some (strip cmd)) awg) as [a|e'] eqn:Ep;
        [discriminate|]. injection Hrun as <- <-.
      split; [reflexivity|]. right. split; [assumption|]. right.
      split; [assumption|]. now exists (strip cmd).
    - injection Hrun as <- <-.
      split; [reflexivity|]. right. split; [assumption|]. left.
      split; [rewrite H11; right; now left | reflexivity]. }
  destruct (Z.eq_dec (procedure_of rx_buf) DEVICE_READ) as [H12|H12].
  { rewrite lxi_request_device_read in Hrun by assumption. discriminate. }
  destruct (Z.eq_dec (procedure_of rx_buf) DESTROY_LINK) as [H23|H23].
  { rewrite lxi_request_destroy_link in Hrun by assumption. discriminate. }
  rewrite lxi_request_unknown in Hrun by assumption. discriminate.
Qed.

Lemma lxi_request_reply_shape (rx_buf : bytes) (awg : Awg) (d : bytes) :
  In d (sent (fst (lxi_request parse_scpi_command rx_buf awg))) ->
  length (slice rx_buf 4 8) = 4%nat
  /\ exists rest : bytes,
       In (len rest) [12; 4; 32; 0]
       /\ d = record_marked (generate_rpc_header (slice rx_buf 4 8)
                             ++ [x00; x00; x00; x00] ++ rest).
Proof.
  intros Hin.
  destruct (Z.eq_dec (len rx_buf) 0) as [Hz|Hz].
  { rewrite lxi_request_empty in Hin by assumption. contradiction. }
  assert (Hpos : len rx_buf > 0) by (pose proof (len_nonneg rx_buf); lia).
  destruct (Z.eq_dec (program_of rx_buf) VXI11_CORE_ID) as [Hprog|Hprog].
  2: { rewrite lxi_request_not_vxi11 in Hin by assumption. contradiction. }
  split; [apply (vxi11_record_xid _ Hprog)|].
  destruct (Z.eq_dec (procedure_of rx_buf) CREATE_LINK) as [H10|H10].
  { rewrite lxi_request_create_link in Hin by assumption. cbv zeta in Hin.
    destruct (utf8_decode _); [|contradiction].
    destruct Hin as [<-|[]].
    exists [x00; x00; x00; x00; x00; x00; x00; x00; x00; x80; x00; x00].
    split; [now left | reflexivity]. }
  destruct (Z.eq_dec (procedure_of rx_buf) DEVICE_WRITE) as [H11|H11].
  { rewrite lxi_request_device_write in Hin by assumption. cbv zeta in Hin.
    destruct (utf8_decode _) as [cmd|]; [|contradiction].
    destruct (parse_scpi_command (Some (strip cmd)) awg); [|contradiction].
    destruct Hin as [<-|[]].
    exists (be_digits 4 (bytes_to_uint (slice rx_buf 60 64))).
    split; [right; left; unfold len; now rewrite length_be_digits
           | reflexivity]. }
  destruct (Z.eq_dec (procedure_of rx_buf) DEVICE_READ) as [H12|H12].
  { rewrite lxi_request_device_read in Hin by assumption. cbv zeta in Hin.
    destruct Hin as [<-|[]].
    exists ([x00; x00; x00; x04] ++ be_digits 4 (len AWG_ID_STRING + 1)
            ++ AWG_ID_STRING ++ [x0a; x00; x00]).
    split; [right; right; now left | reflexivity]. }
  destruct (Z.eq_dec (procedure_of rx_buf) DESTROY_LINK) as [H23|H23].
  { rewrite lxi_request_destroy_link in Hin by assumption. cbv zeta in Hin.
    destruct Hin as [<-|[]].
    exists []. split; [right; right; right; now left | reflexivity]. }
  rewrite lxi_request_unknown in Hin by assumption. contradiction.
Qed.

Lemma lxi_loop_reply_count (recvs : list bytes) (awg : Awg) :
  (length (sent (fst (lxi_loop parse_scpi_command recvs awg)))
   <= length (filter (fun rx_buf => len rx_buf >? 0) recvs))%nat.
Proof.
  revert awg. induction recvs as [|rx_buf recvs IH]; intros awg; [apply le_n|].
  rewrite lxi_loop_cons. cbn [filter].
  destruct (lxi_request_outcome Awg parse_scpi_command rx_buf awg) as
    [Hz | Hpos Hprog | Hprog Hproc | e Hprog Hproc
     | mark body awg' Hprog Hproc Hmark | mark body Hprog Hproc Hmark];
    try (pose proof (vxi11_record_nonempty _ Hprog));
    (destruct (Z.gtb_spec (len rx_buf) 0); [|try lia]);
    cbn [io_bind io_ret fst app length];
    repeat match goal with
      | |- context [lxi_loop parse_scpi_command recvs ?a] =>
        let H := fresh in
        pose proof (IH a) as H;
        destruct (lxi_loop parse_scpi_command recvs a) as [t r];
        cbn [fst] in *
      end;
    try change (sent (EvSend ?d :: ?t)) with (d :: sent t);
    cbn [length sent flat_map app]; lia.
Qed.

End SessionReplies.

(** X15. When handling a received record raises, no reply to that record
    has been sent, and the exception is one of three: the [ValueError]
    of a record of another program; a [UnicodeDecodeError] on a
    CREATE_LINK or DEVICE_WRITE; or whatever the command parser raised
    on the command of a DEVICE_WRITE.  No [KeyError] and no
    [OverflowError] comes from the server's own code. *)
Theorem lxi_request_exceptions :
  forall (Awg : Type) (parse_scpi_command : option str -> Awg -> result Awg)
         (rx_buf : bytes) (awg : Awg) (t : list event) (e : exn),
    lxi_request parse_scpi_command rx_buf awg = (t, Raise e) ->
    t = []
    /\ (bytes_to_uint (slice rx_buf 0x10 0x14) <> VXI11_CORE_ID /\ e = ValueError
        \/ bytes_to_uint (slice rx_buf 0x10 0x14) = VXI11_CORE_ID
           /\ (In (bytes_to_uint (slice rx_buf 0x18 0x1c))
                  [CREATE_LINK; DEVICE_WRITE]
               /\ e = UnicodeDecodeError
               \/ bytes_to_uint (slice rx_buf 0x18 0x1c) = DEVICE_WRITE
                  /\ exists cmd, parse_scpi_command (Some cmd) awg = Raise e)).
Proof.
  intros Awg parse_scpi_command. apply lxi_request_raise_cases.
Qed.

Lemma lxi_request_exceptions_witness :
  let rx_buf := record_marked (rpc_call sample_xid 395183 1 11
                  (be_digits 4 0 ++ be_digits 4 0 ++ be_digits 4 0
                   ++ be_digits 4 0 ++ be_digits 4 2 ++ [xc3; x28])) in
  lxi_request sample_parser rx_buf None = ([], Raise UnicodeDecodeError)
  /\ bytes_to_uint (slice rx_buf 0x10 0x14) = VXI11_CORE_ID.
Proof.
  intros rx_buf.
  assert (Hrun : lxi_request sample_parser rx_buf None
                 = ([], Raise UnicodeDecodeError)) by reflexivity.
  split; [exact Hrun|].
  destruct (lxi_request_exceptions _ sample_parser rx_buf None _ _ Hrun)
    as [_ [[_ He]|[Hp _]]]; [discriminate He | exact Hp].
Defined.

(** X16. A DESTROY_LINK record ends the session: its reply, with the
    single field error code 0, is sent, the loop is left, the connection
    is closed, and what the client sends after it is never read. *)
Theorem destroy_link_ends_session :
  forall (Awg : Type) (parse_scpi_command : option str -> Awg -> result Awg)
         (rx_buf : bytes) (after : list bytes) (awg : Awg),
    bytes_to_uint (slice rx_buf 0x10 0x14) = VXI11_CORE_ID ->
    bytes_to_uint (slice rx_buf 0x18 0x1c) = DESTROY_LINK ->
    process_lxi_requests parse_scpi_command (rx_buf :: after) awg
    = ([EvSend (record_marked (generate_rpc_header (slice rx_buf 4 8)
                               ++ [x00; x00; x00; x00]));
        EvClose],
       Ok (Left_loop awg)).
Proof.
  intros Awg parse_scpi_command rx_buf after awg Hprog Hproc.
  unfold process_lxi_requests.
  rewrite lxi_loop_cons, lxi_request_destroy_link by assumption.
  reflexivity.
Qed.

Lemma destroy_link_ends_session_witness :
  bytes_to_uint (slice sample_destroy_link 0x10 0x14) = VXI11_CORE_ID
  /\ bytes_to_uint (slice sample_destroy_link 0x18 0x1c) = DESTROY_LINK
  /\ process_lxi_requests sample_parser
       [sample_destroy_link; sample_device_write] None
     = ([EvSend (record_marked (generate_rpc_header
                                  (slice sample_destroy_link 4 8)
                                ++ [x00; x00; x00; x00]));
         EvClose],
        Ok (Left_loop None)).
Proof.
  assert (H1 : bytes_to_uint (slice sample_destroy_link 0x10 0x14)
               = VXI11_CORE_ID) by reflexivity.
  assert (H2 : bytes_to_uint (slice sample_destroy_link 0x18 0x1c)
               = DESTROY_LINK) by reflexivity.
  split; [exact H1 | split; [exact H2|]].
  exact (destroy_link_ends_session _ sample_parser sample_destroy_link
           [sample_device_write] None H1 H2).
Defined.

Lemma reply_error_code (xid rest : bytes) :
  length xid = 4%nat ->
  slice (generate_rpc_header xid ++ [x00; x00; x00; x00] ++ rest) 24 28
  = [x00; x00; x00; x00].
Proof.
  intros Hx. rewrite slice_spec by lia.
  change (Z.to_nat (28 - 24)) with 4%nat. change (Z.to_nat 24) with 24%nat.
  rewrite skipn_app.
  assert (Hl : length (generate_rpc_header xid) = 24%nat).
  { rewrite generate_rpc_header_eq, length_app, Hx. reflexivity. }
  rewrite skipn_all2, Hl by (rewrite Hl; apply le_n).
  cbn [Nat.sub skipn app].
  now apply (firstn_app_exact [x00; x00; x00; x00] rest 4).
Qed.

(** X17. Every reply sent in a VXI-11 session is a record mark followed
    by a message of 28 to 60 bytes, a whole number of 4-byte words, whose
    first word after the 24-byte reply header -- the error code of the
    VXI-11 reply -- is 0. *)
Theorem session_replies_well_formed :
  forall (Awg : Type) (parse_scpi_command : option str -> Awg -> result Awg)
         (recvs : list bytes) (awg : Awg) (d : bytes),
    In d (sent (fst (process_lxi_requests parse_scpi_command recvs awg))) ->
    exists payload : bytes,
      d = record_marked payload
      /\ slice payload 24 28 = [x00; x00; x00; x00]
      /\ len payload mod 4 = 0
      /\ 28 <= len payload <= 60.
Proof.
  intros Awg parse_scpi_command recvs awg d Hin.
  rewrite process_lxi_requests_sent in Hin.
  destruct (lxi_loop_sent_request _ _ _ _ _ Hin) as (rx & a0 & _ & Hd).
  destruct (lxi_request_reply_shape _ _ _ _ _ Hd) as (Hx & rest & Hr & ->).
  eexists. split; [reflexivity|]. split; [now apply reply_error_code|].
  rewrite !len_app, len_generate_rpc_header.
  replace (len (slice rx 4 8)) with 4 by (unfold len; now rewrite Hx).
  change (len [x00; x00; x00; x00]) with 4.
  destruct Hr as [E|[E|[E|[E|[]]]]]; rewrite <- E; split;
    try reflexivity; lia.
Qed.

Lemma session_replies_well_formed_witness :
  let t := fst (process_lxi_requests sample_parser
                  [sample_create_link; sample_device_read] None) in
  let d := record_marked (generate_rpc_header sample_xid
                          ++ generate_lxi_create_link_response) in
  In d (sent t)
  /\ exists payload : bytes,
       d = record_marked payload /\ len payload mod 4 = 0.
Proof.
  intros t d.
  assert (Hin : In d (sent t)) by (left; reflexivity).
  split; [exact Hin|].
  destruct (session_replies_well_formed _ sample_parser _ None d Hin)
    as (payload & Hd & _ & Hm & _).
  exists payload. split; [exact Hd | exact Hm].
Defined.

(** X18. A session never sends more replies than it received records
    that are not empty: at most one reply per record, none for a receive
    of zero bytes. *)
Theorem session_reply_count :
  forall (Awg : Type) (parse_scpi_command : option str -> Awg -> result Awg)
         (recvs : list bytes) (awg : Awg),
    (length (sent (fst (process_lxi_requests parse_scpi_command recvs awg)))
     <= length (filter (fun rx_buf => len rx_buf >? 0) recvs))%nat.
Proof.
  intros Awg parse_scpi_command recvs awg.
  rewrite process_lxi_requests_sent. apply lxi_loop_reply_count.
Qed.

(** ** Commands *)

Lemma utf8_decode_ascii (bs : bytes) :
  Forall (fun b => byte_val b < 0x80) bs ->
  utf8_decode bs = Some (map byte_val bs).
Proof.
  induction 1 as [|b bs Hb _ IH]; [reflexivity|].
  cbn [utf8_decode map].
  destruct (Z.ltb_spec (byte_val b) 0x80); [|lia].
  now rewrite IH.
Qed.

(** X19. Data made of ASCII bytes always decodes, each byte to the code
    point of the same value: on a DEVICE_WRITE record with such data
    [parse_lxi_request] does not raise and returns the data as the
    command, stripped, with the length read from the record. *)
Theorem parse_device_write_ascii :
  forall rx_data : bytes,
    let cmd_length := bytes_to_uint (slice rx_data 0x3C 0x40) in
    let data := slice rx_data 0x40 (0x40 + cmd_length) in
    bytes_to_uint (slice rx_data 0x10 0x14) = VXI11_CORE_ID ->
    bytes_to_uint (slice rx_data 0x18 0x1c) = DEVICE_WRITE ->
    Forall (fun b => byte_val b < 0x80) data ->
    parse_lxi_request rx_data
    = Ok (Tuple4 OK DEVICE_WRITE (Some (strip (map byte_val data))) cmd_length).
Proof.
  intros rx_data cmd_length data Hprog Hproc Hascii.
  unfold parse_lxi_request. rewrite Hprog, Hproc.
  cbn [Z.eqb Pos.eqb negb VXI11_CORE_ID DEVICE_WRITE CREATE_LINK].
  fold cmd_length. fold data. unfold decode_utf8.
  now rewrite utf8_decode_ascii.
Qed.

Lemma parse_device_write_ascii_witness :
  bytes_to_uint (slice sample_device_write 0x10 0x14) = VXI11_CORE_ID
  /\ bytes_to_uint (slice sample_device_write 0x18 0x1c) = DEVICE_WRITE
  /\ Forall (fun b => byte_val b < 0x80)
       (slice sample_device_write 0x40
          (0x40 + bytes_to_uint (slice sample_device_write 0x3C 0x40)))
  /\ parse_lxi_request sample_device_write
     = Ok (Tuple4 OK DEVICE_WRITE (Some (map byte_val sample_command)) 16).
Proof.
  assert (H1 : bytes_to_uint (slice sample_device_write 0x10 0x14)
               = VXI11_CORE_ID) by reflexivity.
  assert (H2 : bytes_to_uint (slice sample_device_write 0x18 0x1c)
               = DEVICE_WRITE) by reflexivity.
  assert (H3 : Forall (fun b => byte_val b < 0x80)
                 (slice sample_device_write 0x40
                    (0x40 + bytes_to_uint (slice sample_device_write 0x3C 0x40)))).
  { vm_compute. repeat constructor. }
  split; [exact H1 | split; [exact H2 | split; [exact H3|]]].
  rewrite (parse_device_write_ascii sample_device_write H1 H2 H3).
  reflexivity.
Defined.

Lemma lstrip_head (s : str) (c : Z) :
  hd_error (lstrip s) = Some c -> isspace c = false.
Proof.
  induction s as [|a s IH]; [discriminate|].
  cbn [lstrip]. destruct (isspace a) eqn:Ea; [exact IH|].
  intros H. injection H as <-. exact Ea.
Qed.

Lemma lstrip_suffix (s : str) :
  exists sp, s = sp ++ lstrip s /\ Forall (fun c => isspace c = true) sp.
Proof.
  induction s as [|a s (sp & IH & Hsp)]; [exists []; split; [reflexivity | constructor]|].
  cbn [lstrip]. destruct (isspace a) eqn:Ea.
  - exists (a :: sp). cbn [app]. split; [now rewrite <- IH | now constructor].
  - exists []. split; [reflexivity | constructor].
Qed.

Lemma hd_error_app {A} (l1 l2 : list A) (c : A) :
  hd_error l1 = Some c -> hd_error (l1 ++ l2) = Some c.
Proof. destruct l1; [discriminate | trivial]. Qed.

(** [strip] takes white space off both ends and nothing else. *)
Lemma strip_decompose (s : str) :
  exists sp1 sp2,
    s = sp1 ++ strip s ++ sp2
    /\ Forall (fun c => isspace c = true) sp1
    /\ Forall (fun c => isspace c = true) sp2.
Proof.
  unfold strip.
  destruct (lstrip_suffix s) as (sp1 & H1 & F1).
  destruct (lstrip_suffix (rev (lstrip s))) as (sp2 & H2 & F2).
  exists sp1, (rev sp2). split; [|split; [exact F1 | now apply Forall_rev]].
  rewrite <- rev_app_distr, <- H2, rev_involutive. exact H1.
Qed.

Lemma strip_ends (s : str) (c : Z) :
  hd_error (strip s) = Some c \/ hd_error (rev (strip s)) = Some c ->
  isspace c = false.
Proof.
  unfold strip. intros [H|H].
  - destruct (lstrip_suffix (rev (lstrip s))) as (sp & Hsp & _).
    apply (f_equal (@rev Z)) in Hsp.
    rewrite rev_involutive, rev_app_distr in Hsp.
    apply (lstrip_head s). rewrite Hsp. now apply hd_error_app.
  - rewrite rev_involutive in H. now apply lstrip_head in H.
Qed.

Lemma parse_lxi_request_command (rx_data : bytes) (status vxi11_procedure : Z)
  (cmd : str) (cmd_length : Z) :
  parse_lxi_request rx_data
  = Ok (Tuple4 status vxi11_procedure (Some cmd) cmd_length) ->
  exists (start : Z) (s : str),
    In start [0x3C; 0x40]
    /\ utf8_decode (slice rx_data start (start + cmd_length)) = Some s
    /\ cmd = strip s.
Proof.
  unfold parse_lxi_request, decode_utf8.
  destruct (negb _); [discriminate|].
  destruct (_ =? CREATE_LINK).
  { destruct (utf8_decode _) as [s|] eqn:E; [|discriminate].
    cbn [rbind]. intros H. injection H as _ _ <- <-.
    exists 0x3C, s. split; [now left | now split]. }
  destruct (_ =? DEVICE_WRITE).
  { destruct (utf8_decode _) as [s|] eqn:E; [|discriminate].
    cbn [rbind]. intros H. injection H as _ _ <- <-.
    exists 0x40, s. split; [right; now left | now split]. }
  destruct (_ =? DEVICE_READ); [discriminate|].
  destruct (_ =? DESTROY_LINK); discriminate.
Qed.

(** X20. A command that [parse_lxi_request] returns is the decoded text
    of the record with white-space characters (as [str.isspace] defines
    them) taken off both ends, and nothing else: it neither begins nor
    ends with white space, and a character that is not white space, such
    as a NUL after the line terminator, stays in the command. *)
Theorem parsed_command_is_stripped :
  forall (rx_data : bytes) (status vxi11_procedure : Z) (cmd : str)
         (cmd_length : Z),
    parse_lxi_request rx_data
    = Ok (Tuple4 status vxi11_procedure (Some cmd) cmd_length) ->
    (forall c : Z,
        hd_error cmd = Some c \/ hd_error (rev cmd) = Some c ->
        isspace c = false)
    /\ exists (start : Z) (sp1 sp2 : str),
         In start [0x3C; 0x40]
         /\ utf8_decode (slice rx_data start (start + cmd_length))
            = Some (sp1 ++ cmd ++ sp2)
         /\ Forall (fun c => isspace c = true) sp1
         /\ Forall (fun c => isspace c = true) sp2.
Proof.
  intros rx_data status vxi11_procedure cmd cmd_length Hparse.
  destruct (parse_lxi_request_command _ _ _ _ _ Hparse)
    as (start & s & Hstart & Hdec & ->).
  split; [intros c; apply (strip_ends s)|].
  destruct (strip_decompose s) as (sp1 & sp2 & Hs & F1 & F2).
  exists start, sp1, sp2. split; [exact Hstart|].
  split; [now rewrite <- Hs | now split].
Qed.

Lemma parsed_command_is_stripped_witness :
  let rx_data := record_marked (rpc_call sample_xid 395183 1 11
                   (be_digits 4 0 ++ be_digits 4 0 ++ be_digits 4 0
                    ++ be_digits 4 0 ++ be_digits 4 9
                    ++ list_byte_of_string " *IDN?" ++ [x0a; x00; x00])) in
  let cmd := map byte_val (list_byte_of_string "*IDN?" ++ [x0a; x00; x00]) in
  parse_lxi_request rx_data = Ok (Tuple4 OK DEVICE_WRITE (Some cmd) 9)
  /\ isspace 0 = false
  /\ exists (start : Z) (sp1 sp2 : str),
       utf8_decode (slice rx_data start (start + 9)) = Some (sp1 ++ cmd ++ sp2).
Proof.
  intros rx_data cmd.
  assert (H : parse_lxi_request rx_data = Ok (Tuple4 OK DEVICE_WRITE (Some cmd) 9))
    by reflexivity.
  split; [exact H|].
  destruct (parsed_command_is_stripped rx_data _ _ _ _ H)
    as (Hends & start & sp1 & sp2 & _ & Hdec & _).
  split; [exact (Hends 0 (or_intror eq_refl))|].
  exists start, sp1, sp2. exact Hdec.
Defined.

(** X21. The data of a DEVICE_WRITE is what the buffer holds from offset
    0x40 on, cut at the length L the record announces: of a read of at
    most 255 bytes, at most 191 bytes reach the decoder, while the length
    returned (and acknowledged in the reply) is L whatever the buffer
    holds. *)
Theorem device_write_data_bounds :
  forall rx_data : bytes,
    let cmd_length := bytes_to_uint (slice rx_data 0x3C 0x40) in
    let data := slice rx_data 0x40 (0x40 + cmd_length) in
    bytes_to_uint (slice rx_data 0x10 0x14) = VXI11_CORE_ID ->
    bytes_to_uint (slice rx_data 0x18 0x1c) = DEVICE_WRITE ->
    len data = Z.min cmd_length (Z.max 0 (len rx_data - 0x40))
    /\ (len rx_data <= 255 -> len data <= 191)
    /\ parse_lxi_request rx_data
       = (s <- decode_utf8 data ;;
          Ok (Tuple4 OK DEVICE_WRITE (Some (strip s)) cmd_length)).
Proof.
  intros rx_data cmd_length data Hprog Hproc.
  pose proof (field_range rx_data 0x3C) as HL.
  change (0x3C + 4) with 0x40 in HL. fold cmd_length in HL.
  assert (Hlen : len data = Z.min cmd_length (Z.max 0 (len rx_data - 0x40))).
  { unfold data, slice, len. rewrite length_firstn, length_skipn. lia. }
  split; [exact Hlen|]. split; [lia|].
  unfold parse_lxi_request. rewrite Hprog, Hproc.
  cbn [Z.eqb Pos.eqb negb VXI11_CORE_ID DEVICE_WRITE CREATE_LINK].
  fold cmd_length. fold data. unfold decode_utf8.
  now destruct (utf8_decode data).
Qed.

Lemma device_write_data_bounds_witness :
  let rx_data := firstn 70 sample_device_write in
  bytes_to_uint (slice rx_data 0x10 0x14) = VXI11_CORE_ID
  /\ bytes_to_uint (slice rx_data 0x18 0x1c) = DEVICE_WRITE
  /\ bytes_to_uint (slice rx_data 0x3C 0x40) = 16
  /\ len (slice rx_data 0x40 (0x40 + 16)) = 6.
Proof.
  intros rx_data.
  assert (H1 : bytes_to_uint (slice rx_data 0x10 0x14) = VXI11_CORE_ID)
    by reflexivity.
  assert (H2 : bytes_to_uint (slice rx_data 0x18 0x1c) = DEVICE_WRITE)
    by reflexivity.
  split; [exact H1 | split; [exact H2 | split; [reflexivity|]]].
  exact (proj1 (device_write_data_bounds rx_data H1 H2)).
Defined.

(** X22. For an identity string of any length below [2^32 - 1] the
    DEVICE_READ body is error code 0, reason 4, a length field holding
    the length of the string plus one, the string and the bytes 0x0A
    0x00 0x00; it is a whole number of 4-byte words exactly when the
    length of the string leaves remainder 1 modulo 4 (as 21 does). *)
Theorem generate_lxi_idn_response_layout :
  forall id_string : bytes,
    len id_string + 1 < 2 ^ 32 ->
    exists id_size : bytes,
      generate_lxi_idn_response id_string
      = Ok ([x00; x00; x00; x00] ++ [x00; x00; x00; x04]
            ++ id_size ++ id_string ++ [x0a; x00; x00])
      /\ length id_size = 4%nat
      /\ bytes_to_uint id_size = len id_string + 1
      /\ (forall resp, generate_lxi_idn_response id_string = Ok resp ->
          len resp = len id_string + 15
          /\ (len resp mod 4 = 0 <-> len id_string mod 4 = 1)).
Proof.
  intros id_string H. pose proof (len_nonneg id_string) as H0.
  assert (Hr : 0 <= len id_string + 1 < 2 ^ 32) by lia.
  assert (Hrun : generate_lxi_idn_response id_string
                 = Ok ([x00; x00; x00; x00] ++ [x00; x00; x00; x04]
                       ++ be_digits 4 (len id_string + 1) ++ id_string
                       ++ [x0a; x00; x00])).
  { unfold generate_lxi_idn_response. rewrite uint_to_bytes_ok by assumption.
    cbn [rbind app]. now rewrite <- !app_assoc. }
  exists (be_digits 4 (len id_string + 1)).
  split; [exact Hrun|]. split; [apply length_be_digits|].
  split; [now apply bytes_to_uint_be_digits|].
  intros resp Hresp.
  assert (E : [x00; x00; x00; x00] ++ [x00; x00; x00; x04]
              ++ be_digits 4 (len id_string + 1) ++ id_string
              ++ [x0a; x00; x00] = resp) by congruence.
  rewrite <- E. clear E Hresp.
  assert (Hlen : len ([x00; x00; x00; x00] ++ [x00; x00; x00; x04]
                      ++ be_digits 4 (len id_string + 1) ++ id_string
                      ++ [x0a; x00; x00]) = len id_string + 15).
  { rewrite !len_app. unfold len at 3. rewrite length_be_digits.
    change (len [x00; x00; x00; x00]) with 4.
    change (len [x00; x00; x00; x04]) with 4.
    change (len [x0a; x00; x00]) with 3. lia. }
  split; [exact Hlen|]. rewrite Hlen.
  pose proof (Z.div_mod (len id_string + 15) 4 ltac:(lia)).
  pose proof (Z.div_mod (len id_string) 4 ltac:(lia)).
  pose proof (Z.mod_pos_bound (len id_string + 15) 4 ltac:(lia)).
  pose proof (Z.mod_pos_bound (len id_string) 4 ltac:(lia)).
  lia.
Qed.

Lemma generate_lxi_idn_response_layout_witness :
  len AWG_ID_STRING + 1 < 2 ^ 32
  /\ exists id_size : bytes,
       generate_lxi_idn_response AWG_ID_STRING
       = Ok ([x00; x00; x00; x00] ++ [x00; x00; x00; x04]
             ++ id_size ++ AWG_ID_STRING ++ [x0a; x00; x00])
       /\ bytes_to_uint id_size = 22.
Proof.
  assert (H : len AWG_ID_STRING + 1 < 2 ^ 32) by reflexivity.
  split; [exact H|].
  destruct (generate_lxi_idn_response_layout AWG_ID_STRING H)
    as (id_size & Hrun & _ & Hv & _).
  exists id_size. split; [exact Hrun | exact Hv].
Defined.

(** ** The driver factory *)

Section AwgFactoryProperties.

Variable AwgClass : Type.

Lemma get_names_keys (self : AwgFactory AwgClass) :
  get_names self = map fst self.
Proof.
  unfold get_names.
  assert (H : forall (l acc : list string),
             fold_left (fun out a => out ++ [a]) l acc = acc ++ l).
  { induction l as [|a l IH]; intros acc; cbn [fold_left].
    - now rewrite app_nil_r.
    - now rewrite IH, <- app_assoc. }
  apply H.
Qed.

Lemma get_names_add_awg (self : AwgFactory AwgClass) (short_name : string)
  (awg_class : AwgClass) :
  (In short_name (get_names self) ->
   get_names (add_awg self short_name awg_class) = get_names self)
  /\ (~ In short_name (get_names self) ->
      get_names (add_awg self short_name awg_class)
      = get_names self ++ [short_name]).
Proof.
  rewrite !get_names_keys. unfold add_awg.
  induction self as [|[k v] self [IHin IHout]]; cbn [dict_setitem map fst].
  - split; [contradiction | reflexivity].
  - destruct (String.eqb_spec k short_name) as [->|Hne]; cbn [map fst app].
    + split; [reflexivity|]. intros H. contradiction H. now left.
    + split; intros H.
      * rewrite IHin; [reflexivity|]. destruct H; [contradiction | assumption].
      * rewrite IHout; [reflexivity|]. intros Hin. apply H. now right.
Qed.

End AwgFactoryProperties.

(** X23. After [add_awg] the factory returns the registered class under
    the registered name -- the last one registered, if the name was
    already in use -- and leaves what it returns, or raises, for every
    other name as it was. *)
Theorem get_class_after_add :
  forall (AwgClass : Type) (self : AwgFactory AwgClass)
         (short_name other : string) (awg_class : AwgClass),
    get_class_by_name (add_awg self short_name awg_class) other
    = if String.eqb short_name other
      then Ok awg_class
      else get_class_by_name self other.
Proof.
  intros AwgClass self short_name other awg_class.
  unfold get_class_by_name, add_awg.
  induction self as [|[k v] self IH]; cbn [dict_setitem dict_getitem].
  - reflexivity.
  - destruct (String.eqb_spec k short_name) as [->|Hne]; cbn [dict_getitem].
    + now destruct (String.eqb short_name other).
    + rewrite IH. destruct (String.eqb_spec k other) as [->|Hno];
        [|reflexivity].
      destruct (String.eqb_spec short_name other) as [->|_];
        [contradiction | reflexivity].
Qed.

(** X24. [get_names] lists the registered names in the order of their
    first registration, each name once: registering a new name appends
    it, registering a name again changes nothing in the list. *)
Theorem get_names_registrations :
  forall (AwgClass : Type) (registrations : list (string * AwgClass)),
    let factory_after (regs : list (string * AwgClass)) :=
      fold_left (fun self r => add_awg self (fst r) (snd r)) regs
        AwgFactory_init in
    NoDup (get_names (factory_after registrations))
    /\ (forall (short_name : string) (awg_class : AwgClass),
           get_names (factory_after (registrations ++ [(short_name, awg_class)]))
           = if in_dec string_dec short_name
                  (get_names (factory_after registrations))
             then get_names (factory_after registrations)
             else get_names (factory_after registrations) ++ [short_name]).
Proof.
  intros AwgClass registrations factory_after.
  assert (Hstep : forall self short_name awg_class,
             get_names (@add_awg AwgClass self short_name awg_class)
             = if in_dec string_dec short_name (get_names self)
               then get_names self else get_names self ++ [short_name]).
  { intros self short_name awg_class.
    destruct (get_names_add_awg AwgClass self short_name awg_class) as [Hi Ho].
    destruct (in_dec string_dec short_name (get_names self)); auto. }
  split.
  - subst factory_after. cbv beta.
    induction registrations as [|[n c] regs IH] using rev_ind.
    + constructor.
    + rewrite fold_left_app. cbn [fold_left fst snd]. rewrite Hstep.
      destruct (in_dec string_dec n _) as [Hin|Hout]; [exact IH|].
      apply NoDup_app; [exact IH | repeat constructor; intros []|].
      intros a Ha [<-|[]]. contradiction.
  - intros short_name awg_class. subst factory_after. cbv beta.
    rewrite fold_left_app. cbn [fold_left fst snd]. apply Hstep.
Qed.

(** X25. [get_class_by_name] raises [KeyError] exactly for the names
    [get_names] does not list; for a listed name it returns a class
    registered under that name. *)
Theorem get_class_by_name_registered :
  forall (AwgClass : Type) (self : AwgFactory AwgClass) (short_name : string),
    (In short_name (get_names self) ->
     exists awg_class : AwgClass,
       get_class_by_name self short_name = Ok awg_class
       /\ In (short_name, awg_class) self)
    /\ (~ In short_name (get_names self) ->
        get_class_by_name self short_name = Raise KeyError).
Proof.
  intros AwgClass self short_name. rewrite get_names_keys.
  unfold get_class_by_name.
  induction self as [|[k v] self [IHin IHout]]; cbn [dict_getitem map fst].
  - split; [contradiction | reflexivity].
  - destruct (String.eqb_spec k short_name) as [->|Hne].
    + split.
      * intros _. exists v. split; [reflexivity | now left].
      * intros H. contradiction H. now left.
    + split; intros H.
      * destruct IHin as (c & Hc & Hi).
        { destruct H; [contradiction | assumption]. }
        exists c. split; [exact Hc | now right].
      * apply IHout. intros Hin. apply H. now right.
Qed.

Lemma get_class_by_name_registered_witness :
  let factory := add_awg (add_awg AwgFactory_init "dummy" 1%nat) "jds6600" 2%nat in
  In "dummy"%string (get_names factory)
  /\ ~ In "fy6600"%string (get_names factory)
  /\ (exists awg_class : nat,
        get_class_by_name factory "dummy" = Ok awg_class
        /\ In ("dummy"%string, awg_class) factory)
  /\ get_class_by_name factory "fy6600" = Raise KeyError.
Proof.
  intros factory.
  assert (H1 : In "dummy"%string (get_names factory)) by (left; reflexivity).
  assert (H2 : ~ In "fy6600"%string (get_names factory)).
  { intros [H|[H|[]]]; discriminate H. }
  split; [exact H1 | split; [exact H2|]].
  split.
  - exact (proj1 (get_class_by_name_registered nat factory "dummy") H1).
  - exact (proj2 (get_class_by_name_registered nat factory "fy6600") H2).
Defined.

(** ** The command parser in a session *)

(** X26. Handling a record leaves the state of the command parser and
    its driver untouched, except for a DEVICE_WRITE: there the parser is
    run once, on the decoded and stripped data of the record, and the
    state it returns is the one the loop goes on with. *)
Theorem parser_runs_only_on_device_write :
  forall (Awg : Type) (parse_scpi_command : option str -> Awg -> result Awg)
         (rx_buf : bytes) (awg awg' : Awg) (t : list event) (ctl : loop_ctl),
    lxi_request parse_scpi_command rx_buf awg = (t, Ok (ctl, awg')) ->
    (bytes_to_uint (slice rx_buf 0x10 0x14) = VXI11_CORE_ID
     /\ bytes_to_uint (slice rx_buf 0x18 0x1c) = DEVICE_WRITE
     /\ exists s : str,
          utf8_decode (slice rx_buf 0x40
                         (0x40 + bytes_to_uint (slice rx_buf 0x3C 0x40)))
          = Some s
          /\ parse_scpi_command (Some (strip s)) awg = Ok awg')
    \/ (bytes_to_uint (slice rx_buf 0x18 0x1c) <> DEVICE_WRITE
        \/ bytes_to_uint (slice rx_buf 0x10 0x14) <> VXI11_CORE_ID)
       /\ awg' = awg.
Proof.
  intros Awg parse_scpi_command rx_buf awg awg' t ctl Hrun.
  destruct (Z.eq_dec (bytes_to_uint (slice rx_buf 0x18 0x1c)) DEVICE_WRITE)
    as [H11|H11].
  - destruct (Z.eq_dec (len rx_buf) 0) as [Hz|Hz].
    { rewrite slice_beyond in H11 by lia. discriminate H11. }
    assert (Hpos : len rx_buf > 0) by (pose proof (len_nonneg rx_buf); lia).
    destruct (Z.eq_dec (bytes_to_uint (slice rx_buf 0x10 0x14)) VXI11_CORE_ID)
      as [Hprog|Hprog].
    2: { rewrite lxi_request_not_vxi11 in Hrun by assumption. discriminate. }
    left. split; [assumption|]. split; [assumption|].
    rewrite lxi_request_device_write in Hrun by assumption. cbv zeta in Hrun.
    destruct (utf8_decode _) as [s|]; [|discriminate].
    exists s. split; [reflexivity|].
    destruct (parse_scpi_command (Some (strip s)) awg); [|discriminate].
    now injection Hrun as _ _ <-.
  - right. split; [now left|].
    pose proof (lxi_request_outcome Awg parse_scpi_command rx_buf awg) as Hout.
    rewrite Hrun in Hout.
    inversion Hout as
      [Hz Et | Hpos Hprog Et | Hprog Hproc Et | e Hprog Hproc Et
       | mark body awg1 Hprog Hproc Hmark Et | mark body Hprog Hproc Hmark Et];
      subst; try reflexivity.
    destruct (Z.eq_dec (bytes_to_uint (slice rx_buf 0x18 0x1c)) CREATE_LINK)
      as [H10|H10].
    + rewrite lxi_request_create_link in Hrun by assumption. cbv zeta in Hrun.
      destruct (utf8_decode _); [|discriminate]. now injection Hrun.
    + destruct Hproc as [E|[E|[E|[]]]]; try congruence.
      rewrite lxi_request_device_read in Hrun by (symmetry in E; assumption).
      cbv zeta in Hrun. now injection Hrun.
Qed.

Lemma parser_runs_only_on_device_write_witness :
  lxi_request sample_parser sample_device_write None
  = (fst (lxi_request sample_parser sample_device_write None),
     Ok (Continue, Some (map byte_val sample_command)))
  /\ exists s : str,
       sample_parser (Some (strip s)) None
       = Ok (Some (map byte_val sample_command)).
Proof.
  assert (Hrun : lxi_request sample_parser sample_device_write None
                 = (fst (lxi_request sample_parser sample_device_write None),
                    Ok (Continue, Some (map byte_val sample_command))))
    by reflexivity.
  split; [exact Hrun|].
  destruct (parser_runs_only_on_device_write _ sample_parser _ _ _ _ _ Hrun)
    as [(_ & _ & s & _ & Hs)|[[H|H] _]].
  - exists s. exact Hs.
  - contradiction H. reflexivity.
  - contradiction H. reflexivity.
Defined.
